(** * Host/device buffers of [src/gpu_utils/cuda_utils.cuh]

    A shallow embedding of [CudaGlobalPtr], [IndexedDataArrayMask],
    [IndexedDataArray] and [ProjectionParams], with the properties their
    specification states about ownership, child views, transfers and the
    sampling table.

    Conventions.
    - [size_t], [unsigned long] and pointers are 64-bit: they are integers of
      [Z] in [0, 2^64), and every operation that can leave that range is
      written with [wrap64].  [long int] is a [Z] in [-2^63, 2^63).
    - The two address spaces (host, device) are byte memories [Z -> byte].
      The C++ heap ([new[]] / [delete[]]) and the CUDA runtime
      ([cudaMalloc], [cudaFree], [cudaMemcpy], [cudaMemset]) are not part of
      the header; they are modelled by the small runtime of section
      [Runtime], which records every call it receives in a trace.
    - A member function is a function from the object to a computation of
      the updated object in the monad [M] (state = [World], failure = the
      process ended). *)

From Stdlib Require Import ZArith Lia Bool List String PrimFloat.
From stdpp Require Import base list gmap.

Local Open Scope Z_scope.

(** ** Machine integers *)

Definition wrap64 (z : Z) : Z := z mod 2 ^ 64.

(** conversion of a [long int] argument to [unsigned long] / [size_t] *)
Definition to_ulong (z : Z) : Z := wrap64 z.

(** [&p[i]] for [T *p] with [sizeof(T) = sz]: the address of element [i] *)
Definition ptr_index (sz p i : Z) : Z := wrap64 (p + i * sz).

Definition NULL : Z := 0.

(** ** The two memories and the runtime state *)

Definition mem : Type := Z -> Byte.byte.

(** [n] bytes read from address [p] *)
Definition read_bytes (m : mem) (p n : Z) : list Byte.byte :=
  map (fun i => m (p + i)) (seqZ 0 n).

(** [n] bytes of [src] at [s] stored into [dst] at [d] (the two memories are
    different address spaces, or the ranges do not overlap) *)
Definition copy_bytes (src : mem) (s : Z) (dst : mem) (d n : Z) : mem :=
  fun a => if (d <=? a) && (a <? d + n) then src (s + (a - d)) else dst a.

(** [n] bytes of value [v] stored at [d] *)
Definition fill_bytes (v : Byte.byte) (dst : mem) (d n : Z) : mem :=
  fun a => if (d <=? a) && (a <? d + n) then v else dst a.

Inductive Event : Type :=
  | EvNewArr (p bytes : Z)            (* new T[n] returned p *)
  | EvDeleteArr (p : Z)               (* delete [] p *)
  | EvCudaMalloc (p bytes : Z)        (* cudaMalloc returned p *)
  | EvCudaFree (p : Z)                (* cudaFree(p) *)
  | EvMemcpyH2D (dst src bytes : Z)   (* cudaMemcpy(.., cudaMemcpyHostToDevice) *)
  | EvMemcpyD2H (dst src bytes : Z)   (* cudaMemcpy(.., cudaMemcpyDeviceToHost) *)
  | EvMemset (dst value bytes : Z)    (* cudaMemset *)
  | EvPrintf (msg : string).          (* printf of a diagnostic *)

Record World : Type := mkWorld {
  host_mem : mem;
  dev_mem : mem;
  host_blocks : list (Z * Z);   (* live new[] blocks: (base, bytes) *)
  dev_blocks : list (Z * Z);    (* live cudaMalloc blocks: (base, bytes) *)
  host_brk : Z;                 (* where the next new[] block is placed *)
  host_end : Z;                 (* end of the host heap *)
  dev_brk : Z;                  (* where the next cudaMalloc block is placed *)
  dev_end : Z;                  (* end of the device memory *)
  trace : list Event            (* runtime calls, newest first *)
}.

Definition log (e : Event) (w : World) : World :=
  mkWorld (host_mem w) (dev_mem w) (host_blocks w) (dev_blocks w)
          (host_brk w) (host_end w) (dev_brk w) (dev_end w) (e :: trace w).

(** ** Computations *)

Inductive Fault : Type :=
  | SigSegv          (* raise(SIGSEGV) in HandleError *)
  | ExitFailure      (* exit(EXIT_FAILURE) *)
  | BadAlloc         (* new[] threw, nobody catches *)
  | Undefined.       (* delete [] of a pointer new[] did not return *)

Inductive Outcome (A : Type) : Type :=
  | Ok (a : A) (w : World)
  | Crash (f : Fault).
Arguments Ok {A} a w.
Arguments Crash {A} f.

Definition M (A : Type) : Type := World -> Outcome A.

Definition ret {A} (a : A) : M A := fun w => Ok a w.

Definition bind {A B} (k : A -> M B) (c : M A) : M B :=
  fun w => match c w with
           | Ok a w' => k a w'
           | Crash f => Crash f
           end.

Definition crash {A} (f : Fault) : M A := fun _ => Crash f.

(** stdpp's monad notations: [x ← c; k], [c ;; k] *)
#[global] Instance M_ret : MRet M := @ret.
#[global] Instance M_bind : MBind M := @bind.

Definition emit (e : Event) : M unit := fun w => Ok tt (log e w).

Definition printf (msg : string) : M unit := emit (EvPrintf msg).

Definition when (c : bool) (k : M unit) : M unit := if c then k else ret tt.

(** ** Runtime: C++ heap and CUDA calls *)

Section Runtime.

Inductive cudaError_t : Type :=
  | cudaSuccess
  | cudaErrorMemoryAllocation
  | cudaErrorInvalidValue.

Definition is_success (e : cudaError_t) : bool :=
  match e with cudaSuccess => true | _ => false end.

Definition in_block (p n : Z) (blk : Z * Z) : bool :=
  (fst blk <=? p) && (p + n <=? fst blk + snd blk).

(** the range [p, p+n) lies inside one live device block *)
Definition dev_range_ok (w : World) (p n : Z) : bool :=
  existsb (in_block p n) (dev_blocks w).

Definition is_base (p : Z) (blk : Z * Z) : bool := fst blk =? p.

Definition drop_block (p : Z) (l : list (Z * Z)) : list (Z * Z) :=
  List.filter (fun blk => negb (is_base p blk)) l.

(** [new T[n]] with [bytes = n * sizeof(T)] (not wrapped: the array-new
    expression throws when the product does not fit) *)
Definition new_array (bytes : Z) : M Z := fun w =>
  if (bytes <? 2 ^ 64) && (host_brk w + bytes <=? host_end w) then
    let p := host_brk w in
    Ok p (mkWorld (host_mem w) (dev_mem w) ((p, bytes) :: host_blocks w)
                  (dev_blocks w) (p + Z.max bytes 1) (host_end w)
                  (dev_brk w) (dev_end w) (EvNewArr p bytes :: trace w))
  else Crash BadAlloc.

(** [delete [] p] *)
Definition delete_array (p : Z) : M unit := fun w =>
  let w' := log (EvDeleteArr p) w in
  if p =? NULL then Ok tt w'
  else if existsb (is_base p) (host_blocks w) then
    Ok tt (mkWorld (host_mem w') (dev_mem w') (drop_block p (host_blocks w'))
                   (dev_blocks w') (host_brk w') (host_end w')
                   (dev_brk w') (dev_end w') (trace w'))
  else Crash Undefined.

(** [cudaMalloc(&p, bytes)]: the status, and the pointer stored on success *)
Definition cudaMalloc (bytes : Z) : M (cudaError_t * option Z) := fun w =>
  if dev_brk w + bytes <=? dev_end w then
    let p := dev_brk w in
    Ok (cudaSuccess, Some p)
       (mkWorld (host_mem w) (dev_mem w) (host_blocks w)
                ((p, bytes) :: dev_blocks w) (host_brk w) (host_end w)
                (p + Z.max bytes 1) (dev_end w)
                (EvCudaMalloc p bytes :: trace w))
  else Ok (cudaErrorMemoryAllocation, None) w.

(** [cudaFree(p)] *)
Definition cudaFree (p : Z) : M cudaError_t := fun w =>
  let w' := log (EvCudaFree p) w in
  if p =? NULL then Ok cudaSuccess w'
  else if existsb (is_base p) (dev_blocks w) then
    Ok cudaSuccess
       (mkWorld (host_mem w') (dev_mem w') (host_blocks w')
                (drop_block p (dev_blocks w')) (host_brk w') (host_end w')
                (dev_brk w') (dev_end w') (trace w'))
  else Ok cudaErrorInvalidValue w'.

(** [cudaMemcpy(dst, src, bytes, cudaMemcpyHostToDevice)] *)
Definition cudaMemcpyHostToDevice (dst src bytes : Z) : M cudaError_t := fun w =>
  let w' := log (EvMemcpyH2D dst src bytes) w in
  if dev_range_ok w dst bytes then
    Ok cudaSuccess
       (mkWorld (host_mem w') (copy_bytes (host_mem w) src (dev_mem w) dst bytes)
                (host_blocks w') (dev_blocks w') (host_brk w') (host_end w')
                (dev_brk w') (dev_end w') (trace w'))
  else Ok cudaErrorInvalidValue w'.

(** [cudaMemcpy(dst, src, bytes, cudaMemcpyDeviceToHost)] *)
Definition cudaMemcpyDeviceToHost (dst src bytes : Z) : M cudaError_t := fun w =>
  let w' := log (EvMemcpyD2H dst src bytes) w in
  if dev_range_ok w src bytes then
    Ok cudaSuccess
       (mkWorld (copy_bytes (dev_mem w) src (host_mem w) dst bytes) (dev_mem w')
                (host_blocks w') (dev_blocks w') (host_brk w') (host_end w')
                (dev_brk w') (dev_end w') (trace w'))
  else Ok cudaErrorInvalidValue w'.

(** [cudaMemset(dst, value, bytes)]: the low byte of [value] *)
Definition cudaMemset (dst value bytes : Z) : M cudaError_t := fun w =>
  let w' := log (EvMemset dst value bytes) w in
  if dev_range_ok w dst bytes then
    let v := default Byte.x00 (Byte.of_N (Z.to_N (value mod 256))) in
    Ok cudaSuccess
       (mkWorld (host_mem w') (fill_bytes v (dev_mem w) dst bytes)
                (host_blocks w') (dev_blocks w') (host_brk w') (host_end w')
                (dev_brk w') (dev_end w') (trace w'))
  else Ok cudaErrorInvalidValue w'.

End Runtime.

(** ** [HANDLE_ERROR] and the copy helpers *)

Section Build.

(** [#ifdef DEBUG_CUDA] *)
Variable DEBUG_CUDA : bool.

Definition HandleError (err : cudaError_t) : M unit :=
  if is_success err then ret tt
  else printf "DEBUG_ERROR: %s in %s at line %d\n" ;; crash SigSegv.

Definition HANDLE_ERROR (err : cudaError_t) : M unit :=
  if DEBUG_CUDA then HandleError err else ret tt.

(** [cudaCpyHostToDevice<T>(h_ptr, d_ptr, size)] *)
Definition cudaCpyHostToDevice (sizeofT h_ptr d_ptr size : Z) : M unit :=
  err ← cudaMemcpyHostToDevice d_ptr h_ptr (wrap64 (size * sizeofT));
  HANDLE_ERROR err.

(** [cudaCpyDeviceToHost<T>(d_ptr, h_ptr, size)] *)
Definition cudaCpyDeviceToHost (sizeofT d_ptr h_ptr size : Z) : M unit :=
  err ← cudaMemcpyDeviceToHost h_ptr d_ptr (wrap64 (size * sizeofT));
  HANDLE_ERROR err.

(** ** [CudaGlobalPtr<T>] *)

Record CudaGlobalPtr : Type := mkCudaGlobalPtr {
  size : Z;            (* size_t: size used when copying from and to device *)
  h_ptr : Z;           (* T*: host pointer *)
  d_ptr : Z;           (* T*: device pointer *)
  h_do_free : bool;    (* true if host needs to be freed *)
  d_do_free : bool     (* true if device needs to be freed *)
}.

Definition set_size (n : Z) (b : CudaGlobalPtr) : CudaGlobalPtr :=
  mkCudaGlobalPtr n (h_ptr b) (d_ptr b) (h_do_free b) (d_do_free b).
Definition set_h_ptr (p : Z) (b : CudaGlobalPtr) : CudaGlobalPtr :=
  mkCudaGlobalPtr (size b) p (d_ptr b) (h_do_free b) (d_do_free b).
Definition set_d_ptr (p : Z) (b : CudaGlobalPtr) : CudaGlobalPtr :=
  mkCudaGlobalPtr (size b) (h_ptr b) p (h_do_free b) (d_do_free b).
Definition set_h_do_free (f : bool) (b : CudaGlobalPtr) : CudaGlobalPtr :=
  mkCudaGlobalPtr (size b) (h_ptr b) (d_ptr b) f (d_do_free b).
Definition set_d_do_free (f : bool) (b : CudaGlobalPtr) : CudaGlobalPtr :=
  mkCudaGlobalPtr (size b) (h_ptr b) (d_ptr b) (h_do_free b) f.

(** [CudaGlobalPtr<T>()] *)
Definition CudaGlobalPtr_empty : CudaGlobalPtr :=
  mkCudaGlobalPtr 0 NULL NULL false false.

(** [CudaGlobalPtr<T>(T *h_start, size_t size)] *)
Definition CudaGlobalPtr_host (h_start size : Z) : CudaGlobalPtr :=
  mkCudaGlobalPtr size h_start NULL false false.

(** [CudaGlobalPtr<T>(T *h_start, T *d_start, size_t size)] *)
Definition CudaGlobalPtr_pair (h_start d_start size : Z) : CudaGlobalPtr :=
  mkCudaGlobalPtr size h_start d_start false false.

Section Buffer.

(** [sizeof(T)] *)
Variable sizeofT : Z.

(** [CudaGlobalPtr<T>(size_t size)]: [h_ptr(new T[size])] *)
Definition CudaGlobalPtr_sized (size : Z) : M CudaGlobalPtr :=
  p ← new_array (size * sizeofT);
  ret (mkCudaGlobalPtr size p NULL true false).

Definition device_alloc (b : CudaGlobalPtr) : M CudaGlobalPtr :=
  when (DEBUG_CUDA && d_do_free b)
       (printf "DEBUG_WARNING: Device double allocation.\n") ;;
  let b := set_d_do_free true b in
  r ← cudaMalloc (wrap64 (size b * sizeofT));
  let b := match snd r with Some p => set_d_ptr p b | None => b end in
  HANDLE_ERROR (fst r) ;;
  ret b.

(** [device_alloc(size_t newSize)] *)
Definition device_alloc_size (newSize : Z) (b : CudaGlobalPtr) : M CudaGlobalPtr :=
  device_alloc (set_size newSize b).

Definition host_alloc (b : CudaGlobalPtr) : M CudaGlobalPtr :=
  when (DEBUG_CUDA && h_do_free b)
       (printf "DEBUG_WARNING: Host double allocation.\n") ;;
  let b := set_h_do_free true b in
  p ← new_array (size b * sizeofT);
  ret (set_h_ptr p b).

Definition device_init (value : Z) (b : CudaGlobalPtr) : M CudaGlobalPtr :=
  when (DEBUG_CUDA && (d_ptr b =? NULL))
       (printf "DEBUG_WARNING: Memset requested before allocation in device_init().\n") ;;
  err ← cudaMemset (d_ptr b) value (wrap64 (size b * sizeofT));
  HANDLE_ERROR err ;;
  ret b.

Definition cp_to_device (b : CudaGlobalPtr) : M CudaGlobalPtr :=
  when (DEBUG_CUDA && (d_ptr b =? NULL))
       (printf "DEBUG_WARNING: cp_to_device() called before allocation.\n") ;;
  when (DEBUG_CUDA && (h_ptr b =? NULL))
       (printf "DEBUG_WARNING: NULL host pointer in cp_to_device().\n") ;;
  cudaCpyHostToDevice sizeofT (h_ptr b) (d_ptr b) (size b) ;;
  ret b.

(** [cp_to_device(T *hostPtr)] *)
Definition cp_to_device_from (hostPtr : Z) (b : CudaGlobalPtr) : M CudaGlobalPtr :=
  when (DEBUG_CUDA && negb (h_ptr b =? NULL))
       (printf "DEBUG_WARNING: Host pointer already set in call to cp_to_device(hostPtr).\n") ;;
  let b := set_h_ptr hostPtr b in
  cp_to_device b.

Definition put_on_device (b : CudaGlobalPtr) : M CudaGlobalPtr :=
  b ← device_alloc b;
  cp_to_device b.

(** [put_on_device(size_t newSize)] *)
Definition put_on_device_size (newSize : Z) (b : CudaGlobalPtr) : M CudaGlobalPtr :=
  let b := set_size newSize b in
  b ← device_alloc b;
  cp_to_device b.

Definition cp_to_host (b : CudaGlobalPtr) : M CudaGlobalPtr :=
  when (DEBUG_CUDA && (d_ptr b =? NULL))
       (printf "DEBUG_WARNING: cp_to_host() called before allocation.\n") ;;
  when (DEBUG_CUDA && (h_ptr b =? NULL))
       (printf "DEBUG_WARNING: NULL host pointer in cp_to_host().\n") ;;
  cudaCpyDeviceToHost sizeofT (d_ptr b) (h_ptr b) (size b) ;;
  ret b.

(** [operator[](size_t idx)]: the bytes of [h_ptr[idx]] *)
Definition host_at (b : CudaGlobalPtr) (idx : Z) (w : World) : list Byte.byte :=
  read_bytes (host_mem w) (ptr_index sizeofT (h_ptr b) idx) sizeofT.

Definition free_device (b : CudaGlobalPtr) : M CudaGlobalPtr :=
  when (DEBUG_CUDA && (d_ptr b =? NULL))
       (printf "DEBUG_WARNING: Free device memory was called on NULL pointer in free_device().\n") ;;
  let b := set_d_do_free false b in
  err ← cudaFree (d_ptr b);
  HANDLE_ERROR err ;;
  ret (set_d_ptr NULL b).

Definition free_host (b : CudaGlobalPtr) : M CudaGlobalPtr :=
  (if DEBUG_CUDA && (h_ptr b =? NULL)
   then printf "DEBUG_ERROR: free_host() called on NULL pointer.\n" ;; crash ExitFailure
   else ret tt) ;;
  let b := set_h_do_free false b in
  delete_array (h_ptr b) ;;
  ret (set_h_ptr NULL b).

Definition free (b : CudaGlobalPtr) : M CudaGlobalPtr :=
  b ← free_device b;
  free_host b.

(** [~CudaGlobalPtr()] *)
Definition CudaGlobalPtr_dtor (b : CudaGlobalPtr) : M CudaGlobalPtr :=
  b ← (if d_do_free b then free_device b else ret b);
  if h_do_free b then free_host b else ret b.

End Buffer.

(** ** [IndexedDataArrayMask] *)

(** [sizeof(long unsigned)] *)
Definition sizeof_ulong : Z := 8.

Record IndexedDataArrayMask : Type := mkIndexedDataArrayMask {
  jobOrigin : CudaGlobalPtr;   (* CudaGlobalPtr<long unsigned> *)
  jobExtent : CudaGlobalPtr;   (* CudaGlobalPtr<long unsigned> *)
  firstPos : Z;
  lastPos : Z;
  weightNum : Z;
  jobNum : Z
}.

(** [IndexedDataArrayMask()] *)
Definition IndexedDataArrayMask_empty : IndexedDataArrayMask :=
  mkIndexedDataArrayMask CudaGlobalPtr_empty CudaGlobalPtr_empty 0 0 0 0.

(** [setNumberOfJobs(long int newSize)] *)
Definition setNumberOfJobs (newSize : Z) (m : IndexedDataArrayMask)
  : IndexedDataArrayMask :=
  mkIndexedDataArrayMask
    (set_size (to_ulong newSize) (jobOrigin m))
    (set_size (to_ulong newSize) (jobExtent m))
    (firstPos m) (lastPos m) (weightNum m) (to_ulong newSize).

(** [setNumberOfWeights(long int newSize)] *)
Definition setNumberOfWeights (newSize : Z) (m : IndexedDataArrayMask)
  : IndexedDataArrayMask :=
  mkIndexedDataArrayMask (jobOrigin m) (jobExtent m) (firstPos m) (lastPos m)
                         (to_ulong newSize) (jobNum m).

(** [~IndexedDataArrayMask()]: the body is empty; the members are destroyed
    in reverse order of declaration *)
Definition IndexedDataArrayMask_dtor (m : IndexedDataArrayMask) : M unit :=
  CudaGlobalPtr_dtor (jobExtent m) ;;
  CudaGlobalPtr_dtor (jobOrigin m) ;;
  ret tt.

(** ** [IndexedDataArray] *)

(** [#ifdef CUDA_DOUBLE_PRECISION] *)
Variable CUDA_DOUBLE_PRECISION : bool.

(** [sizeof(FLOAT)] *)
Definition sizeof_FLOAT : Z := if CUDA_DOUBLE_PRECISION then 8 else 4.

Record IndexedDataArray : Type := mkIndexedDataArray {
  weights : CudaGlobalPtr;         (* CudaGlobalPtr<FLOAT> *)
  rot_id : CudaGlobalPtr;          (* CudaGlobalPtr<long unsigned> ... *)
  rot_idx : CudaGlobalPtr;
  trans_idx : CudaGlobalPtr;
  ihidden_overs : CudaGlobalPtr;
  class_id : CudaGlobalPtr
}.

(** [IndexedDataArray()] *)
Definition IndexedDataArray_empty : IndexedDataArray :=
  mkIndexedDataArray CudaGlobalPtr_empty CudaGlobalPtr_empty CudaGlobalPtr_empty
                     CudaGlobalPtr_empty CudaGlobalPtr_empty CudaGlobalPtr_empty.

(** one member initialiser of the child constructor, followed by the two
    assignments of its body:
    [buf(&(parent.buf.h_ptr[mask.firstPos]), &(parent.buf.d_ptr[mask.firstPos]), mask.weightNum)],
    [buf.d_do_free=false], [buf.h_do_free=false] *)
Definition child_buffer (sz : Z) (pb : CudaGlobalPtr) (mask : IndexedDataArrayMask)
  : CudaGlobalPtr :=
  set_h_do_free false
    (set_d_do_free false
       (CudaGlobalPtr_pair (ptr_index sz (h_ptr pb) (firstPos mask))
                           (ptr_index sz (d_ptr pb) (firstPos mask))
                           (weightNum mask))).

(** [IndexedDataArray(IndexedDataArray &parent, IndexedDataArrayMask &mask)] *)
Definition IndexedDataArray_child (parent : IndexedDataArray)
                                  (mask : IndexedDataArrayMask) : IndexedDataArray :=
  mkIndexedDataArray
    (child_buffer sizeof_FLOAT (weights parent) mask)
    (child_buffer sizeof_ulong (rot_id parent) mask)
    (child_buffer sizeof_ulong (rot_idx parent) mask)
    (child_buffer sizeof_ulong (trans_idx parent) mask)
    (child_buffer sizeof_ulong (ihidden_overs parent) mask)
    (child_buffer sizeof_ulong (class_id parent) mask).

(** [setDataSize(long int newSize)] *)
Definition setDataSize (newSize : Z) (a : IndexedDataArray) : IndexedDataArray :=
  mkIndexedDataArray
    (set_size (to_ulong newSize) (weights a))
    (set_size (to_ulong newSize) (rot_id a))
    (set_size (to_ulong newSize) (rot_idx a))
    (set_size (to_ulong newSize) (trans_idx a))
    (set_size (to_ulong newSize) (ihidden_overs a))
    (set_size (to_ulong newSize) (class_id a)).

Definition dual_alloc_all (a : IndexedDataArray) : M IndexedDataArray :=
  w0 ← host_alloc sizeof_FLOAT (weights a);
  r0 ← host_alloc sizeof_ulong (rot_id a);
  x0 ← host_alloc sizeof_ulong (rot_idx a);
  t0 ← host_alloc sizeof_ulong (trans_idx a);
  i0 ← host_alloc sizeof_ulong (ihidden_overs a);
  c0 ← host_alloc sizeof_ulong (class_id a);
  w1 ← device_alloc sizeof_FLOAT w0;
  r1 ← device_alloc sizeof_ulong r0;
  x1 ← device_alloc sizeof_ulong x0;
  t1 ← device_alloc sizeof_ulong t0;
  i1 ← device_alloc sizeof_ulong i0;
  c1 ← device_alloc sizeof_ulong c0;
  ret (mkIndexedDataArray w1 r1 x1 t1 i1 c1).

(** the implicit [~IndexedDataArray()]: members are destroyed in reverse
    order of declaration *)
Definition IndexedDataArray_dtor (a : IndexedDataArray) : M unit :=
  CudaGlobalPtr_dtor (class_id a) ;;
  CudaGlobalPtr_dtor (ihidden_overs a) ;;
  CudaGlobalPtr_dtor (trans_idx a) ;;
  CudaGlobalPtr_dtor (rot_idx a) ;;
  CudaGlobalPtr_dtor (rot_id a) ;;
  CudaGlobalPtr_dtor (weights a) ;;
  ret tt.

(** the six parallel buffers, in declaration order *)
Definition buffers (a : IndexedDataArray) : list CudaGlobalPtr :=
  [weights a; rot_id a; rot_idx a; trans_idx a; ihidden_overs a; class_id a].

(** the element size of each of the six *)
Definition buffer_sizeofs : list Z :=
  [sizeof_FLOAT; sizeof_ulong; sizeof_ulong; sizeof_ulong; sizeof_ulong; sizeof_ulong].

End Build.

(** ** [std::vector] as used by [ProjectionParams] *)

Section Vector.

Context {A : Type}.

(** [std::vector<A>(n, v)]; [std::vector<A>(n)] is [vec_fill n] of the zero
    of [A] *)
Definition vec_fill (n : Z) (v : A) : list A := replicate (Z.to_nat n) v.

(** [v[i]] read; [None]: [i] is not an index of [v] (the access is undefined) *)
Definition vec_get (v : list A) (i : Z) : option A :=
  if i <? 0 then None else v !! Z.to_nat i.

(** [v[i] = x]; [None]: [i] is not an index of [v] *)
Definition vec_set (v : list A) (i : Z) (x : A) : option (list A) :=
  match vec_get v i with
  | Some _ => Some (<[Z.to_nat i := x]> v)
  | None => None
  end.

(** [v.push_back(x)] *)
Definition push_back (v : list A) (x : A) : list A := v ++ [x].

(** [std::vector<A>(&v[first], &v[last])]: a copy of the elements between the
    two addresses; [None]: the addresses are not an ordered pair inside [v] *)
Definition vec_range (v : list A) (first last : Z) : option (list A) :=
  if (0 <=? first) && (first <=? last) && (last <=? Z.of_nat (length v))
  then Some (take (Z.to_nat (last - first)) (drop (Z.to_nat first) v))
  else None.

End Vector.

(** ** [ProjectionParams] *)

Definition double : Type := PrimFloat.float.

Record ProjectionParams : Type := mkProjectionParams {
  orientation_num : list Z;                (* std::vector<long unsigned> *)
  orientationNumAllClasses : option Z;     (* long unsigned; None: never initialised *)
  rots : list double;
  tilts : list double;
  psis : list double;
  iorientclasses : list Z;
  iover_rots : list Z;
  class_entries : list Z;
  class_idx : list Z
}.

(** [ProjectionParams()] *)
Definition ProjectionParams_empty : ProjectionParams :=
  mkProjectionParams [] (Some 0) [] [] [] [] [] [] [].

(** [ProjectionParams(unsigned long classes)]: the body stores into
    [class_idx[0]] and [class_entries[0]] *)
Definition ProjectionParams_classes (classes : Z) : option ProjectionParams :=
  ci ← vec_set (vec_fill classes 0) 0 0;
  ce ← vec_set (vec_fill classes 0) 0 0;
  Some (mkProjectionParams (vec_fill classes 0) (Some 0) [] [] [] [] [] ce ci).

(** [ProjectionParams(ProjectionParams &parent, unsigned long start, unsigned long end)];
    [orientationNumAllClasses] has no initialiser *)
Definition ProjectionParams_slice (parent : ProjectionParams) (start end_ : Z)
  : option ProjectionParams :=
  r ← vec_range (rots parent) start end_;
  t ← vec_range (tilts parent) start end_;
  p ← vec_range (psis parent) start end_;
  ic ← vec_range (iorientclasses parent) start end_;
  io ← vec_range (iover_rots parent) start end_;
  Some (mkProjectionParams (vec_fill 1 0) None r t p ic io
                           (vec_fill 1 (wrap64 (end_ - start))) (vec_fill 1 0)).

(** the arguments of one call of [pushBackAll] *)
Record PushArgs : Type := mkPushArgs {
  iclass : Z;
  NEWrot : double;
  NEWtilt : double;
  NEWpsi : double;
  NEWiorientclasses : Z;
  NEWiover_rots : Z
}.

Definition pushBackAll (a : PushArgs) (t : ProjectionParams) : option ProjectionParams :=
  n ← vec_get (class_entries t) (iclass a);
  ce ← vec_set (class_entries t) (iclass a) (wrap64 (n + 1));
  Some (mkProjectionParams
          (orientation_num t) (orientationNumAllClasses t)
          (push_back (rots t) (NEWrot a))
          (push_back (tilts t) (NEWtilt a))
          (push_back (psis t) (NEWpsi a))
          (push_back (iorientclasses t) (NEWiorientclasses a))
          (push_back (iover_rots t) (NEWiover_rots a))
          ce (class_idx t)).

(** a sequence of calls, in order *)
Fixpoint pushBackAll_seq (calls : list PushArgs) (t : ProjectionParams)
  : option ProjectionParams :=
  match calls with
  | [] => Some t
  | a :: rest => t' ← pushBackAll a t; pushBackAll_seq rest t'
  end.

(** number of the calls whose class argument is [c] *)
Definition calls_to (c : Z) (calls : list PushArgs) : Z :=
  Z.of_nat (length (List.filter (fun a => iclass a =? c) calls)).

(** *** Tables in memory

    A [std::vector] member owns a block of storage on the heap, and the
    table object holds one handle per vector member.  Two tables alias when
    they hold the same handle: what one appends, the other reads.  The
    member functions are written once more over this heap, constructor
    call by constructor call and statement by statement. *)

Inductive Storage : Type :=
  | Doubles (l : list double)   (* the elements of a std::vector<double> *)
  | ULongs (l : list Z).        (* the elements of a std::vector<long unsigned> *)

Record ProjectionParamsObj : Type := mkProjectionParamsObj {
  orientation_num_at : nat;
  orientationNumAllClasses_of : option Z;   (* held in the object itself *)
  rots_at : nat;
  tilts_at : nat;
  psis_at : nat;
  iorientclasses_at : nat;
  iover_rots_at : nat;
  class_entries_at : nat;
  class_idx_at : nat
}.

(** the storage handles of a table, in declaration order of the members *)
Definition handles (o : ProjectionParamsObj) : list nat :=
  [orientation_num_at o; rots_at o; tilts_at o; psis_at o; iorientclasses_at o;
   iover_rots_at o; class_entries_at o; class_idx_at o].

Definition doubles_at (h : list Storage) (id : nat) : option (list double) :=
  match h !! id with Some (Doubles l) => Some l | _ => None end.

Definition ulongs_at (h : list Storage) (id : nat) : option (list Z) :=
  match h !! id with Some (ULongs l) => Some l | _ => None end.

(** a vector constructor: the elements go into a block of their own *)
Definition new_vector (s : Storage) (h : list Storage) : nat * list Storage :=
  (length h, h ++ [s]).

(** [std::vector<double>(&v[first], &v[last])], [v] stored at [id] *)
Definition new_doubles_range (id : nat) (first last : Z) (h : list Storage)
  : option (nat * list Storage) :=
  l ← doubles_at h id;
  r ← vec_range l first last;
  Some (new_vector (Doubles r) h).

(** [std::vector<long unsigned>(&v[first], &v[last])], [v] stored at [id] *)
Definition new_ulongs_range (id : nat) (first last : Z) (h : list Storage)
  : option (nat * list Storage) :=
  l ← ulongs_at h id;
  r ← vec_range l first last;
  Some (new_vector (ULongs r) h).

(** [v.push_back(x)], [v] a [std::vector<double>] stored at [id] *)
Definition push_back_double (id : nat) (x : double) (h : list Storage)
  : option (list Storage) :=
  l ← doubles_at h id;
  Some (<[id := Doubles (push_back l x)]> h).

(** [v.push_back(x)], [v] a [std::vector<long unsigned>] stored at [id] *)
Definition push_back_ulong (id : nat) (x : Z) (h : list Storage)
  : option (list Storage) :=
  l ← ulongs_at h id;
  Some (<[id := ULongs (push_back l x)]> h).

(** [v[i]++], [v] a [std::vector<long unsigned>] stored at [id] *)
Definition increment_at (id : nat) (i : Z) (h : list Storage)
  : option (list Storage) :=
  l ← ulongs_at h id;
  n ← vec_get l i;
  l' ← vec_set l i (wrap64 (n + 1));
  Some (<[id := ULongs l']> h).

(** the slice constructor; the members are initialised in declaration
    order, whatever the order of the initialiser list *)
Definition ProjectionParams_slice_mem (parent : ProjectionParamsObj) (start end_ : Z)
                                      (h : list Storage)
  : option (ProjectionParamsObj * list Storage) :=
  let on := new_vector (ULongs (vec_fill 1 0)) h in
  r ← new_doubles_range (rots_at parent) start end_ (snd on);
  t ← new_doubles_range (tilts_at parent) start end_ (snd r);
  p ← new_doubles_range (psis_at parent) start end_ (snd t);
  ic ← new_ulongs_range (iorientclasses_at parent) start end_ (snd p);
  io ← new_ulongs_range (iover_rots_at parent) start end_ (snd ic);
  let ce := new_vector (ULongs (vec_fill 1 (wrap64 (end_ - start)))) (snd io) in
  let ci := new_vector (ULongs (vec_fill 1 0)) (snd ce) in
  Some (mkProjectionParamsObj (fst on) None (fst r) (fst t) (fst p) (fst ic)
                              (fst io) (fst ce) (fst ci),
        snd ci).

Definition pushBackAll_mem (a : PushArgs) (t : ProjectionParamsObj) (h : list Storage)
  : option (list Storage) :=
  h ← increment_at (class_entries_at t) (iclass a) h;
  h ← push_back_double (rots_at t) (NEWrot a) h;
  h ← push_back_double (tilts_at t) (NEWtilt a) h;
  h ← push_back_double (psis_at t) (NEWpsi a) h;
  h ← push_back_ulong (iorientclasses_at t) (NEWiorientclasses a) h;
  push_back_ulong (iover_rots_at t) (NEWiover_rots a) h.

Fixpoint pushBackAll_mem_seq (calls : list PushArgs) (t : ProjectionParamsObj)
                             (h : list Storage) : option (list Storage) :=
  match calls with
  | [] => Some h
  | a :: rest => h' ← pushBackAll_mem a t h; pushBackAll_mem_seq rest t h'
  end.

(** the values of all members of a table, read through its handles *)
Definition read_object (h : list Storage) (o : ProjectionParamsObj)
  : option ProjectionParams :=
  on ← ulongs_at h (orientation_num_at o);
  r ← doubles_at h (rots_at o);
  t ← doubles_at h (tilts_at o);
  p ← doubles_at h (psis_at o);
  ic ← ulongs_at h (iorientclasses_at o);
  io ← ulongs_at h (iover_rots_at o);
  ce ← ulongs_at h (class_entries_at o);
  ci ← ulongs_at h (class_idx_at o);
  Some (mkProjectionParams on (orientationNumAllClasses_of o) r t p ic io ce ci).

(** every handle of the table names a block of the heap *)
Definition object_allocated (o : ProjectionParamsObj) (h : list Storage) : Prop :=
  Forall (fun id => (id < length h)%nat) (handles o).

(** ** Observations on buffers and worlds *)

(** the pointers passed to [cudaFree], newest first *)
Definition cuda_frees (w : World) : list Z :=
  omap (fun e => match e with EvCudaFree p => Some p | _ => None end) (trace w).

(** the pointers passed to [delete []], newest first *)
Definition host_frees (w : World) : list Z :=
  omap (fun e => match e with EvDeleteArr p => Some p | _ => None end) (trace w).

(** the host data of a buffer: its first [size] elements, as bytes *)
Definition host_data (sizeofT : Z) (b : CudaGlobalPtr) (w : World) : list Byte.byte :=
  read_bytes (host_mem w) (h_ptr b) (size b * sizeofT).

(** the device data of a buffer *)
Definition dev_data (sizeofT : Z) (b : CudaGlobalPtr) (w : World) : list Byte.byte :=
  read_bytes (dev_mem w) (d_ptr b) (size b * sizeofT).

(** [b.device_alloc(); b.cp_to_device(); b.cp_to_host();] *)
Definition round_trip (DEBUG_CUDA : bool) (sizeofT : Z) (b : CudaGlobalPtr)
  : M CudaGlobalPtr :=
  b ← device_alloc DEBUG_CUDA sizeofT b;
  b ← cp_to_device DEBUG_CUDA sizeofT b;
  cp_to_host DEBUG_CUDA sizeofT b.

(** a live host block holds the [size] elements at [h_ptr] *)
Definition host_storage (sizeofT : Z) (b : CudaGlobalPtr) (w : World) : bool :=
  negb (h_ptr b =? NULL)
  && existsb (in_block (h_ptr b) (size b * sizeofT)) (host_blocks w).

(** a live device block holds the [size] elements at [d_ptr] *)
Definition dev_storage (sizeofT : Z) (b : CudaGlobalPtr) (w : World) : bool :=
  negb (d_ptr b =? NULL) && dev_range_ok w (d_ptr b) (size b * sizeofT).

(** [c] is a view into [p]: its pointers are those of [p] advanced by
    [mask.firstPos] elements of [sz] bytes (in 64-bit address arithmetic; the
    plain sum when that does not wrap), its size is [mask.weightNum], and it
    owns neither side *)
Definition is_view_of (sz : Z) (c p : CudaGlobalPtr) (mask : IndexedDataArrayMask)
  : Prop :=
  h_ptr c = (h_ptr p + firstPos mask * sz) mod 2 ^ 64 /\
  d_ptr c = (d_ptr p + firstPos mask * sz) mod 2 ^ 64 /\
  (0 <= h_ptr p + firstPos mask * sz < 2 ^ 64 ->
   h_ptr c = h_ptr p + firstPos mask * sz) /\
  (0 <= d_ptr p + firstPos mask * sz < 2 ^ 64 ->
   d_ptr c = d_ptr p + firstPos mask * sz) /\
  size c = weightNum mask /\
  h_do_free c = false /\
  d_do_free c = false.

(** all six buffers have size [n] *)
Definition uniform_size (a : IndexedDataArray) (n : Z) : Prop :=
  Forall (fun b => size b = n) (buffers a).

(** ** Sample worlds and buffers *)

(** a process that has allocated nothing: 1 MiB of host heap from address
    4096, 1 MiB of device memory from address 8192 *)
Definition sample_world : World :=
  mkWorld (fun _ => Byte.x00) (fun _ => Byte.x00) [] [] 4096 (4096 + 2 ^ 20)
          8192 (8192 + 2 ^ 20) [].

(** host memory holding the bytes 1, 2, 3, 4 at address 100 *)
Definition sample_host_mem : mem :=
  fun a => if a =? 100 then Byte.x01 else if a =? 101 then Byte.x02
           else if a =? 102 then Byte.x03 else if a =? 103 then Byte.x04
           else Byte.x00.

Definition sample_world_data : World :=
  mkWorld sample_host_mem (fun _ => Byte.x00) [] [] 4096 (4096 + 2 ^ 20)
          8192 (8192 + 2 ^ 20) [].

(** four one-byte elements at host address 100, owned by somebody else *)
Definition sample_buffer : CudaGlobalPtr := CudaGlobalPtr_host 100 4.

(** a view of four one-byte elements: host address 100, device address 8192 *)
Definition sample_view : CudaGlobalPtr := CudaGlobalPtr_pair 100 8192 4.

(** a process in which the device block behind [sample_view] is live *)
Definition sample_world_live : World :=
  mkWorld sample_host_mem (fun _ => Byte.x00) [] [(8192, 4)] 4096 (4096 + 2 ^ 20)
          8196 (8192 + 2 ^ 20) [EvCudaMalloc 8192 4].

(** a process whose host heap and device memory are both used up *)
Definition sample_world_full : World :=
  mkWorld (fun _ => Byte.x00) (fun _ => Byte.x00) [] [] 4096 4096 8192 8192 [].

(** a buffer of ten four-byte elements that owns both sides, and a process
    in which its two arrays are live *)
Definition sample_parent_buffer : CudaGlobalPtr :=
  mkCudaGlobalPtr 10 4096 8192 true true.

Definition sample_world_parent : World :=
  mkWorld sample_host_mem (fun _ => Byte.x00) [(4096, 40)] [(8192, 40)]
          4136 (4096 + 2 ^ 20) 8232 (8192 + 2 ^ 20)
          [EvCudaMalloc 8192 40; EvNewArr 4096 40].

(** an array of ten elements that owns both sides of its six buffers *)
Definition sample_parent_array : IndexedDataArray :=
  mkIndexedDataArray (mkCudaGlobalPtr 10 4096 8192 true true)
                     (mkCudaGlobalPtr 10 5000 9000 true true)
                     (mkCudaGlobalPtr 10 5100 9100 true true)
                     (mkCudaGlobalPtr 10 5200 9200 true true)
                     (mkCudaGlobalPtr 10 5300 9300 true true)
                     (mkCudaGlobalPtr 10 5400 9400 true true).

(** the elements 3, 4, 5, 6 of the view selected by [sample_mask] *)
Definition sample_mask_inner : IndexedDataArrayMask :=
  mkIndexedDataArrayMask CudaGlobalPtr_empty CudaGlobalPtr_empty 6 10 4 0.

(** a mask with three jobs whose descriptors were allocated on the host *)
Definition sample_job_mask : IndexedDataArrayMask :=
  mkIndexedDataArrayMask (mkCudaGlobalPtr 3 4096 NULL true false)
                         (mkCudaGlobalPtr 3 4120 NULL true false) 0 10 10 3.

Definition sample_world_jobs : World :=
  mkWorld (fun _ => Byte.x00) (fun _ => Byte.x00) [(4120, 24); (4096, 24)] []
          4144 (4096 + 2 ^ 20) 8192 (8192 + 2 ^ 20)
          [EvNewArr 4120 24; EvNewArr 4096 24].

(** a mask selecting the whole of a ten-element array *)
Definition sample_mask_all : IndexedDataArrayMask :=
  mkIndexedDataArrayMask CudaGlobalPtr_empty CudaGlobalPtr_empty 0 10 10 0.

(** a mask selecting the elements 3, 4, 5, 6 *)
Definition sample_mask : IndexedDataArrayMask :=
  mkIndexedDataArrayMask CudaGlobalPtr_empty CudaGlobalPtr_empty 3 7 4 0.

(** ** Sample tables

    Two classes; entries appended for the classes 0, 1, 0, 0, 1 in that
    order. *)

Definition sample_calls : list PushArgs :=
  [ mkPushArgs 0 0.5%float 1.5%float 2.5%float 10 20;
    mkPushArgs 1 3.5%float 4.5%float 5.5%float 11 21;
    mkPushArgs 0 6.5%float 7.5%float 8.5%float 12 22;
    mkPushArgs 0 9.5%float 10.5%float 11.5%float 13 23;
    mkPushArgs 1 12.5%float 13.5%float 14.5%float 14 24 ].

Definition sample_table : ProjectionParams :=
  mkProjectionParams [0; 0] (Some 0)
    [0.5; 3.5; 6.5; 9.5; 12.5]%float
    [1.5; 4.5; 7.5; 10.5; 13.5]%float
    [2.5; 5.5; 8.5; 11.5; 14.5]%float
    [10; 11; 12; 13; 14] [20; 21; 22; 23; 24]
    [3; 2] [0; 0].

(** the table [ProjectionParams(2)] *)
Definition sample_empty_table : ProjectionParams :=
  mkProjectionParams [0; 0] (Some 0) [] [] [] [] [] [0; 0] [0; 0].

Definition sample_call : PushArgs :=
  mkPushArgs 1 3.5%float 4.5%float 5.5%float 11 21.

(** the slice [(sample_table, 2, 5)] *)
Definition sample_slice : ProjectionParams :=
  mkProjectionParams [0] None
    [6.5; 9.5; 12.5]%float
    [7.5; 10.5; 13.5]%float
    [8.5; 11.5; 14.5]%float
    [12; 13; 14] [22; 23; 24]
    [3] [0].

(** [sample_table] in memory: one block per vector member *)
Definition sample_heap : list Storage :=
  [ ULongs [0; 0];
    Doubles [0.5; 3.5; 6.5; 9.5; 12.5]%float;
    Doubles [1.5; 4.5; 7.5; 10.5; 13.5]%float;
    Doubles [2.5; 5.5; 8.5; 11.5; 14.5]%float;
    ULongs [10; 11; 12; 13; 14]; ULongs [20; 21; 22; 23; 24];
    ULongs [3; 2]; ULongs [0; 0] ].

Definition sample_parent_obj : ProjectionParamsObj :=
  mkProjectionParamsObj 0 (Some 0) 1 2 3 4 5 6 7.

(** the slice [(2, 5)] of it, and the memory after its construction *)
Definition sample_slice_obj : ProjectionParamsObj :=
  mkProjectionParamsObj 8 None 9 10 11 12 13 14 15.

Definition sample_heap_sliced : list Storage :=
  sample_heap ++
  [ ULongs [0];
    Doubles [6.5; 9.5; 12.5]%float;
    Doubles [7.5; 10.5; 13.5]%float;
    Doubles [8.5; 11.5; 14.5]%float;
    ULongs [12; 13; 14]; ULongs [22; 23; 24];
    ULongs [3]; ULongs [0] ].

(** ** Statements about slices *)

(** [sub] is the sub-range [[first, last)] of [v], element for element *)
Definition is_subrange {A} (sub v : list A) (first last : Z) : Prop :=
  Z.of_nat (length sub) = last - first /\
  forall i, 0 <= i < last - first -> vec_get sub i = vec_get v (first + i) /\
                                     is_Some (vec_get sub i).

(** the five flat sequences of [t] all have length [L] *)
Definition flat_length (t : ProjectionParams) (L : Z) : Prop :=
  Z.of_nat (length (rots t)) = L /\
  Z.of_nat (length (tilts t)) = L /\
  Z.of_nat (length (psis t)) = L /\
  Z.of_nat (length (iorientclasses t)) = L /\
  Z.of_nat (length (iover_rots t)) = L.

(** the five flat sequences of [s] are the sub-range [[first, last)] of
    those of [t] *)
Definition flat_subrange (s t : ProjectionParams) (first last : Z) : Prop :=
  is_subrange (rots s) (rots t) first last /\
  is_subrange (tilts s) (tilts t) first last /\
  is_subrange (psis s) (psis t) first last /\
  is_subrange (iorientclasses s) (iorientclasses t) first last /\
  is_subrange (iover_rots s) (iover_rots t) first last.

(** ** Further statements about buffers *)

(** [{ b.host_alloc(); b.device_alloc(); }]: allocate both sides, then let
    the buffer go out of scope *)
Definition alloc_and_destroy (DEBUG_CUDA : bool) (sizeofT : Z) (b : CudaGlobalPtr)
  : M CudaGlobalPtr :=
  b ← host_alloc DEBUG_CUDA sizeofT b;
  b ← device_alloc DEBUG_CUDA sizeofT b;
  CudaGlobalPtr_dtor DEBUG_CUDA b.

(** [{ b.free(); }]: release both sides by hand, then let the buffer go out
    of scope *)
Definition free_and_destroy (DEBUG_CUDA : bool) (b : CudaGlobalPtr) : M CudaGlobalPtr :=
  b ← free DEBUG_CUDA b;
  CudaGlobalPtr_dtor DEBUG_CUDA b.

(** [{ b.device_alloc(); b.device_alloc(); }]: allocate the device side
    twice, then let the buffer go out of scope *)
Definition alloc_twice_and_destroy (DEBUG_CUDA : bool) (sizeofT : Z) (b : CudaGlobalPtr)
  : M CudaGlobalPtr :=
  b ← device_alloc DEBUG_CUDA sizeofT b;
  b ← device_alloc DEBUG_CUDA sizeofT b;
  CudaGlobalPtr_dtor DEBUG_CUDA b.

(** [{ b.device_alloc(); }]: allocate the device side, then let the buffer
    go out of scope *)
Definition device_alloc_and_destroy (DEBUG_CUDA : bool) (sizeofT : Z) (b : CudaGlobalPtr)
  : M CudaGlobalPtr :=
  b ← device_alloc DEBUG_CUDA sizeofT b;
  CudaGlobalPtr_dtor DEBUG_CUDA b.

(** [b.cp_to_host(); b.cp_to_device();] *)
Definition round_trip_back (DEBUG_CUDA : bool) (sizeofT : Z) (b : CudaGlobalPtr)
  : M CudaGlobalPtr :=
  b ← cp_to_host DEBUG_CUDA sizeofT b;
  cp_to_device DEBUG_CUDA sizeofT b.

(** some live block has base [p] *)
Definition is_live (p : Z) (blocks : list (Z * Z)) : bool :=
  existsb (is_base p) blocks.

(** the byte [cudaMemset] stores for the [int] argument [value] *)
Definition memset_byte (value : Z) : Byte.byte :=
  default Byte.x00 (Byte.of_N (Z.to_N (value mod 256))).

(** the diagnostic was printed *)
Definition printed (msg : string) (w : World) : Prop :=
  In (EvPrintf msg) (trace w).

(** the buffer owns both sides, and both arrays are live blocks *)
Definition owns_both (b : CudaGlobalPtr) (w : World) : Prop :=
  h_do_free b = true /\ d_do_free b = true /\
  h_ptr b <> NULL /\ d_ptr b <> NULL /\
  is_live (h_ptr b) (host_blocks w) = true /\
  is_live (d_ptr b) (dev_blocks w) = true.

(** neither array of the buffer is a live block *)
Definition released (b : CudaGlobalPtr) (w : World) : Prop :=
  is_live (h_ptr b) (host_blocks w) = false /\
  is_live (d_ptr b) (dev_blocks w) = false.

(** the destructors of the buffers of a list, in list order *)
Fixpoint destroy_all (DEBUG_CUDA : bool) (bs : list CudaGlobalPtr) : M unit :=
  match bs with
  | [] => mret tt
  | b :: rest => CudaGlobalPtr_dtor DEBUG_CUDA b ;; destroy_all DEBUG_CUDA rest
  end.

(** ** Further statements about tables *)

Definition sum_Z (l : list Z) : Z := foldr Z.add 0 l.

(** the counters are non-negative and add up to the number of entries, and
    the five flat sequences are parallel *)
Definition table_inv (t : ProjectionParams) : Prop :=
  Forall (fun n => 0 <= n) (class_entries t) /\
  sum_Z (class_entries t) = Z.of_nat (length (rots t)) /\
  length (tilts t) = length (rots t) /\
  length (psis t) = length (rots t) /\
  length (iorientclasses t) = length (rots t) /\
  length (iover_rots t) = length (rots t).

(** the class arguments of [calls] all index [class_entries] of [t] *)
Definition calls_in_range (calls : list PushArgs) (t : ProjectionParams) : Prop :=
  Forall (fun a => 0 <= iclass a < Z.of_nat (length (class_entries t))) calls.

(** the calls number [first], ..., [last - 1] *)
Definition calls_between (calls : list PushArgs) (first last : Z) : list PushArgs :=
  take (Z.to_nat (last - first)) (drop (Z.to_nat first) calls).

(** * Properties *)

(** ** Integers and vectors *)

Lemma wrap64_range z : 0 <= wrap64 z < 2 ^ 64.
Proof. unfold wrap64. apply Z.mod_pos_bound. lia. Qed.

Lemma wrap64_small z : 0 <= z < 2 ^ 64 -> wrap64 z = z.
Proof. intros H. unfold wrap64. apply Z.mod_small. exact H. Qed.

Lemma wrap64_add_l a b : wrap64 (wrap64 a + b) = wrap64 (a + b).
Proof. unfold wrap64. apply Zplus_mod_idemp_l. Qed.

Section VectorFacts.

Context {A : Type}.
Implicit Types (v : list A) (i : Z).

Lemma vec_get_Some v i x :
  vec_get v i = Some x <-> 0 <= i /\ v !! Z.to_nat i = Some x.
Proof.
  unfold vec_get. destruct (Z.ltb_spec i 0); split.
  - discriminate.
  - intros [? _]. lia.
  - auto.
  - intros [_ ?]. assumption.
Qed.

Lemma vec_get_in_range v i :
  0 <= i < Z.of_nat (length v) -> exists x, vec_get v i = Some x.
Proof.
  intros [Hlo Hhi].
  destruct (lookup_lt_is_Some_2 v (Z.to_nat i)) as [x Hx]; [lia|].
  exists x. apply vec_get_Some. auto.
Qed.

Lemma vec_set_Some v i x y :
  vec_get v i = Some y -> vec_set v i x = Some (<[Z.to_nat i := x]> v).
Proof. intros H. unfold vec_set. rewrite H. reflexivity. Qed.

Lemma vec_range_Some v first last :
  0 <= first <= last -> last <= Z.of_nat (length v) ->
  vec_range v first last
  = Some (take (Z.to_nat (last - first)) (drop (Z.to_nat first) v)).
Proof.
  intros [H0 H1] H2. unfold vec_range.
  destruct (Z.leb_spec 0 first); [|lia].
  destruct (Z.leb_spec first last); [|lia].
  destruct (Z.leb_spec last (Z.of_nat (length v))); [|lia].
  reflexivity.
Qed.

Lemma range_length v first last :
  0 <= first <= last -> last <= Z.of_nat (length v) ->
  Z.of_nat (length (take (Z.to_nat (last - first)) (drop (Z.to_nat first) v)))
  = last - first.
Proof. intros. rewrite length_take, length_drop. lia. Qed.

Lemma range_lookup v first last (k : nat) :
  0 <= first -> Z.of_nat k < last - first ->
  take (Z.to_nat (last - first)) (drop (Z.to_nat first) v) !! k
  = v !! (Z.to_nat first + k)%nat.
Proof.
  intros H0 Hk. rewrite lookup_take_lt by lia. apply lookup_drop.
Qed.

End VectorFacts.

(** ** [pushBackAll] *)

Lemma pushBackAll_Some (a : PushArgs) (t : ProjectionParams) (n : Z) :
  vec_get (class_entries t) (iclass a) = Some n ->
  pushBackAll a t
  = Some (mkProjectionParams
            (orientation_num t) (orientationNumAllClasses t)
            (rots t ++ [NEWrot a]) (tilts t ++ [NEWtilt a])
            (psis t ++ [NEWpsi a])
            (iorientclasses t ++ [NEWiorientclasses a])
            (iover_rots t ++ [NEWiover_rots a])
            (<[Z.to_nat (iclass a) := wrap64 (n + 1)]> (class_entries t))
            (class_idx t)).
Proof.
  intros H. unfold pushBackAll. rewrite H. cbn.
  rewrite (vec_set_Some _ _ _ _ H). reflexivity.
Qed.

Lemma pushBackAll_None (a : PushArgs) (t : ProjectionParams) :
  vec_get (class_entries t) (iclass a) = None -> pushBackAll a t = None.
Proof. intros H. unfold pushBackAll. rewrite H. reflexivity. Qed.

(** C10: a call of [pushBackAll] with a class argument that indexes
    [class_entries] succeeds; it stores [class_entries[iclass] + 1] (an
    [unsigned long] increment) at [iclass], appends one element (the
    argument) to each of [rots], [tilts], [psis], [iorientclasses] and
    [iover_rots], and leaves [class_idx], [orientation_num],
    [orientationNumAllClasses] and every other entry of [class_entries] as
    they were. *)
Theorem pushBackAll_frame (a : PushArgs) (t : ProjectionParams) :
  0 <= iclass a < Z.of_nat (length (class_entries t)) ->
  exists n t',
    class_entries t !! Z.to_nat (iclass a) = Some n /\
    pushBackAll a t = Some t' /\
    class_entries t' !! Z.to_nat (iclass a) = Some (wrap64 (n + 1)) /\
    (0 <= n < 2 ^ 64 - 1 ->
     class_entries t' !! Z.to_nat (iclass a) = Some (n + 1)) /\
    (forall c : nat, c <> Z.to_nat (iclass a) ->
                     class_entries t' !! c = class_entries t !! c) /\
    length (class_entries t') = length (class_entries t) /\
    rots t' = rots t ++ [NEWrot a] /\
    tilts t' = tilts t ++ [NEWtilt a] /\
    psis t' = psis t ++ [NEWpsi a] /\
    iorientclasses t' = iorientclasses t ++ [NEWiorientclasses a] /\
    iover_rots t' = iover_rots t ++ [NEWiover_rots a] /\
    class_idx t' = class_idx t /\
    orientation_num t' = orientation_num t /\
    orientationNumAllClasses t' = orientationNumAllClasses t.
Proof.
  intros Hr.
  destruct (vec_get_in_range (class_entries t) (iclass a) Hr) as [n Hn].
  pose proof (proj1 (vec_get_Some _ _ _) Hn) as [_ Hl].
  exists n. eexists. split; [exact Hl|].
  split; [apply pushBackAll_Some; exact Hn|]. cbn.
  assert (Hlt : (Z.to_nat (iclass a) < length (class_entries t))%nat) by lia.
  repeat split.
  - apply list_lookup_insert_eq. exact Hlt.
  - intros Hn1. rewrite wrap64_small by lia.
    apply list_lookup_insert_eq. exact Hlt.
  - intros c Hc. apply list_lookup_insert_ne. congruence.
  - apply length_insert.
Qed.

(** ** Sequences of [pushBackAll] calls *)

Lemma calls_to_cons (c : Z) (a : PushArgs) (rest : list PushArgs) :
  calls_to c (a :: rest)
  = (if iclass a =? c then 1 else 0) + calls_to c rest.
Proof.
  unfold calls_to. cbn. destruct (iclass a =? c); cbn [length]; lia.
Qed.

Lemma calls_to_bounds (c : Z) (calls : list PushArgs) :
  0 <= calls_to c calls <= Z.of_nat (length calls).
Proof.
  unfold calls_to. pose proof (List.filter_length_le (fun a => iclass a =? c) calls).
  lia.
Qed.

(** the state after a run of calls, from any table *)
Lemma pushBackAll_seq_spec (calls : list PushArgs) :
  forall t : ProjectionParams,
    Forall (fun a => 0 <= iclass a < Z.of_nat (length (class_entries t))) calls ->
    exists t',
      pushBackAll_seq calls t = Some t' /\
      length (class_entries t') = length (class_entries t) /\
      (forall (c : nat) (n : Z),
          class_entries t !! c = Some n -> 0 <= n < 2 ^ 64 ->
          class_entries t' !! c = Some (wrap64 (n + calls_to (Z.of_nat c) calls))) /\
      length (rots t') = (length (rots t) + length calls)%nat /\
      length (tilts t') = (length (tilts t) + length calls)%nat /\
      length (psis t') = (length (psis t) + length calls)%nat /\
      length (iorientclasses t') = (length (iorientclasses t) + length calls)%nat /\
      length (iover_rots t') = (length (iover_rots t) + length calls)%nat.
Proof.
  induction calls as [|a rest IH]; intros t Hall.
  - exists t. cbn. repeat split; try lia.
    intros c n Hc Hn. unfold calls_to. cbn.
    rewrite Z.add_0_r, wrap64_small by exact Hn. exact Hc.
  - inversion Hall as [|? ? Ha Hrest]; subst.
    destruct (vec_get_in_range (class_entries t) (iclass a) Ha) as [m Hget].
    pose proof (pushBackAll_Some a t m Hget) as Hpush.
    set (t1 := mkProjectionParams _ _ _ _ _ _ _ _ _) in Hpush.
    assert (Hlen : length (class_entries t1) = length (class_entries t))
      by apply length_insert.
    assert (Hnew : class_entries t1 !! Z.to_nat (iclass a) = Some (wrap64 (m + 1)))
      by (apply list_lookup_insert_eq; lia).
    assert (Hother : forall c : nat, c <> Z.to_nat (iclass a) ->
                                     class_entries t1 !! c = class_entries t !! c)
      by (intros c Hc; apply list_lookup_insert_ne; congruence).
    assert (Hm : class_entries t !! Z.to_nat (iclass a) = Some m)
      by (apply vec_get_Some in Hget; tauto).
    destruct (IH t1) as (t' & Hrun & Hlen' & Hcnt & Hr' & Ht' & Hp' & Hic' & Hio').
    { rewrite Hlen. exact Hrest. }
    exists t'. cbn. rewrite Hpush. cbn.
    split; [exact Hrun|]. split; [congruence|].
    split.
    + intros c n Hc Hn. rewrite calls_to_cons.
      destruct (Nat.eq_dec c (Z.to_nat (iclass a))) as [->|Hne].
      * rewrite Z2Nat.id by lia. rewrite Z.eqb_refl.
        assert (n = m) by congruence. subst m.
        rewrite (Hcnt _ _ Hnew (wrap64_range _)).
        rewrite Z2Nat.id by lia.
        f_equal. rewrite wrap64_add_l. f_equal. lia.
      * destruct (Z.eqb_spec (iclass a) (Z.of_nat c)) as [He|_]; [lia|].
        rewrite <- (Hother c Hne) in Hc.
        rewrite (Hcnt _ _ Hc Hn). reflexivity.
    + rewrite Hr', Ht', Hp', Hic', Hio'. unfold t1. cbn.
      rewrite !length_app. cbn. repeat split; lia.
Qed.

Lemma ProjectionParams_classes_Some (classes : Z) :
  0 < classes ->
  ProjectionParams_classes classes
  = Some (mkProjectionParams (vec_fill classes 0) (Some 0) [] [] [] [] []
                             (vec_fill classes 0) (vec_fill classes 0)).
Proof.
  intros H. unfold ProjectionParams_classes, vec_set, vec_get, vec_fill. cbn.
  destruct (Z.to_nat classes) as [|k] eqn:E; [lia|]. reflexivity.
Qed.

(** C5: on a table built for [classes] classes, [k] calls of [pushBackAll]
    whose class arguments are classes of the table, in any order, all
    succeed; afterwards [class_entries[c]] is the number of those calls whose
    class argument was [c], and [rots], [tilts], [psis], [iorientclasses] and
    [iover_rots] each have length [k]. *)
Theorem pushBackAll_counts (classes : Z) (calls : list PushArgs) (t0 : ProjectionParams) :
  ProjectionParams_classes classes = Some t0 ->
  Forall (fun a => 0 <= iclass a < classes) calls ->
  Z.of_nat (length calls) < 2 ^ 64 ->
  exists t,
    pushBackAll_seq calls t0 = Some t /\
    (forall c, 0 <= c < classes ->
               vec_get (class_entries t) c = Some (calls_to c calls)) /\
    length (rots t) = length calls /\
    length (tilts t) = length calls /\
    length (psis t) = length calls /\
    length (iorientclasses t) = length calls /\
    length (iover_rots t) = length calls.
Proof.
  intros Hctor Hall Hk.
  assert (Hpos : 0 < classes).
  { destruct (Z.ltb_spec 0 classes) as [|Hle]; [assumption|].
    unfold ProjectionParams_classes, vec_set, vec_get, vec_fill in Hctor.
    replace (Z.to_nat classes) with 0%nat in Hctor by lia. discriminate. }
  rewrite (ProjectionParams_classes_Some classes Hpos) in Hctor.
  injection Hctor as <-.
  destruct (pushBackAll_seq_spec calls
              (mkProjectionParams (vec_fill classes 0) (Some 0) [] [] [] [] []
                                  (vec_fill classes 0) (vec_fill classes 0)))
    as (t & Hrun & Hlen & Hcnt & Hr & Ht & Hp & Hic & Hio).
  { cbn. unfold vec_fill. rewrite length_replicate.
    eapply Forall_impl; [exact Hall|]. cbn. intros; lia. }
  exists t. split; [exact Hrun|]. cbn in *.
  split; [|repeat split; assumption].
  intros c Hc. apply vec_get_Some. split; [lia|].
  rewrite (Hcnt (Z.to_nat c) 0).
  - rewrite Z2Nat.id by lia. rewrite Z.add_0_l.
    pose proof (calls_to_bounds c calls).
    rewrite wrap64_small by lia. reflexivity.
  - unfold vec_fill. apply lookup_replicate_2. lia.
  - lia.
Qed.

(** ** The class-slice constructor *)

Lemma range_is_subrange {A} (v : list A) (first last : Z) :
  0 <= first <= last -> last <= Z.of_nat (length v) ->
  is_subrange (take (Z.to_nat (last - first)) (drop (Z.to_nat first) v))
              v first last.
Proof.
  intros Hfl Hl. split; [apply range_length; assumption|].
  intros i Hi.
  assert (E : vec_get (take (Z.to_nat (last - first)) (drop (Z.to_nat first) v)) i
              = vec_get v (first + i)).
  { unfold vec_get.
    destruct (Z.ltb_spec i 0); [lia|]. destruct (Z.ltb_spec (first + i) 0); [lia|].
    rewrite range_lookup by lia. f_equal. lia. }
  split; [exact E|]. rewrite E.
  destruct (vec_get_in_range v (first + i)) as [x Hx]; [lia|].
  rewrite Hx. eauto.
Qed.

Lemma ProjectionParams_slice_Some (parent : ProjectionParams) (L start end_ : Z) :
  flat_length parent L -> 0 <= start <= end_ -> end_ <= L ->
  ProjectionParams_slice parent start end_
  = Some (mkProjectionParams
            [0] None
            (take (Z.to_nat (end_ - start)) (drop (Z.to_nat start) (rots parent)))
            (take (Z.to_nat (end_ - start)) (drop (Z.to_nat start) (tilts parent)))
            (take (Z.to_nat (end_ - start)) (drop (Z.to_nat start) (psis parent)))
            (take (Z.to_nat (end_ - start)) (drop (Z.to_nat start) (iorientclasses parent)))
            (take (Z.to_nat (end_ - start)) (drop (Z.to_nat start) (iover_rots parent)))
            [wrap64 (end_ - start)] [0]).
Proof.
  intros (H1 & H2 & H3 & H4 & H5) Hse HL. unfold ProjectionParams_slice.
  rewrite !vec_range_Some by lia. reflexivity.
Qed.

(** C6, as the code has it: for a table whose flat sequences have length [L]
    and [0 <= start <= end <= L], the slice constructor returns a table whose
    five flat sequences have length [end - start] and are, element for
    element, the parent's sub-range [[start, end)]; [class_entries] is
    [[end - start]], [class_idx] is [[0]], and [orientation_num] is a vector
    of one element, which is 0. *)
Theorem ProjectionParams_slice_spec (parent : ProjectionParams) (L start end_ : Z) :
  flat_length parent L -> 0 <= start <= end_ -> end_ <= L -> end_ < 2 ^ 64 ->
  exists s,
    ProjectionParams_slice parent start end_ = Some s /\
    flat_length s (end_ - start) /\
    flat_subrange s parent start end_ /\
    orientation_num s = [0] /\
    class_entries s = [end_ - start] /\
    class_idx s = [0].
Proof.
  intros HL Hse Hle Hmax. pose proof HL as (H1 & H2 & H3 & H4 & H5).
  eexists. split; [apply (ProjectionParams_slice_Some parent L); assumption|].
  cbn. split; [|split].
  - repeat split; apply range_length; lia.
  - repeat split; try (apply range_length; lia);
      apply range_is_subrange; lia.
  - rewrite wrap64_small by lia. auto.
Qed.

(** C6, the statement as written fails: the slice [(2, 5)] of the sample
    table has [orientation_num = [0]]; the value reported for its single
    class is 0, not 1. *)
Lemma ProjectionParams_slice_orientation_num_not_1 :
  ProjectionParams_slice sample_table 2 5 = Some sample_slice /\
  orientation_num sample_slice = [0] /\
  ~ (exists s, ProjectionParams_slice sample_table 2 5 = Some s /\
               (orientation_num s = [1] \/ vec_get (orientation_num s) 0 = Some 1)).
Proof.
  assert (E : ProjectionParams_slice sample_table 2 5 = Some sample_slice)
    by (vm_compute; reflexivity).
  split; [exact E|]. split; [reflexivity|].
  intros (s & Hs & Hv). rewrite E in Hs. injection Hs as <-.
  destruct Hv as [Hv|Hv]; vm_compute in Hv; discriminate.
Qed.

(** ** Slices are copies *)

Lemma doubles_at_lookup (h h' : list Storage) (id : nat) :
  h' !! id = h !! id -> doubles_at h' id = doubles_at h id.
Proof. intros H. unfold doubles_at. rewrite H. reflexivity. Qed.

Lemma ulongs_at_lookup (h h' : list Storage) (id : nat) :
  h' !! id = h !! id -> ulongs_at h' id = ulongs_at h id.
Proof. intros H. unfold ulongs_at. rewrite H. reflexivity. Qed.

(** a table reads nothing but the blocks of its handles *)
Lemma read_object_ext (h h' : list Storage) (o : ProjectionParamsObj) :
  (forall id, In id (handles o) -> h' !! id = h !! id) ->
  read_object h' o = read_object h o.
Proof.
  intros H. unfold read_object.
  rewrite (ulongs_at_lookup h h' (orientation_num_at o)) by (apply H; cbn; auto 10).
  rewrite (doubles_at_lookup h h' (rots_at o)) by (apply H; cbn; auto 10).
  rewrite (doubles_at_lookup h h' (tilts_at o)) by (apply H; cbn; auto 10).
  rewrite (doubles_at_lookup h h' (psis_at o)) by (apply H; cbn; auto 10).
  rewrite (ulongs_at_lookup h h' (iorientclasses_at o)) by (apply H; cbn; auto 10).
  rewrite (ulongs_at_lookup h h' (iover_rots_at o)) by (apply H; cbn; auto 10).
  rewrite (ulongs_at_lookup h h' (class_entries_at o)) by (apply H; cbn; auto 10).
  rewrite (ulongs_at_lookup h h' (class_idx_at o)) by (apply H; cbn; auto 10).
  reflexivity.
Qed.

Lemma increment_at_frame (id : nat) (i : Z) (h h' : list Storage) :
  increment_at id i h = Some h' -> forall j : nat, j <> id -> h' !! j = h !! j.
Proof.
  unfold increment_at. intros H j Hj.
  destruct (ulongs_at h id) as [l|]; [|discriminate]. cbn in H.
  destruct (vec_get l i) as [n|]; [|discriminate]. cbn in H.
  destruct (vec_set l i (wrap64 (n + 1))) as [l'|]; [|discriminate]. cbn in H.
  injection H as <-. apply list_lookup_insert_ne. congruence.
Qed.

Lemma push_back_double_frame (id : nat) (x : double) (h h' : list Storage) :
  push_back_double id x h = Some h' -> forall j : nat, j <> id -> h' !! j = h !! j.
Proof.
  unfold push_back_double. intros H j Hj.
  destruct (doubles_at h id) as [l|]; [|discriminate]. cbn in H.
  injection H as <-. apply list_lookup_insert_ne. congruence.
Qed.

Lemma push_back_ulong_frame (id : nat) (x : Z) (h h' : list Storage) :
  push_back_ulong id x h = Some h' -> forall j : nat, j <> id -> h' !! j = h !! j.
Proof.
  unfold push_back_ulong. intros H j Hj.
  destruct (ulongs_at h id) as [l|]; [|discriminate]. cbn in H.
  injection H as <-. apply list_lookup_insert_ne. congruence.
Qed.

(** [pushBackAll] writes to no block but those of its own table *)
Lemma pushBackAll_mem_frame (a : PushArgs) (o : ProjectionParamsObj)
      (h h' : list Storage) :
  pushBackAll_mem a o h = Some h' ->
  forall j : nat, ~ In j (handles o) -> h' !! j = h !! j.
Proof.
  unfold pushBackAll_mem. intros H j Hj.
  assert (Hn : j <> class_entries_at o /\ j <> rots_at o /\ j <> tilts_at o /\
               j <> psis_at o /\ j <> iorientclasses_at o /\ j <> iover_rots_at o).
  { unfold handles in Hj. cbn in Hj. intuition congruence. }
  destruct Hn as (N1 & N2 & N3 & N4 & N5 & N6).
  destruct (increment_at _ _ h) as [h1|] eqn:E1; [|discriminate]. cbn in H.
  destruct (push_back_double (rots_at o) _ h1) as [h2|] eqn:E2; [|discriminate]. cbn in H.
  destruct (push_back_double (tilts_at o) _ h2) as [h3|] eqn:E3; [|discriminate]. cbn in H.
  destruct (push_back_double (psis_at o) _ h3) as [h4|] eqn:E4; [|discriminate]. cbn in H.
  destruct (push_back_ulong (iorientclasses_at o) _ h4) as [h5|] eqn:E5; [|discriminate].
  cbn in H.
  rewrite (push_back_ulong_frame _ _ _ _ H j N6).
  rewrite (push_back_ulong_frame _ _ _ _ E5 j N5).
  rewrite (push_back_double_frame _ _ _ _ E4 j N4).
  rewrite (push_back_double_frame _ _ _ _ E3 j N3).
  rewrite (push_back_double_frame _ _ _ _ E2 j N2).
  exact (increment_at_frame _ _ _ _ E1 j N1).
Qed.

Lemma pushBackAll_mem_seq_frame (calls : list PushArgs) (o : ProjectionParamsObj) :
  forall h h' : list Storage,
    pushBackAll_mem_seq calls o h = Some h' ->
    forall j : nat, ~ In j (handles o) -> h' !! j = h !! j.
Proof.
  induction calls as [|a rest IH]; intros h h' H j Hj; cbn in H.
  - injection H as <-. reflexivity.
  - destruct (pushBackAll_mem a o h) as [h1|] eqn:E; [|discriminate]. cbn in H.
    rewrite (IH _ _ H j Hj). exact (pushBackAll_mem_frame _ _ _ _ E j Hj).
Qed.

Lemma new_doubles_range_inv (id : nat) (first last : Z) (h ext : list Storage)
      (k : nat) (h' : list Storage) :
  (id < length h)%nat ->
  new_doubles_range id first last (h ++ ext) = Some (k, h') ->
  exists l r, doubles_at h id = Some l /\ vec_range l first last = Some r /\
              k = length (h ++ ext) /\ h' = (h ++ ext) ++ [Doubles r].
Proof.
  intros Hid. unfold new_doubles_range, new_vector.
  rewrite (doubles_at_lookup h (h ++ ext) id) by (apply lookup_app_l; exact Hid).
  destruct (doubles_at h id) as [l|]; [|discriminate]. cbn.
  destruct (vec_range l first last) as [r|] eqn:Er; [|discriminate]. cbn.
  intros H. injection H as <- <-. exists l, r. repeat split. exact Er. 
Qed.

Lemma new_ulongs_range_inv (id : nat) (first last : Z) (h ext : list Storage)
      (k : nat) (h' : list Storage) :
  (id < length h)%nat ->
  new_ulongs_range id first last (h ++ ext) = Some (k, h') ->
  exists l r, ulongs_at h id = Some l /\ vec_range l first last = Some r /\
              k = length (h ++ ext) /\ h' = (h ++ ext) ++ [ULongs r].
Proof.
  intros Hid. unfold new_ulongs_range, new_vector.
  rewrite (ulongs_at_lookup h (h ++ ext) id) by (apply lookup_app_l; exact Hid).
  destruct (ulongs_at h id) as [l|]; [|discriminate]. cbn.
  destruct (vec_range l first last) as [r|] eqn:Er; [|discriminate]. cbn.
  intros H. injection H as <- <-. exists l, r. repeat split. exact Er.
Qed.

Lemma object_allocated_inv (o : ProjectionParamsObj) (h : list Storage) :
  object_allocated o h ->
  forall id, In id (handles o) -> (id < length h)%nat.
Proof. unfold object_allocated. intros H id Hid. rewrite List.Forall_forall in H. auto. Qed.

(** the slice constructor: what it reads, and the eight blocks it adds *)
Lemma ProjectionParams_slice_mem_inv (parent o : ProjectionParamsObj) (start end_ : Z)
      (h h1 : list Storage) :
  object_allocated parent h ->
  ProjectionParams_slice_mem parent start end_ h = Some (o, h1) ->
  exists lr lt lp lic lio r t p ic io,
    doubles_at h (rots_at parent) = Some lr /\ vec_range lr start end_ = Some r /\
    doubles_at h (tilts_at parent) = Some lt /\ vec_range lt start end_ = Some t /\
    doubles_at h (psis_at parent) = Some lp /\ vec_range lp start end_ = Some p /\
    ulongs_at h (iorientclasses_at parent) = Some lic /\
    vec_range lic start end_ = Some ic /\
    ulongs_at h (iover_rots_at parent) = Some lio /\
    vec_range lio start end_ = Some io /\
    o = mkProjectionParamsObj (length h) None (length h + 1) (length h + 2)
                              (length h + 3) (length h + 4) (length h + 5)
                              (length h + 6) (length h + 7) /\
    h1 = h ++ [ULongs [0]; Doubles r; Doubles t; Doubles p; ULongs ic; ULongs io;
               ULongs [wrap64 (end_ - start)]; ULongs [0]].
Proof.
  intros Ha H. pose proof (object_allocated_inv _ _ Ha) as Hlt.
  unfold ProjectionParams_slice_mem, new_vector in H. cbn [fst snd] in H.
  destruct (new_doubles_range (rots_at parent) _ _ _) as [[k1 g1]|] eqn:E1;
    [|discriminate].
  apply new_doubles_range_inv in E1; [|apply Hlt; cbn; auto 10].
  destruct E1 as (lr & r & Er & Vr & -> & ->). cbn [mbind option_bind fst snd] in H.
  rewrite <- !app_assoc in H.
  destruct (new_doubles_range (tilts_at parent) _ _ _) as [[k2 g2]|] eqn:E2;
    [|discriminate].
  apply new_doubles_range_inv in E2; [|apply Hlt; cbn; auto 10].
  destruct E2 as (lt & t & Et & Vt & -> & ->). cbn [mbind option_bind fst snd] in H.
  rewrite <- !app_assoc in H.
  destruct (new_doubles_range (psis_at parent) _ _ _) as [[k3 g3]|] eqn:E3;
    [|discriminate].
  apply new_doubles_range_inv in E3; [|apply Hlt; cbn; auto 10].
  destruct E3 as (lp & p & Ep & Vp & -> & ->). cbn [mbind option_bind fst snd] in H.
  rewrite <- !app_assoc in H.
  destruct (new_ulongs_range (iorientclasses_at parent) _ _ _) as [[k4 g4]|] eqn:E4;
    [|discriminate].
  apply new_ulongs_range_inv in E4; [|apply Hlt; cbn; auto 10].
  destruct E4 as (lic & ic & Eic & Vic & -> & ->). cbn [mbind option_bind fst snd] in H.
  rewrite <- !app_assoc in H.
  destruct (new_ulongs_range (iover_rots_at parent) _ _ _) as [[k5 g5]|] eqn:E5;
    [|discriminate].
  apply new_ulongs_range_inv in E5; [|apply Hlt; cbn; auto 10].
  destruct E5 as (lio & io & Eio & Vio & -> & ->). cbn [mbind option_bind fst snd] in H.
  injection H as <- <-.
  exists lr, lt, lp, lic, lio, r, t, p, ic, io.
  repeat (split; [assumption|]).
  rewrite <- !app_assoc. cbn [app]. rewrite !length_app. cbn [length].
  split; [f_equal; lia|reflexivity].
Qed.

Lemma doubles_at_insert_ne (h : list Storage) (id j : nat) (s : Storage) :
  j <> id -> doubles_at (<[id := s]> h) j = doubles_at h j.
Proof. intros H. apply doubles_at_lookup, list_lookup_insert_ne. congruence. Qed.

Lemma ulongs_at_insert_ne (h : list Storage) (id j : nat) (s : Storage) :
  j <> id -> ulongs_at (<[id := s]> h) j = ulongs_at h j.
Proof. intros H. apply ulongs_at_lookup, list_lookup_insert_ne. congruence. Qed.

Lemma doubles_at_insert_eq (h : list Storage) (id : nat) (l : list double) :
  (id < length h)%nat -> doubles_at (<[id := Doubles l]> h) id = Some l.
Proof. intros H. unfold doubles_at. rewrite list_lookup_insert_eq by exact H. reflexivity. Qed.

Lemma ulongs_at_insert_eq (h : list Storage) (id : nat) (l : list Z) :
  (id < length h)%nat -> ulongs_at (<[id := ULongs l]> h) id = Some l.
Proof. intros H. unfold ulongs_at. rewrite list_lookup_insert_eq by exact H. reflexivity. Qed.

Lemma doubles_at_lt (h : list Storage) (id : nat) (l : list double) :
  doubles_at h id = Some l -> (id < length h)%nat.
Proof.
  unfold doubles_at. destruct (h !! id) eqn:E; [|discriminate].
  intros _. exact (lookup_lt_Some _ _ _ E).
Qed.

Lemma ulongs_at_lt (h : list Storage) (id : nat) (l : list Z) :
  ulongs_at h id = Some l -> (id < length h)%nat.
Proof.
  unfold ulongs_at. destruct (h !! id) eqn:E; [|discriminate].
  intros _. exact (lookup_lt_Some _ _ _ E).
Qed.

Lemma read_object_inv (h : list Storage) (o : ProjectionParamsObj) (t : ProjectionParams) :
  read_object h o = Some t ->
  ulongs_at h (orientation_num_at o) = Some (orientation_num t) /\
  doubles_at h (rots_at o) = Some (rots t) /\
  doubles_at h (tilts_at o) = Some (tilts t) /\
  doubles_at h (psis_at o) = Some (psis t) /\
  ulongs_at h (iorientclasses_at o) = Some (iorientclasses t) /\
  ulongs_at h (iover_rots_at o) = Some (iover_rots t) /\
  ulongs_at h (class_entries_at o) = Some (class_entries t) /\
  ulongs_at h (class_idx_at o) = Some (class_idx t) /\
  orientationNumAllClasses_of o = orientationNumAllClasses t.
Proof.
  unfold read_object. intros H.
  destruct (ulongs_at h (orientation_num_at o)); [|discriminate].
  destruct (doubles_at h (rots_at o)); [|discriminate].
  destruct (doubles_at h (tilts_at o)); [|discriminate].
  destruct (doubles_at h (psis_at o)); [|discriminate].
  destruct (ulongs_at h (iorientclasses_at o)); [|discriminate].
  destruct (ulongs_at h (iover_rots_at o)); [|discriminate].
  destruct (ulongs_at h (class_entries_at o)); [|discriminate].
  destruct (ulongs_at h (class_idx_at o)); [|discriminate].
  cbn in H. injection H as <-. cbn. auto 10.
Qed.

Ltac heap_lookup :=
  repeat first
    [ rewrite doubles_at_insert_ne by congruence
    | rewrite ulongs_at_insert_ne by congruence
    | rewrite doubles_at_insert_eq by (rewrite ?length_insert; assumption)
    | rewrite ulongs_at_insert_eq by (rewrite ?length_insert; assumption) ].

(** on a table whose members have distinct storage, [pushBackAll] over the
    heap is [pushBackAll] on the values *)
Lemma pushBackAll_mem_refines (a : PushArgs) (o : ProjectionParamsObj)
      (h : list Storage) (t : ProjectionParams) :
  NoDup (handles o) -> read_object h o = Some t ->
  (h' ← pushBackAll_mem a o h; read_object h' o) = pushBackAll a t.
Proof.
  intros Hnd Hread.
  destruct (read_object_inv _ _ _ Hread)
    as (Hon & Hr & Ht & Hp & Hic & Hio & Hce & Hci & Hall).
  pose proof (ulongs_at_lt _ _ _ Hon). pose proof (doubles_at_lt _ _ _ Hr).
  pose proof (doubles_at_lt _ _ _ Ht). pose proof (doubles_at_lt _ _ _ Hp).
  pose proof (ulongs_at_lt _ _ _ Hic). pose proof (ulongs_at_lt _ _ _ Hio).
  pose proof (ulongs_at_lt _ _ _ Hce). pose proof (ulongs_at_lt _ _ _ Hci).
  unfold handles in Hnd.
  repeat match goal with
         | H : NoDup (_ :: _) |- _ =>
             apply NoDup_cons in H; destruct H as [? H]
         end.
  repeat match goal with
         | H : _ ∉ _ :: _ |- _ => apply not_elem_of_cons in H; destruct H as [? H]
         end.
  unfold pushBackAll_mem, pushBackAll, increment_at.
  rewrite Hce. cbn [mbind option_bind].
  destruct (vec_get (class_entries t) (iclass a)) as [n|] eqn:Hn; [|reflexivity].
  cbn [mbind option_bind].
  rewrite (vec_set_Some _ _ _ _ Hn). cbn [mbind option_bind].
  unfold push_back_double, push_back_ulong.
  heap_lookup. rewrite Hr. cbn [mbind option_bind].
  heap_lookup. rewrite Ht. cbn [mbind option_bind].
  heap_lookup. rewrite Hp. cbn [mbind option_bind].
  heap_lookup. rewrite Hic. cbn [mbind option_bind].
  heap_lookup. rewrite Hio. cbn [mbind option_bind].
  unfold read_object.
  heap_lookup. rewrite Hon, Hci. cbn [mbind option_bind]. rewrite Hall. reflexivity.
Qed.

Lemma pushBackAll_mem_agrees (a : PushArgs) (o : ProjectionParamsObj)
      (h h1 : list Storage) (t : ProjectionParams) :
  NoDup (handles o) -> read_object h o = Some t ->
  pushBackAll_mem a o h = Some h1 ->
  exists t1, pushBackAll a t = Some t1 /\ read_object h1 o = Some t1.
Proof.
  intros Hnd Hread Hrun.
  pose proof (pushBackAll_mem_refines a o h t Hnd Hread) as Href.
  rewrite Hrun in Href. cbn [mbind option_bind] in Href.
  destruct (pushBackAll a t) as [t1|] eqn:E; [eauto|].
  exfalso. unfold pushBackAll_mem, increment_at in Hrun.
  destruct (read_object_inv _ _ _ Hread) as (_ & _ & _ & _ & _ & _ & Hce & _).
  rewrite Hce in Hrun. cbn [mbind option_bind] in Hrun.
  destruct (vec_get (class_entries t) (iclass a)) as [n|] eqn:Hn; [|discriminate].
  rewrite (pushBackAll_Some a t n Hn) in E. discriminate.
Qed.

(** a run of [pushBackAll] calls over the heap is the run on the values *)
Lemma pushBackAll_mem_seq_refines (calls : list PushArgs) (o : ProjectionParamsObj) :
  NoDup (handles o) ->
  forall (h : list Storage) (t : ProjectionParams),
    read_object h o = Some t ->
    forall h', pushBackAll_mem_seq calls o h = Some h' ->
               read_object h' o = pushBackAll_seq calls t /\
               is_Some (pushBackAll_seq calls t).
Proof.
  intros Hnd. induction calls as [|a rest IH]; intros h t Hread h' Hrun; cbn in *.
  - injection Hrun as <-. split; [exact Hread|eauto].
  - destruct (pushBackAll_mem a o h) as [h1|] eqn:E; [|discriminate].
    cbn [mbind option_bind] in Hrun.
    destruct (pushBackAll_mem_agrees a o h h1 t Hnd Hread E) as (t1 & E1 & Hread1).
    rewrite E1. cbn [mbind option_bind]. exact (IH h1 t1 Hread1 h' Hrun).
Qed.

Lemma lookup_app_plus {A} (l ext : list A) (k : nat) :
  (l ++ ext) !! (length l + k)%nat = ext !! k.
Proof. rewrite lookup_app_r by lia. f_equal. lia. Qed.

Lemma lookup_app_length {A} (l ext : list A) :
  (l ++ ext) !! length l = ext !! 0%nat.
Proof. rewrite <- (lookup_app_plus l ext 0). f_equal. lia. Qed.

(** C7: the slice constructor copies: every vector member of the slice gets
    a storage block of its own, none shared with the parent, holding the
    values of the parent's sub-range.  So [pushBackAll] calls on the parent,
    which do append to the parent, leave every member of the slice as it is,
    and [pushBackAll] calls on the slice, or any other write to its storage,
    leave every member of the parent as it is. *)
Theorem slice_is_a_copy (parent s : ProjectionParamsObj) (start end_ : Z)
        (h h1 : list Storage) :
  object_allocated parent h ->
  ProjectionParams_slice_mem parent start end_ h = Some (s, h1) ->
  (forall id, In id (handles s) -> ~ In id (handles parent)) /\
  NoDup (handles s) /\
  read_object h1 parent = read_object h parent /\
  (forall pv, read_object h parent = Some pv ->
              read_object h1 s = ProjectionParams_slice pv start end_ /\
              is_Some (read_object h1 s)) /\
  (forall calls h2,
      pushBackAll_mem_seq calls parent h1 = Some h2 ->
      read_object h2 s = read_object h1 s) /\
  (forall calls h2 pv,
      NoDup (handles parent) -> read_object h1 parent = Some pv ->
      pushBackAll_mem_seq calls parent h1 = Some h2 ->
      read_object h2 parent = pushBackAll_seq calls pv) /\
  (forall calls h2,
      pushBackAll_mem_seq calls s h1 = Some h2 ->
      read_object h2 parent = read_object h1 parent) /\
  (forall id st,
      In id (handles s) ->
      read_object (<[id := st]> h1) parent = read_object h1 parent).
Proof.
  intros Ha Hs. pose proof (object_allocated_inv _ _ Ha) as Hlt.
  destruct (ProjectionParams_slice_mem_inv _ _ _ _ _ _ Ha Hs)
    as (lr & lt & lp & lic & lio & r & t & p & ic & io &
        Er & Vr & Et & Vt & Ep & Vp & Eic & Vic & Eio & Vio & -> & ->).
  set (ext := [ULongs [0]; Doubles r; Doubles t; Doubles p; ULongs ic; ULongs io;
               ULongs [wrap64 (end_ - start)]; ULongs [0]]).
  set (s := mkProjectionParamsObj _ _ _ _ _ _ _ _ _).
  assert (Hfresh : forall id, In id (handles s) -> (length h <= id)%nat).
  { intros id Hid. unfold handles, s in Hid. cbn in Hid. intuition lia. }
  assert (Hdisj : forall id, In id (handles s) -> ~ In id (handles parent)).
  { intros id Hid Hp. specialize (Hfresh id Hid). specialize (Hlt id Hp). lia. }
  assert (Hdisj' : forall id, In id (handles parent) -> ~ In id (handles s)).
  { intros id Hp Hid. exact (Hdisj id Hid Hp). }
  split; [exact Hdisj|].
  split.
  { unfold handles, s. cbn.
    repeat (apply NoDup_cons_2;
            [rewrite ?not_elem_of_cons; repeat split; try lia; apply not_elem_of_nil|]).
    apply NoDup_nil_2. }
  split.
  { apply read_object_ext. intros id Hid. apply lookup_app_l. exact (Hlt id Hid). }
  split.
  { intros pv Hpv.
    destruct (read_object_inv _ _ _ Hpv) as (_ & Hr & Ht & Hp & Hic & Hio & _).
    assert (E : read_object (h ++ ext) s = ProjectionParams_slice pv start end_).
    { unfold ProjectionParams_slice.
      replace (rots pv) with lr by congruence.
      replace (tilts pv) with lt by congruence.
      replace (psis pv) with lp by congruence.
      replace (iorientclasses pv) with lic by congruence.
      replace (iover_rots pv) with lio by congruence.
      rewrite Vr, Vt, Vp, Vic, Vio. cbn [mbind option_bind].
      unfold read_object, doubles_at, ulongs_at, s.
      cbn [orientation_num_at rots_at tilts_at psis_at iorientclasses_at
           iover_rots_at class_entries_at class_idx_at orientationNumAllClasses_of].
      rewrite lookup_app_length, !lookup_app_plus. reflexivity. }
    split; [exact E|]. rewrite E. unfold ProjectionParams_slice.
    replace (rots pv) with lr by congruence.
    replace (tilts pv) with lt by congruence.
    replace (psis pv) with lp by congruence.
    replace (iorientclasses pv) with lic by congruence.
    replace (iover_rots pv) with lio by congruence.
    rewrite Vr, Vt, Vp, Vic, Vio. cbn. eauto. }
  split.
  { intros calls h2 Hrun. apply read_object_ext. intros id Hid.
    exact (pushBackAll_mem_seq_frame _ _ _ _ Hrun id (Hdisj id Hid)). }
  split.
  { intros calls h2 pv Hnd Hpv Hrun.
    apply (pushBackAll_mem_seq_refines calls parent Hnd (h ++ ext) pv Hpv h2 Hrun). }
  split.
  { intros calls h2 Hrun. apply read_object_ext. intros id Hid.
    exact (pushBackAll_mem_seq_frame _ _ _ _ Hrun id (Hdisj' id Hid)). }
  intros id st Hid. apply read_object_ext. intros j Hj.
  apply list_lookup_insert_ne. intros ->. exact (Hdisj _ Hid Hj).
Qed.

(** ** Child views *)

Lemma ptr_index_index (sz p i j : Z) :
  ptr_index sz (ptr_index sz p i) j = ptr_index sz p (i + j).
Proof.
  unfold ptr_index. rewrite wrap64_add_l. f_equal. lia.
Qed.

Lemma ptr_index_small (sz p i : Z) :
  0 <= p + i * sz < 2 ^ 64 -> ptr_index sz p i = p + i * sz.
Proof. intros H. unfold ptr_index. apply wrap64_small. exact H. Qed.

Lemma child_buffer_is_view (sz : Z) (pb : CudaGlobalPtr) (mask : IndexedDataArrayMask) :
  is_view_of sz (child_buffer sz pb mask) pb mask.
Proof.
  unfold is_view_of, child_buffer, ptr_index, wrap64.
  cbn [h_ptr d_ptr size h_do_free d_do_free set_h_do_free set_d_do_free
       CudaGlobalPtr_pair].
  repeat split; intros H; apply Z.mod_small; exact H.
Qed.

(** element [i] of a view is element [firstPos + i] of the parent buffer *)
Lemma child_buffer_host_at (sz : Z) (pb : CudaGlobalPtr) (mask : IndexedDataArrayMask)
      (i : Z) (w : World) :
  host_at sz (child_buffer sz pb mask) i w = host_at sz pb (firstPos mask + i) w.
Proof. unfold host_at, child_buffer. cbn. rewrite ptr_index_index. reflexivity. Qed.

(** C2: the child constructor gives each of the six buffers the parent
    buffer's host pointer and device pointer advanced by [mask.firstPos]
    elements (of 4 or 8 bytes for [weights], according to
    [CUDA_DOUBLE_PRECISION], and of 8 bytes for the index buffers), the size
    [mask.weightNum], and both ownership flags false. *)
Theorem IndexedDataArray_child_views (DP : bool) (parent : IndexedDataArray)
        (mask : IndexedDataArrayMask) :
  let c := IndexedDataArray_child DP parent mask in
  is_view_of (if DP then 8 else 4) (weights c) (weights parent) mask /\
  is_view_of 8 (rot_id c) (rot_id parent) mask /\
  is_view_of 8 (rot_idx c) (rot_idx parent) mask /\
  is_view_of 8 (trans_idx c) (trans_idx parent) mask /\
  is_view_of 8 (ihidden_overs c) (ihidden_overs parent) mask /\
  is_view_of 8 (class_id c) (class_id parent) mask.
Proof.
  cbv zeta. unfold IndexedDataArray_child.
  cbn [weights rot_id rot_idx trans_idx ihidden_overs class_id].
  split; [exact (child_buffer_is_view (sizeof_FLOAT DP) (weights parent) mask)|].
  split; [exact (child_buffer_is_view sizeof_ulong (rot_id parent) mask)|].
  split; [exact (child_buffer_is_view sizeof_ulong (rot_idx parent) mask)|].
  split; [exact (child_buffer_is_view sizeof_ulong (trans_idx parent) mask)|].
  split; [exact (child_buffer_is_view sizeof_ulong (ihidden_overs parent) mask)|].
  exact (child_buffer_is_view sizeof_ulong (class_id parent) mask).
Qed.

(** ** Sizes of the six buffers *)

Lemma to_ulong_nonneg (n : Z) : 0 <= n < 2 ^ 63 -> to_ulong n = n.
Proof. intros H. unfold to_ulong. apply wrap64_small. lia. Qed.

Lemma setDataSize_uniform (n : Z) (a : IndexedDataArray) :
  uniform_size (setDataSize n a) (to_ulong n).
Proof. unfold uniform_size, buffers, setDataSize. cbn. repeat constructor. Qed.

Lemma child_uniform (DP : bool) (parent : IndexedDataArray) (mask : IndexedDataArrayMask) :
  uniform_size (IndexedDataArray_child DP parent mask) (weightNum mask).
Proof. unfold uniform_size, buffers, IndexedDataArray_child. cbn. repeat constructor. Qed.

(** ** Running computations *)

Lemma bind_Ok_inv {A B} (c : M A) (k : A -> M B) (w w' : World) (r : B) :
  (c ≫= k) w = Ok r w' -> exists a w1, c w = Ok a w1 /\ k a w1 = Ok r w'.
Proof.
  unfold mbind, M_bind, bind. destruct (c w) as [a w1|f]; [|discriminate].
  intros H. exists a, w1. auto.
Qed.

Lemma bind_Ok {A B} (c : M A) (k : A -> M B) (w w1 : World) (a : A) :
  c w = Ok a w1 -> (c ≫= k) w = k a w1.
Proof. intros H. unfold mbind, M_bind, bind. rewrite H. reflexivity. Qed.

Ltac unfold_ops :=
  unfold round_trip, CudaGlobalPtr_dtor, free, free_host, free_device, cp_to_host,
    put_on_device, cp_to_device_from, cp_to_device, device_init, host_alloc,
    device_alloc_size, device_alloc, CudaGlobalPtr_sized,
    cudaCpyDeviceToHost, cudaCpyHostToDevice, HANDLE_ERROR, HandleError,
    cudaMemset, cudaMemcpyDeviceToHost, cudaMemcpyHostToDevice, cudaFree,
    cudaMalloc, delete_array, new_array, when, printf, emit, crash,
    mbind, M_bind, bind, mret, M_ret, ret, log in *.

Ltac case_ifs :=
  repeat match goal with
         | H : context [if ?c then _ else _] |- _ => destruct c eqn:?; cbn in H
         | |- context [if ?c then _ else _] => destruct c eqn:?; cbn
         end.

Ltac step_bind H a w1 Ha :=
  apply bind_Ok_inv in H; destruct H as (a & w1 & Ha & H).

(** ** Allocation *)

(** what [device_alloc] leaves alone *)
Lemma device_alloc_inv (D : bool) (sz : Z) (b b' : CudaGlobalPtr) (w w' : World) :
  device_alloc D sz b w = Ok b' w' ->
  size b' = size b /\ h_ptr b' = h_ptr b /\ h_do_free b' = h_do_free b /\
  d_do_free b' = true /\
  host_mem w' = host_mem w /\ host_blocks w' = host_blocks w /\
  dev_mem w' = dev_mem w /\ host_frees w' = host_frees w /\
  cuda_frees w' = cuda_frees w.
Proof.
  unfold_ops. cbn. intros H.
  case_ifs; try discriminate; inversion H; subst; cbn; auto 10.
Qed.

(** what [host_alloc] leaves alone *)
Lemma host_alloc_inv (D : bool) (sz : Z) (b b' : CudaGlobalPtr) (w w' : World) :
  host_alloc D sz b w = Ok b' w' ->
  size b' = size b /\ d_ptr b' = d_ptr b /\ d_do_free b' = d_do_free b /\
  h_do_free b' = true /\ h_ptr b' = host_brk w /\
  host_mem w' = host_mem w /\ dev_mem w' = dev_mem w /\
  dev_blocks w' = dev_blocks w.
Proof.
  unfold_ops. cbn. intros H.
  case_ifs; try discriminate; inversion H; subst; cbn; auto 10.
Qed.

(** [host_alloc] returns when the heap has room for the array *)
Lemma host_alloc_Ok (D : bool) (sz : Z) (b : CudaGlobalPtr) (w : World) :
  size b * sz < 2 ^ 64 -> host_brk w + size b * sz <= host_end w ->
  exists w',
    host_alloc D sz b w = Ok (set_h_ptr (host_brk w) (set_h_do_free true b)) w' /\
    host_brk w' = host_brk w + Z.max (size b * sz) 1 /\
    host_end w' = host_end w /\ dev_brk w' = dev_brk w /\ dev_end w' = dev_end w.
Proof.
  intros H1 H2. unfold_ops. cbn.
  destruct (Z.ltb_spec (size b * sz) (2 ^ 64)); [|lia].
  destruct D, (h_do_free b); cbn;
    (destruct (Z.leb_spec (host_brk w + size b * sz) (host_end w)); [|lia]);
    cbn; eexists; repeat split.
Qed.

(** [device_alloc] returns when the device has room for the array *)
Lemma device_alloc_Ok (D : bool) (sz : Z) (b : CudaGlobalPtr) (w : World) :
  dev_brk w + wrap64 (size b * sz) <= dev_end w ->
  exists w',
    device_alloc D sz b w = Ok (set_d_ptr (dev_brk w) (set_d_do_free true b)) w' /\
    dev_brk w' = dev_brk w + Z.max (wrap64 (size b * sz)) 1 /\
    dev_end w' = dev_end w /\ host_brk w' = host_brk w /\ host_end w' = host_end w /\
    dev_blocks w' = (dev_brk w, wrap64 (size b * sz)) :: dev_blocks w /\
    dev_mem w' = dev_mem w /\ host_mem w' = host_mem w.
Proof.
  intros H. unfold_ops. cbn.
  destruct D, (d_do_free b); cbn;
    (destruct (Z.leb_spec (dev_brk w + wrap64 (size b * sz)) (dev_end w)); [|lia]);
    cbn; eexists; repeat split.
Qed.

(** in a build without [DEBUG_CUDA], [device_alloc] always returns *)
Lemma device_alloc_release (sz : Z) (b : CudaGlobalPtr) (w : World) :
  exists b' w', device_alloc false sz b w = Ok b' w'.
Proof.
  unfold_ops. cbn.
  destruct (dev_brk w + wrap64 (size b * sz) <=? dev_end w); cbn; eauto.
Qed.

(** ** [dual_alloc_all] *)

Lemma uniform_size_inv (a : IndexedDataArray) (n : Z) :
  uniform_size a n <->
  size (weights a) = n /\ size (rot_id a) = n /\ size (rot_idx a) = n /\
  size (trans_idx a) = n /\ size (ihidden_overs a) = n /\ size (class_id a) = n.
Proof.
  unfold uniform_size, buffers. split.
  - intros H. repeat (apply Forall_cons_1 in H; destruct H as [? H]). auto 10.
  - intros (? & ? & ? & ? & ? & ?). repeat constructor; assumption.
Qed.

(** [dual_alloc_all] changes no size *)
Lemma dual_alloc_all_sizes (D DP : bool) (a a' : IndexedDataArray) (w w' : World) :
  dual_alloc_all D DP a w = Ok a' w' ->
  size (weights a') = size (weights a) /\ size (rot_id a') = size (rot_id a) /\
  size (rot_idx a') = size (rot_idx a) /\ size (trans_idx a') = size (trans_idx a) /\
  size (ihidden_overs a') = size (ihidden_overs a) /\
  size (class_id a') = size (class_id a).
Proof.
  unfold dual_alloc_all. intros H.
  step_bind H w0 u1 E1. step_bind H r0 u2 E2. step_bind H x0 u3 E3.
  step_bind H t0 u4 E4. step_bind H i0 u5 E5. step_bind H c0 u6 E6.
  step_bind H w1 u7 E7. step_bind H r1 u8 E8. step_bind H x1 u9 E9.
  step_bind H t1 u10 E10. step_bind H i1 u11 E11. step_bind H c1 u12 E12.
  injection H as <- <-. cbn.
  repeat match goal with
         | E : host_alloc _ _ _ _ = Ok _ _ |- _ =>
             apply host_alloc_inv in E; destruct E as (E & _)
         | E : device_alloc _ _ _ _ = Ok _ _ |- _ =>
             apply device_alloc_inv in E; destruct E as (E & _)
         end.
  repeat split; congruence.
Qed.

Lemma sizeof_FLOAT_bounds (DP : bool) : 0 < sizeof_FLOAT DP <= 8.
Proof. destruct DP; cbn; lia. Qed.

(** one allocation of the chain: use the room lemma, then go on with the
    world it returns *)
Ltac host_step D sz b w :=
  let w' := fresh "u" in let E := fresh "E" in
  destruct (host_alloc_Ok D sz b w) as (w' & E & ? & ? & ? & ?);
  [ nia | nia | rewrite (bind_Ok _ _ _ _ _ E); clear E ].

Ltac dev_step D sz b w :=
  let w' := fresh "u" in let E := fresh "E" in
  destruct (device_alloc_Ok D sz b w) as (w' & E & ? & ? & ? & ? & _);
  [ cbn; rewrite wrap64_small by nia; nia
  | cbn in *; rewrite wrap64_small in * by nia;
    rewrite (bind_Ok _ _ _ _ _ E); clear E ].

(** [dual_alloc_all] returns when the host heap and the device have room
    for six arrays of [n] eight-byte elements *)
Lemma dual_alloc_all_Ok (D DP : bool) (a : IndexedDataArray) (n : Z) (w : World) :
  uniform_size a n -> 0 <= n -> n * 8 < 2 ^ 64 ->
  host_brk w + 6 * (n * 8 + 1) <= host_end w ->
  dev_brk w + 6 * (n * 8 + 1) <= dev_end w ->
  exists a' w', dual_alloc_all D DP a w = Ok a' w'.
Proof.
  intros Hu Hn Hmax Hh Hd.
  apply uniform_size_inv in Hu. destruct Hu as (S1 & S2 & S3 & S4 & S5 & S6).
  pose proof (sizeof_FLOAT_bounds DP) as HF.
  assert (Hul : sizeof_ulong = 8) by reflexivity.
  unfold dual_alloc_all.
  match goal with |- context [host_alloc ?d ?s ?b] => host_step d s b w end.
  repeat match goal with
         | |- context [(host_alloc ?d ?s ?b ≫= _) ?v] => host_step d s b v
         end.
  repeat match goal with
         | |- context [(device_alloc ?d ?s ?b ≫= _) ?v] => dev_step d s b v
         end.
  eauto.
Qed.

(** C9: the six buffers of an [IndexedDataArray] keep one common size:
    [setDataSize(n)] gives all six the size [n]; [dual_alloc_all] returns
    when there is room and changes no size; the child constructor gives all
    six the size [mask.weightNum]. *)
Theorem uniform_size_preserved (D DP : bool) :
  (forall n a, uniform_size (setDataSize n a) (to_ulong n)) /\
  (forall n a, 0 <= n < 2 ^ 63 -> uniform_size (setDataSize n a) n) /\
  (forall a n w a' w',
      uniform_size a n -> dual_alloc_all D DP a w = Ok a' w' -> uniform_size a' n) /\
  (forall a n w,
      uniform_size a n -> 0 <= n -> n * 8 < 2 ^ 64 ->
      host_brk w + 6 * (n * 8 + 1) <= host_end w ->
      dev_brk w + 6 * (n * 8 + 1) <= dev_end w ->
      exists a' w', dual_alloc_all D DP a w = Ok a' w' /\ uniform_size a' n) /\
  (forall parent mask,
      uniform_size (IndexedDataArray_child DP parent mask) (weightNum mask)).
Proof.
  assert (Hpres : forall a n w a' w',
             uniform_size a n -> dual_alloc_all D DP a w = Ok a' w' ->
             uniform_size a' n).
  { intros a n w a' w' Hu Hrun.
    apply uniform_size_inv in Hu. apply uniform_size_inv.
    pose proof (dual_alloc_all_sizes _ _ _ _ _ _ Hrun) as Hs.
    intuition congruence. }
  split; [exact setDataSize_uniform|].
  split.
  { intros n a Hn. rewrite <- (to_ulong_nonneg n Hn) at 2.
    apply setDataSize_uniform. }
  split; [exact Hpres|].
  split; [|exact (child_uniform DP)].
  intros a n w Hu Hn Hmax Hh Hd.
  destruct (dual_alloc_all_Ok D DP a n w Hu Hn Hmax Hh Hd) as (a' & w' & Hrun).
  exists a', w'. split; [exact Hrun|]. exact (Hpres _ _ _ _ _ Hu Hrun).
Qed.

(** ** [setNumberOfJobs] *)

(** C4, as the code has it: [setNumberOfJobs(n)] stores [n] (converted to
    [unsigned long]) in [jobNum], [jobOrigin.size] and [jobExtent.size], and
    nothing else: the pointers and ownership flags of [jobOrigin] and
    [jobExtent] and the other members of the mask are as before, and no
    storage is allocated. *)
Theorem setNumberOfJobs_spec (n : Z) (m : IndexedDataArrayMask) :
  jobNum (setNumberOfJobs n m) = to_ulong n /\
  size (jobOrigin (setNumberOfJobs n m)) = to_ulong n /\
  size (jobExtent (setNumberOfJobs n m)) = to_ulong n /\
  (0 <= n < 2 ^ 63 -> to_ulong n = n) /\
  h_ptr (jobOrigin (setNumberOfJobs n m)) = h_ptr (jobOrigin m) /\
  d_ptr (jobOrigin (setNumberOfJobs n m)) = d_ptr (jobOrigin m) /\
  h_do_free (jobOrigin (setNumberOfJobs n m)) = h_do_free (jobOrigin m) /\
  d_do_free (jobOrigin (setNumberOfJobs n m)) = d_do_free (jobOrigin m) /\
  h_ptr (jobExtent (setNumberOfJobs n m)) = h_ptr (jobExtent m) /\
  d_ptr (jobExtent (setNumberOfJobs n m)) = d_ptr (jobExtent m) /\
  h_do_free (jobExtent (setNumberOfJobs n m)) = h_do_free (jobExtent m) /\
  d_do_free (jobExtent (setNumberOfJobs n m)) = d_do_free (jobExtent m) /\
  firstPos (setNumberOfJobs n m) = firstPos m /\
  lastPos (setNumberOfJobs n m) = lastPos m /\
  weightNum (setNumberOfJobs n m) = weightNum m.
Proof.
  cbn. repeat split. apply to_ulong_nonneg.
Qed.

(** C4, the statement as written fails: after [setNumberOfJobs(3)] on a new
    mask, [jobNum] is 3 but both pointers of [jobOrigin] and of [jobExtent]
    are null, and no storage stands behind either of them. *)
Lemma setNumberOfJobs_no_storage :
  jobNum (setNumberOfJobs 3 IndexedDataArrayMask_empty) = 3 /\
  h_ptr (jobOrigin (setNumberOfJobs 3 IndexedDataArrayMask_empty)) = NULL /\
  d_ptr (jobOrigin (setNumberOfJobs 3 IndexedDataArrayMask_empty)) = NULL /\
  h_ptr (jobExtent (setNumberOfJobs 3 IndexedDataArrayMask_empty)) = NULL /\
  d_ptr (jobExtent (setNumberOfJobs 3 IndexedDataArrayMask_empty)) = NULL /\
  host_storage sizeof_ulong
    (jobOrigin (setNumberOfJobs 3 IndexedDataArrayMask_empty)) sample_world = false /\
  dev_storage sizeof_ulong
    (jobOrigin (setNumberOfJobs 3 IndexedDataArrayMask_empty)) sample_world = false /\
  host_storage sizeof_ulong
    (jobExtent (setNumberOfJobs 3 IndexedDataArrayMask_empty)) sample_world = false /\
  dev_storage sizeof_ulong
    (jobExtent (setNumberOfJobs 3 IndexedDataArrayMask_empty)) sample_world = false.
Proof. vm_compute. repeat split. Qed.

(** ** Transfers *)

Lemma read_bytes_ext (m1 m2 : mem) (p1 p2 n : Z) :
  (forall i, 0 <= i < n -> m1 (p1 + i) = m2 (p2 + i)) ->
  read_bytes m1 p1 n = read_bytes m2 p2 n.
Proof.
  intros H. unfold read_bytes. apply map_ext_in. intros i Hi.
  apply list_elem_of_In, elem_of_seqZ in Hi. apply H. lia.
Qed.

Lemma read_bytes_length (m : mem) (p n : Z) :
  length (read_bytes m p n) = Z.to_nat n.
Proof. unfold read_bytes. rewrite length_map. apply length_seqZ. Qed.

Lemma copy_bytes_inside (src dst : mem) (s d n i : Z) :
  0 <= i < n -> copy_bytes src s dst d n (d + i) = src (s + i).
Proof.
  intros H. unfold copy_bytes.
  destruct (Z.leb_spec d (d + i)); [|lia].
  destruct (Z.ltb_spec (d + i) (d + n)); [|lia].
  cbn. f_equal. lia.
Qed.

Lemma copy_bytes_outside (src dst : mem) (s d n a : Z) :
  a < d \/ d + n <= a -> copy_bytes src s dst d n a = dst a.
Proof.
  intros H. unfold copy_bytes.
  destruct (Z.leb_spec d a); [|reflexivity].
  destruct (Z.ltb_spec a (d + n)); [lia|reflexivity].
Qed.

Lemma read_bytes_copy (src dst : mem) (s d n : Z) :
  read_bytes (copy_bytes src s dst d n) d n = read_bytes src s n.
Proof. apply read_bytes_ext. intros i Hi. apply copy_bytes_inside. exact Hi. Qed.

(** what [cp_to_device] does *)
Lemma cp_to_device_Ok (D : bool) (sz : Z) (b : CudaGlobalPtr) (w : World) :
  D = false \/ dev_range_ok w (d_ptr b) (wrap64 (size b * sz)) = true ->
  exists w',
    cp_to_device D sz b w = Ok b w' /\
    hd_error (trace w')
    = Some (EvMemcpyH2D (d_ptr b) (h_ptr b) (wrap64 (size b * sz))) /\
    host_mem w' = host_mem w /\
    host_blocks w' = host_blocks w /\ dev_blocks w' = dev_blocks w /\
    dev_mem w'
    = (if dev_range_ok w (d_ptr b) (wrap64 (size b * sz))
       then copy_bytes (host_mem w) (h_ptr b) (dev_mem w) (d_ptr b)
                       (wrap64 (size b * sz))
       else dev_mem w).
Proof.
  intros H. unfold_ops. cbn. unfold dev_range_ok in *. cbn.
  destruct H as [-> | H].
  - cbn. destruct (existsb _ _); cbn; eexists; repeat split.
  - destruct D, (d_ptr b =? NULL), (h_ptr b =? NULL); cbn;
      rewrite H; cbn; eexists; repeat split.
Qed.

(** C8, as the code has it: [cp_to_device(hostPtr)] returns when the device
    range is valid (in a build without [DEBUG_CUDA], always); afterwards
    [h_ptr] is [hostPtr], the ownership flag [h_do_free] is what it was
    before the call, and the last runtime call is the copy of [size]
    elements from [hostPtr] to [d_ptr]: when the device range is valid the
    device holds the bytes found at [hostPtr]. *)
Theorem cp_to_device_from_spec (D : bool) (sz hostPtr : Z) (b : CudaGlobalPtr)
        (w : World) :
  D = false \/ dev_range_ok w (d_ptr b) (wrap64 (size b * sz)) = true ->
  exists b' w',
    cp_to_device_from D sz hostPtr b w = Ok b' w' /\
    h_ptr b' = hostPtr /\
    h_do_free b' = h_do_free b /\
    d_ptr b' = d_ptr b /\ size b' = size b /\ d_do_free b' = d_do_free b /\
    hd_error (trace w')
    = Some (EvMemcpyH2D (d_ptr b) hostPtr (wrap64 (size b * sz))) /\
    host_mem w' = host_mem w /\
    (dev_range_ok w (d_ptr b) (wrap64 (size b * sz)) = true ->
     read_bytes (dev_mem w') (d_ptr b) (wrap64 (size b * sz))
     = read_bytes (host_mem w) hostPtr (wrap64 (size b * sz))).
Proof.
  intros H. unfold cp_to_device_from.
  set (w1 := if D && negb (h_ptr b =? NULL)
             then log (EvPrintf "DEBUG_WARNING: Host pointer already set in call to cp_to_device(hostPtr).\n") w
             else w).
  assert (Hw : when (D && negb (h_ptr b =? NULL))
                    (printf "DEBUG_WARNING: Host pointer already set in call to cp_to_device(hostPtr).\n") w
               = Ok tt w1).
  { unfold w1, when, printf, emit. destruct (D && negb (h_ptr b =? NULL)); reflexivity. }
  rewrite (bind_Ok _ _ _ _ _ Hw).
  assert (Hsame : dev_range_ok w1 = dev_range_ok w /\ host_mem w1 = host_mem w)
    by (unfold w1; destruct (D && negb (h_ptr b =? NULL)); auto).
  destruct Hsame as [Hr Hm].
  destruct (cp_to_device_Ok D sz (set_h_ptr hostPtr b) w1)
    as (w' & Hrun & Htr & Hhost & _ & _ & Hdev).
  { cbn. rewrite Hr. exact H. }
  exists (set_h_ptr hostPtr b), w'. cbn in *.
  split; [exact Hrun|]. repeat split; try assumption.
  - congruence.
  - intros Hok. rewrite Hdev, Hr, Hok, Hm. apply read_bytes_copy.
Qed.

(** C8, the statement as written fails: a buffer that allocated its host
    array itself ([CudaGlobalPtr<T>(4)], so [h_do_free] is true) still has
    [h_do_free = true] after [cp_to_device(hostPtr)] with the foreign
    pointer 100: its flag says it owns [hostPtr]. *)
Lemma cp_to_device_from_keeps_h_do_free :
  match (b ← CudaGlobalPtr_sized 1 4;
         b ← device_alloc false 1 b;
         cp_to_device_from false 1 100 b) sample_world_data with
  | Ok b' w' => h_ptr b' = 100 /\ h_do_free b' = true /\
                dev_data 1 b' w' = [Byte.x01; Byte.x02; Byte.x03; Byte.x04]
  | Crash _ => False
  end.
Proof. vm_compute. repeat split. Qed.

(** ** Release *)

Lemma drop_block_absent (p : Z) (l : list (Z * Z)) :
  existsb (is_base p) l = false -> drop_block p l = l.
Proof.
  unfold drop_block. induction l as [|blk l IH]; cbn; [reflexivity|].
  destruct (is_base p blk); cbn; [discriminate|].
  intros H. rewrite IH by exact H. reflexivity.
Qed.

(** [free_device] calls [cudaFree(d_ptr)] whatever [d_do_free] says *)
Lemma free_device_effect (D : bool) (b : CudaGlobalPtr) (w : World) :
  D = false \/ d_ptr b = NULL \/ existsb (is_base (d_ptr b)) (dev_blocks w) = true ->
  exists w',
    free_device D b w
    = Ok (mkCudaGlobalPtr (size b) (h_ptr b) NULL (h_do_free b) false) w' /\
    cuda_frees w' = d_ptr b :: cuda_frees w /\
    host_frees w' = host_frees w /\
    (d_ptr b <> NULL -> dev_blocks w' = drop_block (d_ptr b) (dev_blocks w)) /\
    (d_ptr b = NULL -> dev_blocks w' = dev_blocks w) /\
    host_blocks w' = host_blocks w.
Proof.
  intros H. unfold_ops. unfold cuda_frees, host_frees. cbn.
  destruct (Z.eqb_spec (d_ptr b) NULL) as [E|E].
  - destruct D; cbn; eexists; repeat split;
      intros; first [contradiction | reflexivity].
  - destruct (existsb (is_base (d_ptr b)) (dev_blocks w)) eqn:Hb.
    + destruct D; cbn; rewrite Hb; cbn; eexists; repeat split;
        intros; first [contradiction | reflexivity].
    + destruct H as [-> | [H | H]]; [|contradiction|discriminate].
      cbn. rewrite Hb. cbn. eexists.
      repeat split; intros; try first [contradiction | reflexivity].
      symmetry. apply drop_block_absent. exact Hb.
Qed.

(** [free_host] calls [delete [] h_ptr] whatever [h_do_free] says *)
Lemma free_host_effect (D : bool) (b : CudaGlobalPtr) (w : World) :
  (D = false /\ h_ptr b = NULL)
  \/ (h_ptr b <> NULL /\ existsb (is_base (h_ptr b)) (host_blocks w) = true) ->
  exists w',
    free_host D b w
    = Ok (mkCudaGlobalPtr (size b) NULL (d_ptr b) false (d_do_free b)) w' /\
    host_frees w' = h_ptr b :: host_frees w /\
    cuda_frees w' = cuda_frees w /\
    (h_ptr b <> NULL -> host_blocks w' = drop_block (h_ptr b) (host_blocks w)) /\
    (h_ptr b = NULL -> host_blocks w' = host_blocks w) /\
    dev_blocks w' = dev_blocks w.
Proof.
  intros H. unfold_ops. unfold cuda_frees, host_frees. cbn.
  destruct H as [[-> E] | [E Hb]].
  - rewrite E. cbn. eexists. repeat split. intros; first [contradiction | reflexivity | congruence].
  - destruct (Z.eqb_spec (h_ptr b) NULL) as [E'|_]; [congruence|].
    rewrite andb_false_r. cbn. rewrite Hb. eexists.
    repeat split; intros; first [contradiction | reflexivity | congruence].
Qed.

(** the destructor of a buffer that owns neither side does nothing *)
Lemma CudaGlobalPtr_dtor_unowned (D : bool) (b : CudaGlobalPtr) (w : World) :
  d_do_free b = false -> h_do_free b = false -> CudaGlobalPtr_dtor D b w = Ok b w.
Proof.
  intros Hd Hh. unfold CudaGlobalPtr_dtor, mbind, M_bind, bind, ret.
  rewrite Hd, Hh. reflexivity.
Qed.

(** the destructor leaves alone each side whose flag is false *)
Lemma CudaGlobalPtr_dtor_sides (D : bool) (b b' : CudaGlobalPtr) (w w' : World) :
  CudaGlobalPtr_dtor D b w = Ok b' w' ->
  (d_do_free b = false ->
   cuda_frees w' = cuda_frees w /\ dev_blocks w' = dev_blocks w /\
   d_ptr b' = d_ptr b) /\
  (h_do_free b = false ->
   host_frees w' = host_frees w /\ host_blocks w' = host_blocks w /\
   h_ptr b' = h_ptr b).
Proof.
  intros H. split; intros Hf.
  - unfold_ops. unfold cuda_frees. rewrite Hf in H. cbn in H.
    case_ifs; try discriminate; inversion H; subst; cbn; auto.
  - unfold_ops. unfold host_frees. cbn in H.
    destruct (d_do_free b); cbn in H; rewrite ?Hf in H; cbn in H;
      case_ifs; try discriminate; inversion H; subst; cbn; auto.
Qed.

(** destroying a child view does nothing *)
Lemma IndexedDataArray_child_dtor (D DP : bool) (parent : IndexedDataArray)
      (mask : IndexedDataArrayMask) (w : World) :
  IndexedDataArray_dtor D (IndexedDataArray_child DP parent mask) w = Ok tt w.
Proof.
  unfold IndexedDataArray_dtor.
  repeat (erewrite bind_Ok by (apply CudaGlobalPtr_dtor_unowned; reflexivity)).
  reflexivity.
Qed.

(** [free] calls both, whatever the flags say *)
Lemma free_effect (D : bool) (b : CudaGlobalPtr) (w : World) :
  D = false \/ d_ptr b = NULL \/ existsb (is_base (d_ptr b)) (dev_blocks w) = true ->
  (D = false /\ h_ptr b = NULL)
  \/ (h_ptr b <> NULL /\ existsb (is_base (h_ptr b)) (host_blocks w) = true) ->
  exists w',
    free D b w = Ok (mkCudaGlobalPtr (size b) NULL NULL false false) w' /\
    cuda_frees w' = d_ptr b :: cuda_frees w /\
    host_frees w' = h_ptr b :: host_frees w.
Proof.
  intros Hd Hh.
  destruct (free_device_effect D b w Hd) as (w1 & E1 & Hc1 & Hf1 & _ & _ & Hb1).
  destruct (free_host_effect D (mkCudaGlobalPtr (size b) (h_ptr b) NULL (h_do_free b) false) w1)
    as (w2 & E2 & Hf2 & Hc2 & _).
  { cbn. rewrite Hb1. exact Hh. }
  exists w2. unfold free. rewrite (bind_Ok _ _ _ _ _ E1).
  split; [exact E2|]. cbn in *. split; congruence.
Qed.

(** C1, as the code has it: the destructor releases a side only when its
    ownership flag is true, and does nothing at all for a buffer that owns
    neither side, so destroying a child view changes nothing and frees no
    parent memory.  [free_device], [free_host] and [free] do not look at the
    flags: they pass [d_ptr] to [cudaFree] and [h_ptr] to [delete []]
    whatever [d_do_free] and [h_do_free] say, then clear the flag and null
    the pointer. *)
Theorem destructor_frees_only_owned (D DP : bool) :
  (forall b w b' w',
      CudaGlobalPtr_dtor D b w = Ok b' w' ->
      (d_do_free b = false ->
       cuda_frees w' = cuda_frees w /\ dev_blocks w' = dev_blocks w /\
       d_ptr b' = d_ptr b) /\
      (h_do_free b = false ->
       host_frees w' = host_frees w /\ host_blocks w' = host_blocks w /\
       h_ptr b' = h_ptr b)) /\
  (forall b w,
      d_do_free b = false -> h_do_free b = false ->
      CudaGlobalPtr_dtor D b w = Ok b w) /\
  (forall parent mask w,
      IndexedDataArray_dtor D (IndexedDataArray_child DP parent mask) w = Ok tt w) /\
  (forall b w,
      D = false \/ d_ptr b = NULL
      \/ existsb (is_base (d_ptr b)) (dev_blocks w) = true ->
      exists w',
        free_device D b w
        = Ok (mkCudaGlobalPtr (size b) (h_ptr b) NULL (h_do_free b) false) w' /\
        cuda_frees w' = d_ptr b :: cuda_frees w /\
        (d_ptr b <> NULL -> dev_blocks w' = drop_block (d_ptr b) (dev_blocks w))) /\
  (forall b w,
      (D = false /\ h_ptr b = NULL)
      \/ (h_ptr b <> NULL /\ existsb (is_base (h_ptr b)) (host_blocks w) = true) ->
      exists w',
        free_host D b w
        = Ok (mkCudaGlobalPtr (size b) NULL (d_ptr b) false (d_do_free b)) w' /\
        host_frees w' = h_ptr b :: host_frees w /\
        (h_ptr b <> NULL -> host_blocks w' = drop_block (h_ptr b) (host_blocks w))) /\
  (forall b w,
      D = false \/ d_ptr b = NULL
      \/ existsb (is_base (d_ptr b)) (dev_blocks w) = true ->
      (D = false /\ h_ptr b = NULL)
      \/ (h_ptr b <> NULL /\ existsb (is_base (h_ptr b)) (host_blocks w) = true) ->
      exists w',
        free D b w = Ok (mkCudaGlobalPtr (size b) NULL NULL false false) w' /\
        cuda_frees w' = d_ptr b :: cuda_frees w /\
        host_frees w' = h_ptr b :: host_frees w).
Proof.
  split; [intros b w b' w'; exact (CudaGlobalPtr_dtor_sides D b b' w w')|].
  split; [exact (CudaGlobalPtr_dtor_unowned D)|].
  split; [exact (IndexedDataArray_child_dtor D DP)|].
  split; [|split; [|exact (free_effect D)]].
  - intros b w H.
    destruct (free_device_effect D b w H) as (w' & E & Hc & _ & Hb & _).
    exists w'. auto.
  - intros b w H.
    destruct (free_host_effect D b w H) as (w' & E & Hf & _ & Hb & _).
    exists w'. auto.
Qed.

(** C1, the statement as written fails: allocate a ten-element array on
    both sides and take the child view of all of it.  The view's [weights]
    buffer owns neither side, yet [free_device] on it releases the parent's
    device block and [free_host] on it releases the parent's host block. *)
Lemma free_releases_unowned_side :
  match dual_alloc_all false false (setDataSize 10 IndexedDataArray_empty)
                       sample_world with
  | Ok parent w1 =>
      let child := IndexedDataArray_child false parent sample_mask_all in
      d_do_free (weights child) = false /\
      h_do_free (weights child) = false /\
      dev_storage 4 (weights parent) w1 = true /\
      host_storage 4 (weights parent) w1 = true /\
      match free_device false (weights child) w1 with
      | Ok _ w2 => dev_storage 4 (weights parent) w2 = false /\
                   cuda_frees w2 = [d_ptr (weights parent)]
      | Crash _ => False
      end /\
      match free_host false (weights child) w1 with
      | Ok _ w2 => host_storage 4 (weights parent) w2 = false /\
                   host_frees w2 = [h_ptr (weights parent)]
      | Crash _ => False
      end
  | Crash _ => False
  end.
Proof. vm_compute. repeat split. Qed.

(** ** The host-device-host round trip *)

Lemma cp_to_device_inv (D : bool) (sz : Z) (b b' : CudaGlobalPtr) (w w' : World) :
  cp_to_device D sz b w = Ok b' w' ->
  b' = b /\ host_mem w' = host_mem w /\ dev_blocks w' = dev_blocks w /\
  dev_mem w'
  = (if dev_range_ok w (d_ptr b) (wrap64 (size b * sz))
     then copy_bytes (host_mem w) (h_ptr b) (dev_mem w) (d_ptr b)
                     (wrap64 (size b * sz))
     else dev_mem w).
Proof.
  unfold_ops. unfold dev_range_ok. cbn. intros H.
  destruct D, (d_ptr b =? NULL), (h_ptr b =? NULL); cbn in H;
    destruct (existsb _ _); cbn in H;
    try discriminate; inversion H; subst; cbn; auto.
Qed.

Lemma cp_to_host_inv (D : bool) (sz : Z) (b b' : CudaGlobalPtr) (w w' : World) :
  cp_to_host D sz b w = Ok b' w' ->
  b' = b /\ dev_mem w' = dev_mem w /\ dev_blocks w' = dev_blocks w /\
  host_mem w'
  = (if dev_range_ok w (d_ptr b) (wrap64 (size b * sz))
     then copy_bytes (dev_mem w) (d_ptr b) (host_mem w) (h_ptr b)
                     (wrap64 (size b * sz))
     else host_mem w).
Proof.
  unfold_ops. unfold dev_range_ok. cbn. intros H.
  destruct D, (d_ptr b =? NULL), (h_ptr b =? NULL); cbn in H;
    destruct (existsb _ _); cbn in H;
    try discriminate; inversion H; subst; cbn; auto.
Qed.

Lemma cp_to_host_Ok (D : bool) (sz : Z) (b : CudaGlobalPtr) (w : World) :
  D = false \/ dev_range_ok w (d_ptr b) (wrap64 (size b * sz)) = true ->
  exists w', cp_to_host D sz b w = Ok b w'.
Proof.
  intros H. unfold_ops. cbn. unfold dev_range_ok in *. cbn.
  destruct H as [-> | H].
  - cbn. destruct (existsb _ _); cbn; eexists; reflexivity.
  - destruct D, (d_ptr b =? NULL), (h_ptr b =? NULL); cbn;
      rewrite H; cbn; eexists; reflexivity.
Qed.

(** bytes copied out and copied back are the bytes that were there *)
Lemma copy_bytes_back (hm dm : mem) (h d n a : Z) :
  copy_bytes (copy_bytes hm h dm d n) d hm h n a = hm a.
Proof.
  unfold copy_bytes.
  destruct (Z.leb_spec h a); [|reflexivity].
  destruct (Z.ltb_spec a (h + n)); [|reflexivity]. cbn.
  destruct (Z.leb_spec d (d + (a - h))); [|lia].
  destruct (Z.ltb_spec (d + (a - h)) (d + n)); [|lia]. cbn.
  f_equal. lia.
Qed.

Lemma dev_range_ok_blocks (w1 w2 : World) (p n : Z) :
  dev_blocks w1 = dev_blocks w2 -> dev_range_ok w1 p n = dev_range_ok w2 p n.
Proof. intros H. unfold dev_range_ok. rewrite H. reflexivity. Qed.

(** every round trip that returns leaves the host memory as it was *)
Lemma round_trip_host (D : bool) (sz : Z) (b b' : CudaGlobalPtr) (w w' : World) :
  round_trip D sz b w = Ok b' w' ->
  h_ptr b' = h_ptr b /\ size b' = size b /\
  (forall a, host_mem w' a = host_mem w a).
Proof.
  unfold round_trip. intros H.
  step_bind H b1 w1 E1. step_bind H b2 w2 E2.
  apply device_alloc_inv in E1.
  destruct E1 as (Hs & Hh & _ & _ & Hm1 & _).
  apply cp_to_device_inv in E2. destruct E2 as (-> & Hm2 & Hb2 & Hd2).
  apply cp_to_host_inv in H. destruct H as (-> & _ & _ & Hm3).
  split; [exact Hh|]. split; [exact Hs|].
  intros a. rewrite Hm3, (dev_range_ok_blocks w2 w1) by exact Hb2.
  rewrite Hd2, Hm2.
  destruct (dev_range_ok w1 (d_ptr b1) (wrap64 (size b1 * sz))).
  - rewrite copy_bytes_back. congruence.
  - congruence.
Qed.

Lemma in_block_self (p n : Z) : in_block p n (p, n) = true.
Proof.
  unfold in_block. cbn.
  destruct (Z.leb_spec p p); [|lia].
  destruct (Z.leb_spec (p + n) (p + n)); [|lia]. reflexivity.
Qed.

(** with room on the device, the round trip returns and the device holds a
    copy of the host data *)
Lemma round_trip_room (D : bool) (sz : Z) (b : CudaGlobalPtr) (w : World) :
  0 <= size b * sz < 2 ^ 64 -> dev_brk w + size b * sz <= dev_end w ->
  exists b' w',
    round_trip D sz b w = Ok b' w' /\
    d_do_free b' = true /\
    dev_data sz b' w' = host_data sz b w.
Proof.
  intros Hfit Hroom. unfold round_trip.
  destruct (device_alloc_Ok D sz b w)
    as (w1 & E1 & _ & _ & _ & _ & Hb1 & Hd1 & Hm1).
  { rewrite wrap64_small by exact Hfit. exact Hroom. }
  rewrite (bind_Ok _ _ _ _ _ E1).
  set (b1 := set_d_ptr (dev_brk w) (set_d_do_free true b)) in *.
  assert (Hok1 : dev_range_ok w1 (d_ptr b1) (wrap64 (size b1 * sz)) = true).
  { unfold dev_range_ok. rewrite Hb1. cbn. rewrite in_block_self. reflexivity. }
  destruct (cp_to_device_Ok D sz b1 w1 (or_intror Hok1))
    as (w2 & E2 & _ & Hm2 & _ & Hb2 & Hd2).
  rewrite (bind_Ok _ _ _ _ _ E2).
  assert (Hok2 : dev_range_ok w2 (d_ptr b1) (wrap64 (size b1 * sz)) = true).
  { rewrite (dev_range_ok_blocks w2 w1) by exact Hb2. exact Hok1. }
  destruct (cp_to_host_Ok D sz b1 w2 (or_intror Hok2)) as (w3 & E3).
  exists b1, w3. split; [exact E3|]. split; [reflexivity|].
  apply cp_to_host_inv in E3. destruct E3 as (_ & Hd3 & _).
  unfold dev_data, host_data. rewrite Hd3, Hd2, Hok1, Hm1. cbn.
  rewrite wrap64_small by exact Hfit. apply read_bytes_copy.
Qed.

(** without [DEBUG_CUDA] the round trip always returns *)
Lemma round_trip_release (sz : Z) (b : CudaGlobalPtr) (w : World) :
  exists b' w', round_trip false sz b w = Ok b' w'.
Proof.
  unfold round_trip.
  destruct (device_alloc_release sz b w) as (b1 & w1 & E1).
  rewrite (bind_Ok _ _ _ _ _ E1).
  destruct (cp_to_device_Ok false sz b1 w1 (or_introl eq_refl)) as (w2 & E2 & _).
  rewrite (bind_Ok _ _ _ _ _ E2).
  destruct (cp_to_host_Ok false sz b1 w2 (or_introl eq_refl)) as (w3 & E3).
  eauto.
Qed.

(** C3: [device_alloc(); cp_to_device(); cp_to_host();] on a buffer whose
    host data is [D] returns when the device has room for the array (and
    always in a build without [DEBUG_CUDA]); whenever it returns, the host
    memory is what it was, so the host data is again [D]; when the device
    had room, the device data is [D] as well. *)
Theorem round_trip_identity (D : bool) (sz : Z) (b : CudaGlobalPtr) (w : World) :
  (forall b' w',
      round_trip D sz b w = Ok b' w' ->
      h_ptr b' = h_ptr b /\ size b' = size b /\
      host_data sz b' w' = host_data sz b w) /\
  (D = false -> exists b' w', round_trip D sz b w = Ok b' w') /\
  (0 <= size b * sz < 2 ^ 64 -> dev_brk w + size b * sz <= dev_end w ->
   exists b' w',
     round_trip D sz b w = Ok b' w' /\
     host_data sz b' w' = host_data sz b w /\
     dev_data sz b' w' = host_data sz b w).
Proof.
  assert (Hhost : forall b' w',
             round_trip D sz b w = Ok b' w' ->
             h_ptr b' = h_ptr b /\ size b' = size b /\
             host_data sz b' w' = host_data sz b w).
  { intros b' w' H. destruct (round_trip_host _ _ _ _ _ _ H) as (Hh & Hs & Hm).
    split; [exact Hh|]. split; [exact Hs|].
    unfold host_data. rewrite Hh, Hs. apply read_bytes_ext. intros i _. apply Hm. }
  split; [exact Hhost|]. split.
  - intros ->. apply round_trip_release.
  - intros Hfit Hroom.
    destruct (round_trip_room D sz b w Hfit Hroom) as (b' & w' & Hrun & _ & Hdev).
    exists b', w'. split; [exact Hrun|]. split; [|exact Hdev].
    apply (Hhost _ _ Hrun).
Qed.

(** * The properties at sample inputs *)

(** the scenario of the sampling table: classes 0, 1, 0, 0, 1 *)
Example sample_table_built :
  ProjectionParams_classes 2 = Some sample_empty_table /\
  pushBackAll_seq sample_calls sample_empty_table = Some sample_table.
Proof. split; vm_compute; reflexivity. Qed.

(** element 0 of the view selected by [firstPos = 3] is element 3 of the
    parent *)
Example sample_child_element (DP : bool) (parent : IndexedDataArray) (w : World) :
  host_at (sizeof_FLOAT DP)
          (weights (IndexedDataArray_child DP parent sample_mask)) 0 w
  = host_at (sizeof_FLOAT DP) (weights parent) 3 w.
Proof. apply (child_buffer_host_at _ _ sample_mask 0). Qed.

Lemma destructor_frees_only_owned_witness :
  CudaGlobalPtr_dtor false sample_view sample_world_live = Ok sample_view sample_world_live /\
  (exists w', free_device false sample_view sample_world_live
              = Ok (mkCudaGlobalPtr 4 100 NULL false false) w' /\
              cuda_frees w' = [8192] /\ dev_blocks w' = []) /\
  (exists w', free_host false (CudaGlobalPtr_pair NULL 8192 4) sample_world_live
              = Ok (mkCudaGlobalPtr 4 NULL 8192 false false) w' /\
              host_frees w' = [NULL]) /\
  (exists w', free false (CudaGlobalPtr_pair NULL 8192 4) sample_world_live
              = Ok (mkCudaGlobalPtr 4 NULL NULL false false) w' /\
              cuda_frees w' = [8192] /\ host_frees w' = [NULL]).
Proof.
  destruct (destructor_frees_only_owned false false) as (H1 & H2 & _ & H4 & H5 & H6).
  assert (E : CudaGlobalPtr_dtor false sample_view sample_world_live
              = Ok sample_view sample_world_live)
    by (apply H2; reflexivity).
  destruct (H1 _ _ _ _ E) as [Hd Hh].
  destruct (Hd eq_refl) as (_ & _ & _). destruct (Hh eq_refl) as (_ & _ & _).
  split; [exact E|]. split; [|split].
  - destruct (H4 sample_view sample_world_live) as (w' & E' & Hc & Hb);
      [left; reflexivity|].
    exists w'. split; [exact E'|]. split; [exact Hc|].
    apply Hb. vm_compute. discriminate.
  - destruct (H5 (CudaGlobalPtr_pair NULL 8192 4) sample_world_live)
      as (w' & E' & Hf & _); [left; split; reflexivity|].
    exists w'. split; [exact E'|exact Hf].
  - destruct (H6 (CudaGlobalPtr_pair NULL 8192 4) sample_world_live)
      as (w' & E' & Hc & Hf);
      [left; reflexivity | left; split; reflexivity|].
    exists w'. split; [exact E'|]. split; [exact Hc|exact Hf].
Defined.

Lemma IndexedDataArray_child_views_witness :
  h_ptr (weights (IndexedDataArray_child false sample_parent_array sample_mask))
  = 4096 + 3 * 4 /\
  d_ptr (weights (IndexedDataArray_child false sample_parent_array sample_mask))
  = 8192 + 3 * 4 /\
  h_ptr (rot_id (IndexedDataArray_child false sample_parent_array sample_mask))
  = 5000 + 3 * 8 /\
  d_ptr (class_id (IndexedDataArray_child true sample_parent_array sample_mask))
  = 9400 + 3 * 8 /\
  h_ptr (weights (IndexedDataArray_child true sample_parent_array sample_mask))
  = 4096 + 3 * 8 /\
  size (weights (IndexedDataArray_child false sample_parent_array sample_mask)) = 4.
Proof.
  pose proof (IndexedDataArray_child_views false sample_parent_array sample_mask) as H.
  pose proof (IndexedDataArray_child_views true sample_parent_array sample_mask) as H'.
  cbv zeta in H, H'.
  destruct H as ((_ & _ & Hh & Hd & Hs & _) & (_ & _ & Hh2 & _) & _).
  destruct H' as ((_ & _ & Hh' & _) & _ & _ & _ & _ & (_ & _ & _ & Hd' & _)).
  split; [apply Hh; cbn; lia|]. split; [apply Hd; cbn; lia|].
  split; [apply Hh2; cbn; lia|]. split; [apply Hd'; cbn; lia|].
  split; [apply Hh'; cbn; lia|exact Hs].
Defined.

Lemma round_trip_identity_witness :
  exists b' w',
    round_trip false 1 sample_buffer sample_world_data = Ok b' w' /\
    host_data 1 sample_buffer sample_world_data
    = [Byte.x01; Byte.x02; Byte.x03; Byte.x04] /\
    host_data 1 b' w' = host_data 1 sample_buffer sample_world_data /\
    dev_data 1 b' w' = host_data 1 sample_buffer sample_world_data.
Proof.
  destruct (round_trip_identity false 1 sample_buffer sample_world_data)
    as (H1 & H2 & H3).
  destruct (H2 eq_refl) as (_ & _ & _).
  destruct H3 as (b' & w' & E & Hh & Hd); [cbn; lia | cbn; lia |].
  destruct (H1 _ _ E) as (_ & _ & _).
  exists b', w'. split; [exact E|]. split; [reflexivity|]. split; assumption.
Defined.

Lemma setNumberOfJobs_spec_witness :
  jobNum (setNumberOfJobs 3 IndexedDataArrayMask_empty) = 3.
Proof.
  destruct (setNumberOfJobs_spec 3 IndexedDataArrayMask_empty) as (H1 & _ & _ & H4 & _).
  rewrite H1. apply H4. lia.
Defined.

Lemma pushBackAll_counts_witness :
  exists t,
    pushBackAll_seq sample_calls sample_empty_table = Some t /\
    vec_get (class_entries t) 0 = Some 3 /\
    vec_get (class_entries t) 1 = Some 2 /\
    length (rots t) = 5%nat.
Proof.
  destruct (pushBackAll_counts 2 sample_calls sample_empty_table)
    as (t & Hrun & Hcnt & Hr & _).
  - reflexivity.
  - unfold sample_calls. repeat constructor; cbn; lia.
  - cbn. lia.
  - exists t. split; [exact Hrun|].
    split; [apply (Hcnt 0); lia|]. split; [apply (Hcnt 1); lia|exact Hr].
Defined.

Lemma ProjectionParams_slice_spec_witness :
  exists s,
    ProjectionParams_slice sample_table 2 5 = Some s /\
    flat_length s 3 /\ flat_subrange s sample_table 2 5 /\
    orientation_num s = [0] /\ class_entries s = [3] /\ class_idx s = [0].
Proof.
  apply (ProjectionParams_slice_spec sample_table 5 2 5).
  - repeat split.
  - lia.
  - lia.
  - lia.
Defined.

Lemma slice_is_a_copy_witness :
  read_object sample_heap sample_parent_obj = Some sample_table /\
  ProjectionParams_slice_mem sample_parent_obj 2 5 sample_heap
  = Some (sample_slice_obj, sample_heap_sliced) /\
  read_object sample_heap_sliced sample_slice_obj = Some sample_slice /\
  match pushBackAll_mem_seq [sample_call] sample_parent_obj sample_heap_sliced with
  | Some h2 => read_object h2 sample_slice_obj = Some sample_slice /\
               read_object h2 sample_parent_obj
               = pushBackAll_seq [sample_call] sample_table
  | None => False
  end /\
  read_object (<[9%nat := Doubles []]> sample_heap_sliced) sample_parent_obj
  = Some sample_table.
Proof.
  assert (Ep : read_object sample_heap sample_parent_obj = Some sample_table)
    by reflexivity.
  assert (Es : ProjectionParams_slice_mem sample_parent_obj 2 5 sample_heap
               = Some (sample_slice_obj, sample_heap_sliced)) by reflexivity.
  destruct (slice_is_a_copy sample_parent_obj sample_slice_obj 2 5 sample_heap
                            sample_heap_sliced)
    as (_ & _ & Hsame & Hval & Hps & Hpp & _ & Hw).
  - unfold object_allocated, handles. cbn. repeat constructor.
  - exact Es.
  - destruct (Hval sample_table Ep) as [Hv _].
    split; [exact Ep|]. split; [exact Es|].
    split; [rewrite Hv; reflexivity|]. split.
    + destruct (pushBackAll_mem_seq [sample_call] sample_parent_obj sample_heap_sliced)
        as [h2|] eqn:E2; [|vm_compute in E2; discriminate].
      split.
      * rewrite (Hps _ _ E2), Hv. reflexivity.
      * apply (Hpp [sample_call] h2 sample_table); [|rewrite Hsame; exact Ep|exact E2].
        unfold handles. cbn.
        repeat (apply NoDup_cons_2;
                [rewrite ?not_elem_of_cons; repeat split; try lia;
                 apply not_elem_of_nil|]).
        apply NoDup_nil_2.
    + rewrite (Hw 9%nat (Doubles [])); [rewrite Hsame; exact Ep|].
      unfold handles. cbn. auto 10.
Defined.

Lemma cp_to_device_from_spec_witness :
  exists b' w',
    cp_to_device_from false 1 100 (CudaGlobalPtr_pair NULL 8192 4) sample_world_live
    = Ok b' w' /\
    h_ptr b' = 100 /\ h_do_free b' = false /\
    read_bytes (dev_mem w') 8192 4 = [Byte.x01; Byte.x02; Byte.x03; Byte.x04].
Proof.
  destruct (cp_to_device_from_spec false 1 100 (CudaGlobalPtr_pair NULL 8192 4)
                                   sample_world_live)
    as (b' & w' & E & Hh & Hf & _ & _ & _ & _ & _ & Hd);
    [left; reflexivity|].
  exists b', w'. split; [exact E|]. split; [exact Hh|]. split; [exact Hf|].
  apply Hd. reflexivity.
Defined.

Lemma uniform_size_preserved_witness :
  uniform_size (setDataSize 10 IndexedDataArray_empty) 10 /\
  exists a' w',
    dual_alloc_all false false (setDataSize 10 IndexedDataArray_empty) sample_world
    = Ok a' w' /\ uniform_size a' 10.
Proof.
  destruct (uniform_size_preserved false false) as (_ & H2 & H3 & H4 & _).
  assert (Hu : uniform_size (setDataSize 10 IndexedDataArray_empty) 10)
    by (apply H2; lia).
  split; [exact Hu|].
  destruct (H4 _ 10 sample_world Hu) as (a' & w' & E & Hu');
    [lia | lia | cbn; lia | cbn; lia |].
  exists a', w'. split; [exact E|]. exact (H3 _ _ _ _ _ Hu E).
Defined.

Lemma pushBackAll_frame_witness :
  exists t',
    pushBackAll sample_call sample_empty_table = Some t' /\
    class_entries t' = [0; 1] /\ class_idx t' = [0; 0] /\
    rots t' = [3.5%float].
Proof.
  destruct (pushBackAll_frame sample_call sample_empty_table)
    as (n & t' & Hn & Hrun & _ & _ & _ & _ & Hr & _ & _ & _ & _ & Hci & _);
    [cbn; lia|].
  exists t'. split; [exact Hrun|].
  assert (E : pushBackAll sample_call sample_empty_table
              = Some (mkProjectionParams [0; 0] (Some 0) [3.5%float] [4.5%float]
                                         [5.5%float] [11] [21] [0; 1] [0; 0]))
    by (vm_compute; reflexivity).
  rewrite E in Hrun. injection Hrun as <-. repeat split.
Defined.

(** * Further properties *)

(** ** Where the table operations are defined *)

(** X1: [ProjectionParams(classes)] stores into element 0 of two vectors of
    [classes] elements: it is undefined for [classes = 0]; for a positive
    class count it gives [classes] zero counters, [classes] zero start
    indices and empty flat sequences. *)
Theorem ProjectionParams_classes_defined (classes : Z) :
  (classes <= 0 -> ProjectionParams_classes classes = None) /\
  (0 < classes ->
   exists t,
     ProjectionParams_classes classes = Some t /\
     Z.of_nat (length (class_entries t)) = classes /\
     Z.of_nat (length (class_idx t)) = classes /\
     Z.of_nat (length (orientation_num t)) = classes /\
     (forall c, 0 <= c < classes ->
                vec_get (class_entries t) c = Some 0 /\
                vec_get (class_idx t) c = Some 0 /\
                vec_get (orientation_num t) c = Some 0) /\
     flat_length t 0 /\
     orientationNumAllClasses t = Some 0).
Proof.
  split.
  - intros H. unfold ProjectionParams_classes, vec_set, vec_get, vec_fill.
    replace (Z.to_nat classes) with 0%nat by lia. reflexivity.
  - intros H. eexists. split; [apply ProjectionParams_classes_Some; exact H|].
    cbn. unfold vec_fill. rewrite !length_replicate.
    repeat split; try lia;
      apply vec_get_Some; (split; [lia|]); apply lookup_replicate_2; lia.
Qed.

(** X2: [pushBackAll] is defined exactly when its class argument indexes
    [class_entries]; on a default-constructed table, which has no counters,
    it is defined for no argument. *)
Theorem pushBackAll_defined_iff (a : PushArgs) (t : ProjectionParams) :
  (is_Some (pushBackAll a t)
   <-> 0 <= iclass a < Z.of_nat (length (class_entries t))) /\
  pushBackAll a ProjectionParams_empty = None.
Proof.
  assert (Hiff : forall t0, is_Some (pushBackAll a t0)
                            <-> 0 <= iclass a < Z.of_nat (length (class_entries t0))).
  { intros t0. split.
    - intros [t' Ht'].
      destruct (vec_get (class_entries t0) (iclass a)) as [n|] eqn:Hn.
      + apply vec_get_Some in Hn. destruct Hn as [H0 Hl].
        apply lookup_lt_Some in Hl. lia.
      + rewrite (pushBackAll_None a t0 Hn) in Ht'. discriminate.
    - intros Hr. destruct (vec_get_in_range _ _ Hr) as [n Hn].
      rewrite (pushBackAll_Some a t0 n Hn). eauto. }
  split; [apply Hiff|].
  destruct (pushBackAll a ProjectionParams_empty) as [t'|] eqn:E; [|reflexivity].
  assert (Hs : is_Some (pushBackAll a ProjectionParams_empty)) by (rewrite E; eauto).
  apply Hiff in Hs. cbn in Hs. lia.
Qed.

Lemma vec_range_is_Some {A} (v : list A) (first last : Z) :
  is_Some (vec_range v first last)
  <-> 0 <= first <= last /\ last <= Z.of_nat (length v).
Proof.
  unfold vec_range.
  destruct (Z.leb_spec 0 first), (Z.leb_spec first last),
    (Z.leb_spec last (Z.of_nat (length v))); cbn; split;
    try (intros [? ?]; discriminate); try (intros; lia); eauto.
Qed.

(** a slice that is defined: the bounds, and the table it is *)
Lemma ProjectionParams_slice_inv (parent s : ProjectionParams) (start end_ : Z) :
  ProjectionParams_slice parent start end_ = Some s ->
  (0 <= start <= end_ /\
   end_ <= Z.of_nat (length (rots parent)) /\
   end_ <= Z.of_nat (length (tilts parent)) /\
   end_ <= Z.of_nat (length (psis parent)) /\
   end_ <= Z.of_nat (length (iorientclasses parent)) /\
   end_ <= Z.of_nat (length (iover_rots parent))) /\
  s = mkProjectionParams
        [0] None
        (take (Z.to_nat (end_ - start)) (drop (Z.to_nat start) (rots parent)))
        (take (Z.to_nat (end_ - start)) (drop (Z.to_nat start) (tilts parent)))
        (take (Z.to_nat (end_ - start)) (drop (Z.to_nat start) (psis parent)))
        (take (Z.to_nat (end_ - start)) (drop (Z.to_nat start) (iorientclasses parent)))
        (take (Z.to_nat (end_ - start)) (drop (Z.to_nat start) (iover_rots parent)))
        [wrap64 (end_ - start)] [0].
Proof.
  unfold ProjectionParams_slice. intros Hs.
  destruct (vec_range (rots parent) start end_) eqn:E1; [|discriminate].
  destruct (vec_range (tilts parent) start end_) eqn:E2; [|discriminate].
  destruct (vec_range (psis parent) start end_) eqn:E3; [|discriminate].
  destruct (vec_range (iorientclasses parent) start end_) eqn:E4; [|discriminate].
  destruct (vec_range (iover_rots parent) start end_) eqn:E5; [|discriminate].
  pose proof (proj1 (vec_range_is_Some _ _ _) (ex_intro _ _ E1)).
  pose proof (proj1 (vec_range_is_Some _ _ _) (ex_intro _ _ E2)).
  pose proof (proj1 (vec_range_is_Some _ _ _) (ex_intro _ _ E3)).
  pose proof (proj1 (vec_range_is_Some _ _ _) (ex_intro _ _ E4)).
  pose proof (proj1 (vec_range_is_Some _ _ _) (ex_intro _ _ E5)).
  split; [lia|].
  rewrite vec_range_Some in E1 by lia. rewrite vec_range_Some in E2 by lia.
  rewrite vec_range_Some in E3 by lia. rewrite vec_range_Some in E4 by lia.
  rewrite vec_range_Some in E5 by lia.
  injection E1 as <-. injection E2 as <-. injection E3 as <-.
  injection E4 as <-. injection E5 as <-.
  cbn in Hs. injection Hs as <-. reflexivity.
Qed.

(** X3: the slice constructor is defined exactly when [start <= end] and [end]
    is within each of the five flat sequences of the parent. *)
Theorem ProjectionParams_slice_defined_iff (parent : ProjectionParams) (start end_ : Z) :
  is_Some (ProjectionParams_slice parent start end_)
  <-> 0 <= start <= end_ /\
      end_ <= Z.of_nat (length (rots parent)) /\
      end_ <= Z.of_nat (length (tilts parent)) /\
      end_ <= Z.of_nat (length (psis parent)) /\
      end_ <= Z.of_nat (length (iorientclasses parent)) /\
      end_ <= Z.of_nat (length (iover_rots parent)).
Proof.
  split.
  - intros [s Hs]. apply (ProjectionParams_slice_inv parent s start end_ Hs).
  - intros (H0 & H1 & H2 & H3 & H4 & H5). unfold ProjectionParams_slice.
    rewrite !vec_range_Some by lia. cbn. eauto.
Qed.

(** ** Slices of slices *)

Lemma range_of_range {A} (v : list A) (a b c d : Z) :
  0 <= a <= b -> b <= Z.of_nat (length v) -> 0 <= c <= d -> d <= b - a ->
  take (Z.to_nat (d - c))
       (drop (Z.to_nat c) (take (Z.to_nat (b - a)) (drop (Z.to_nat a) v)))
  = take (Z.to_nat (a + d - (a + c))) (drop (Z.to_nat (a + c)) v).
Proof.
  intros Hab Hb Hcd Hd. apply list_eq. intros i.
  replace (a + d - (a + c)) with (d - c) by lia.
  destruct (Nat.lt_ge_cases i (Z.to_nat (d - c))) as [Hi|Hi].
  - rewrite !lookup_take_lt by lia. rewrite !lookup_drop.
    rewrite lookup_take_lt by lia. rewrite lookup_drop. f_equal. lia.
  - rewrite !lookup_take_ge by lia. reflexivity.
Qed.

(** X4: slicing [[c, d)] out of the slice [[a, b)] of a table is slicing
    [[a + c, a + d)] out of the table itself. *)
Theorem ProjectionParams_slice_slice (parent s : ProjectionParams) (a b c d : Z) :
  ProjectionParams_slice parent a b = Some s ->
  0 <= c <= d -> d <= b - a ->
  ProjectionParams_slice s c d = ProjectionParams_slice parent (a + c) (a + d) /\
  is_Some (ProjectionParams_slice s c d).
Proof.
  intros Hs Hcd Hd.
  destruct (ProjectionParams_slice_inv parent s a b Hs)
    as ((Hab & H1 & H2 & H3 & H4 & H5) & ->).
  unfold ProjectionParams_slice. cbn.
  rewrite !vec_range_Some by (try rewrite length_take, length_drop; lia).
  cbn. rewrite !(range_of_range _ a b c d) by lia.
  replace (a + d - (a + c)) with (d - c) by lia. split; [reflexivity|eauto].
Qed.

(** ** The counters add up to the number of entries *)

Lemma sum_Z_insert (l : list Z) (i : nat) (n m : Z) :
  l !! i = Some n -> sum_Z (<[i := m]> l) = sum_Z l - n + m.
Proof.
  unfold sum_Z. revert i. induction l as [|x l IH]; intros i H; [discriminate|].
  destruct i as [|i].
  - injection H as ->. cbn. lia.
  - change (<[S i := m]> (x :: l)) with (x :: <[i := m]> l).
    change ((x :: l) !! S i) with (l !! i) in H.
    cbn [foldr]. rewrite (IH i H). lia.
Qed.

Lemma sum_Z_nonneg (l : list Z) : Forall (fun k => 0 <= k) l -> 0 <= sum_Z l.
Proof. unfold sum_Z. induction 1; cbn; lia. Qed.

Lemma sum_Z_bound (l : list Z) (i : nat) (n : Z) :
  Forall (fun k => 0 <= k) l -> l !! i = Some n -> 0 <= n <= sum_Z l.
Proof.
  intros Hall. revert i. induction Hall as [|x l Hx Hall IH]; intros i H;
    [discriminate|].
  pose proof (sum_Z_nonneg l Hall) as Hs. unfold sum_Z in *.
  destruct i as [|i]; cbn in *.
  - injection H as ->. lia.
  - specialize (IH i H). lia.
Qed.

Lemma sum_Z_replicate (k : nat) : sum_Z (replicate k 0) = 0.
Proof. induction k; cbn; [reflexivity|]. unfold sum_Z in IHk. rewrite IHk. reflexivity. Qed.

(** X5: every table the constructors build satisfies [table_inv]: the counters
    in [class_entries] add up to the number of entries and the five flat
    sequences have one length; [pushBackAll] keeps it so while the table has
    fewer than [2^64 - 1] entries. *)
Theorem table_inv_kept :
  table_inv ProjectionParams_empty /\
  (forall classes t, ProjectionParams_classes classes = Some t -> table_inv t) /\
  (forall parent start end_ s,
      ProjectionParams_slice parent start end_ = Some s -> end_ < 2 ^ 64 ->
      table_inv s) /\
  (forall a t t',
      table_inv t -> Z.of_nat (length (rots t)) < 2 ^ 64 - 1 ->
      pushBackAll a t = Some t' -> table_inv t').
Proof.
  split; [repeat split; constructor|].
  split; [|split].
  - intros classes t H.
    destruct (Z.ltb_spec 0 classes) as [Hpos|Hle].
    + rewrite (ProjectionParams_classes_Some classes Hpos) in H. injection H as <-.
      unfold table_inv, vec_fill. cbn.
      split; [apply Forall_replicate; lia|].
      split; [apply sum_Z_replicate|]. auto.
    + unfold ProjectionParams_classes, vec_set, vec_get, vec_fill in H.
      replace (Z.to_nat classes) with 0%nat in H by lia. discriminate.
  - intros parent start end_ s Hs Hmax.
    destruct (ProjectionParams_slice_inv parent s start end_ Hs)
      as ((Hse & H1 & H2 & H3 & H4 & H5) & ->).
    unfold table_inv, sum_Z. cbn. rewrite wrap64_small by lia.
    split; [repeat constructor; lia|].
    rewrite !length_take, !length_drop. repeat split; lia.
  - intros a t t' (Hpos & Hsum & Ht & Hp & Hic & Hio) Hlen Hpush.
    destruct (vec_get (class_entries t) (iclass a)) as [n|] eqn:Hn;
      [|rewrite (pushBackAll_None a t Hn) in Hpush; discriminate].
    rewrite (pushBackAll_Some a t n Hn) in Hpush. injection Hpush as <-.
    apply vec_get_Some in Hn. destruct Hn as [_ Hl].
    pose proof (sum_Z_bound _ _ _ Hpos Hl) as Hb.
    unfold table_inv. cbn. rewrite wrap64_small by lia.
    split; [apply Forall_insert; [exact Hpos|lia]|].
    rewrite (sum_Z_insert _ _ _ _ Hl), !length_app. cbn.
    repeat split; lia.
Qed.

(** ** The flat sequences hold the arguments in call order *)

Lemma pushBackAll_seq_contents (calls : list PushArgs) :
  forall t : ProjectionParams,
    calls_in_range calls t ->
    exists t',
      pushBackAll_seq calls t = Some t' /\
      length (class_entries t') = length (class_entries t) /\
      rots t' = rots t ++ map NEWrot calls /\
      tilts t' = tilts t ++ map NEWtilt calls /\
      psis t' = psis t ++ map NEWpsi calls /\
      iorientclasses t' = iorientclasses t ++ map NEWiorientclasses calls /\
      iover_rots t' = iover_rots t ++ map NEWiover_rots calls /\
      class_idx t' = class_idx t /\
      orientation_num t' = orientation_num t /\
      orientationNumAllClasses t' = orientationNumAllClasses t.
Proof.
  unfold calls_in_range.
  induction calls as [|a rest IH]; intros t Hall.
  - exists t. cbn. rewrite !app_nil_r. auto 10.
  - inversion Hall as [|? ? Ha Hrest]; subst.
    destruct (vec_get_in_range (class_entries t) (iclass a) Ha) as [m Hget].
    pose proof (pushBackAll_Some a t m Hget) as Hpush.
    set (t1 := mkProjectionParams _ _ _ _ _ _ _ _ _) in Hpush.
    destruct (IH t1) as (t' & Hrun & Hlen & Hr & Ht & Hp & Hic & Hio & Hci & Hon & Hall').
    { unfold t1. cbn. rewrite length_insert. exact Hrest. }
    exists t'. cbn. rewrite Hpush. cbn.
    split; [exact Hrun|].
    rewrite Hlen, Hr, Ht, Hp, Hic, Hio, Hci, Hon, Hall'. unfold t1. cbn.
    rewrite length_insert, <- !app_assoc. cbn. auto 10.
Qed.

(** X6: after a run of [pushBackAll] calls with class arguments of the table,
    each flat sequence is what it was followed by the corresponding argument
    of every call, in call order; on a table that started empty, the slice
    [[start, end)] therefore holds the arguments of the calls number
    [start], ..., [end - 1]. *)
Theorem pushBackAll_seq_in_order (calls : list PushArgs) (t : ProjectionParams) :
  calls_in_range calls t ->
  exists t',
    pushBackAll_seq calls t = Some t' /\
    rots t' = rots t ++ map NEWrot calls /\
    tilts t' = tilts t ++ map NEWtilt calls /\
    psis t' = psis t ++ map NEWpsi calls /\
    iorientclasses t' = iorientclasses t ++ map NEWiorientclasses calls /\
    iover_rots t' = iover_rots t ++ map NEWiover_rots calls /\
    class_idx t' = class_idx t /\
    orientation_num t' = orientation_num t /\
    (flat_length t 0 ->
     forall start end_,
       0 <= start <= end_ -> end_ <= Z.of_nat (length calls) ->
       exists s,
         ProjectionParams_slice t' start end_ = Some s /\
         rots s = map NEWrot (calls_between calls start end_) /\
         tilts s = map NEWtilt (calls_between calls start end_) /\
         psis s = map NEWpsi (calls_between calls start end_) /\
         iorientclasses s = map NEWiorientclasses (calls_between calls start end_) /\
         iover_rots s = map NEWiover_rots (calls_between calls start end_)).
Proof.
  intros Hall.
  destruct (pushBackAll_seq_contents calls t Hall)
    as (t' & Hrun & _ & Hr & Ht & Hp & Hic & Hio & Hci & Hon & _).
  exists t'. split; [exact Hrun|]. repeat (split; [assumption|]).
  intros (L1 & L2 & L3 & L4 & L5) start end_ Hse Hend.
  assert (E1 : rots t = []) by (apply nil_length_inv; lia).
  assert (E2 : tilts t = []) by (apply nil_length_inv; lia).
  assert (E3 : psis t = []) by (apply nil_length_inv; lia).
  assert (E4 : iorientclasses t = []) by (apply nil_length_inv; lia).
  assert (E5 : iover_rots t = []) by (apply nil_length_inv; lia).
  clear L1 L2 L3 L4 L5.
  rename E1 into L1, E2 into L2, E3 into L3, E4 into L4, E5 into L5.
  rewrite L1 in Hr. rewrite L2 in Ht. rewrite L3 in Hp.
  rewrite L4 in Hic. rewrite L5 in Hio. cbn in Hr, Ht, Hp, Hic, Hio.
  eexists. split.
  - apply (ProjectionParams_slice_Some t' (Z.of_nat (length calls))); [|lia|lia].
    unfold flat_length. rewrite Hr, Ht, Hp, Hic, Hio, !length_map. auto.
  - cbn. unfold calls_between. rewrite Hr, Ht, Hp, Hic, Hio.
    rewrite !List.skipn_map, !List.firstn_map. auto.
Qed.

(** ** Allocation, step by step *)

Lemma host_alloc_run (D : bool) (sz : Z) (b : CudaGlobalPtr) (w : World) :
  size b * sz < 2 ^ 64 -> host_brk w + size b * sz <= host_end w ->
  exists w',
    host_alloc D sz b w
    = Ok (mkCudaGlobalPtr (size b) (host_brk w) (d_ptr b) true (d_do_free b)) w' /\
    host_blocks w' = (host_brk w, size b * sz) :: host_blocks w /\
    dev_blocks w' = dev_blocks w /\
    host_frees w' = host_frees w /\ cuda_frees w' = cuda_frees w /\
    host_mem w' = host_mem w /\ dev_mem w' = dev_mem w /\
    host_brk w' = host_brk w + Z.max (size b * sz) 1 /\
    host_end w' = host_end w /\ dev_brk w' = dev_brk w /\ dev_end w' = dev_end w.
Proof.
  intros H1 H2. unfold_ops. unfold host_frees, cuda_frees. cbn.
  destruct (Z.ltb_spec (size b * sz) (2 ^ 64)); [|lia].
  destruct D, (h_do_free b); cbn;
    (destruct (Z.leb_spec (host_brk w + size b * sz) (host_end w)); [|lia]);
    cbn; eexists; repeat split.
Qed.

Lemma device_alloc_run (D : bool) (sz : Z) (b : CudaGlobalPtr) (w : World) :
  dev_brk w + wrap64 (size b * sz) <= dev_end w ->
  exists w',
    device_alloc D sz b w
    = Ok (mkCudaGlobalPtr (size b) (h_ptr b) (dev_brk w) (h_do_free b) true) w' /\
    dev_blocks w' = (dev_brk w, wrap64 (size b * sz)) :: dev_blocks w /\
    host_blocks w' = host_blocks w /\
    host_frees w' = host_frees w /\ cuda_frees w' = cuda_frees w /\
    host_mem w' = host_mem w /\ dev_mem w' = dev_mem w /\
    dev_brk w' = dev_brk w + Z.max (wrap64 (size b * sz)) 1 /\
    dev_end w' = dev_end w /\ host_brk w' = host_brk w /\ host_end w' = host_end w /\
    (D = true -> d_do_free b = true ->
     printed "DEBUG_WARNING: Device double allocation.\n" w').
Proof.
  intros H. unfold_ops. unfold host_frees, cuda_frees, printed. cbn.
  destruct D, (d_do_free b); cbn;
    (destruct (Z.leb_spec (dev_brk w + wrap64 (size b * sz)) (dev_end w)); [|lia]);
    cbn; eexists; repeat split; intros; try discriminate; cbn; auto.
Qed.

Lemma is_live_head (p n : Z) (l : list (Z * Z)) : is_live p ((p, n) :: l) = true.
Proof. unfold is_live, is_base. cbn. rewrite Z.eqb_refl. reflexivity. Qed.

Lemma is_live_drop (p : Z) (l : list (Z * Z)) : is_live p (drop_block p l) = false.
Proof.
  unfold is_live, drop_block. induction l as [|blk l IH]; cbn; [reflexivity|].
  destruct (is_base p blk) eqn:E; cbn; [exact IH|]. rewrite E. exact IH.
Qed.

Lemma is_live_drop_other (p q : Z) (l : list (Z * Z)) :
  p <> q -> is_live q (drop_block p l) = is_live q l.
Proof.
  intros Hne. unfold is_live, drop_block, is_base.
  induction l as [|blk l IH]; cbn; [reflexivity|].
  destruct (Z.eqb_spec (fst blk) p) as [E|E]; cbn.
  - destruct (Z.eqb_spec (fst blk) q) as [E'|_]; [congruence|]. exact IH.
  - rewrite IH. reflexivity.
Qed.

(** releasing changes no memory contents *)
Lemma CudaGlobalPtr_dtor_mem (D : bool) (b b' : CudaGlobalPtr) (w w' : World) :
  CudaGlobalPtr_dtor D b w = Ok b' w' ->
  host_mem w' = host_mem w /\ dev_mem w' = dev_mem w.
Proof.
  unfold_ops. cbn. intros H.
  destruct (d_do_free b), (h_do_free b); cbn in H;
    case_ifs; try discriminate; inversion H; subst; cbn; auto.
Qed.

(** the destructor of a buffer that owns two live blocks *)
Lemma CudaGlobalPtr_dtor_owned (D : bool) (b : CudaGlobalPtr) (w : World) :
  d_do_free b = true -> h_do_free b = true ->
  is_live (d_ptr b) (dev_blocks w) = true ->
  is_live (h_ptr b) (host_blocks w) = true ->
  h_ptr b <> NULL ->
  exists w',
    CudaGlobalPtr_dtor D b w = Ok (mkCudaGlobalPtr (size b) NULL NULL false false) w' /\
    cuda_frees w' = d_ptr b :: cuda_frees w /\
    host_frees w' = h_ptr b :: host_frees w /\
    (d_ptr b <> NULL -> dev_blocks w' = drop_block (d_ptr b) (dev_blocks w)) /\
    (d_ptr b = NULL -> dev_blocks w' = dev_blocks w) /\
    host_blocks w' = drop_block (h_ptr b) (host_blocks w).
Proof.
  intros Hd Hh Ld Lh Hnn. unfold CudaGlobalPtr_dtor. rewrite Hd.
  destruct (free_device_effect D b w) as (w1 & E1 & Hc1 & Hf1 & Hb1 & Hb1' & Hhb1).
  { right. right. exact Ld. }
  rewrite (bind_Ok _ _ _ _ _ E1). cbn. rewrite Hh.
  destruct (free_host_effect D (mkCudaGlobalPtr (size b) (h_ptr b) NULL (h_do_free b) false) w1)
    as (w2 & E2 & Hf2 & Hc2 & Hb2 & _ & Hdb2).
  { right. cbn. rewrite Hhb1. auto. }
  exists w2. cbn in *. split; [exact E2|].
  rewrite Hf2, Hc2, Hc1, Hf1, Hdb2, (Hb2 Hnn), Hhb1. auto 10.
Qed.

(** ** Every side is released once *)

(** X7: a buffer that allocates both sides and goes out of scope: when the heap
    and the device have room, the sequence returns, [delete []] is called
    once, on the host array, [cudaFree] is called once, on the device array,
    and neither block is live afterwards. *)
Theorem alloc_and_destroy_releases_once (D : bool) (sz : Z) (b : CudaGlobalPtr)
        (w : World) :
  0 <= size b * sz < 2 ^ 64 ->
  host_brk w + size b * sz <= host_end w ->
  dev_brk w + size b * sz <= dev_end w ->
  host_brk w <> NULL ->
  exists w',
    alloc_and_destroy D sz b w
    = Ok (mkCudaGlobalPtr (size b) NULL NULL false false) w' /\
    host_frees w' = host_brk w :: host_frees w /\
    cuda_frees w' = dev_brk w :: cuda_frees w /\
    is_live (host_brk w) (host_blocks w') = false /\
    (dev_brk w <> NULL -> is_live (dev_brk w) (dev_blocks w') = false) /\
    host_mem w' = host_mem w /\ dev_mem w' = dev_mem w.
Proof.
  intros Hfit Hh Hd Hnn. unfold alloc_and_destroy.
  destruct (host_alloc_run D sz b w) as
    (w1 & E1 & Hhb1 & Hdb1 & Hhf1 & Hcf1 & Hhm1 & Hdm1 & _ & _ & Hbrk1 & Hend1);
    [lia | lia |].
  rewrite (bind_Ok _ _ _ _ _ E1).
  destruct (device_alloc_run D sz
              (mkCudaGlobalPtr (size b) (host_brk w) (d_ptr b) true (d_do_free b)) w1)
    as (w2 & E2 & Hdb2 & Hhb2 & Hhf2 & Hcf2 & Hhm2 & Hdm2 & _).
  { cbn. rewrite wrap64_small by lia. lia. }
  rewrite (bind_Ok _ _ _ _ _ E2). cbn in *.
  destruct (CudaGlobalPtr_dtor_owned D
              (mkCudaGlobalPtr (size b) (host_brk w) (dev_brk w1) true true) w2)
    as (w3 & E3 & Hcf3 & Hhf3 & Hdb3 & _ & Hhb3); cbn; auto.
  { rewrite Hdb2. apply is_live_head. }
  { rewrite Hhb2, Hhb1. apply is_live_head. }
  pose proof (CudaGlobalPtr_dtor_mem _ _ _ _ _ E3) as [Hhm3 Hdm3].
  exists w3. cbn in Hcf3, Hhf3, Hdb3, Hhb3. split; [exact E3|].
  rewrite Hhf3, Hcf3, Hhf2, Hcf2, Hhf1, Hcf1, Hhb3, Hbrk1.
  repeat split.
  - apply is_live_drop.
  - intros Hd0. rewrite Hdb3 by congruence. rewrite Hbrk1. apply is_live_drop.
  - congruence.
  - congruence.
Qed.

(** X8: after [free()], the destructor finds both flags cleared and releases
    nothing again: over the whole sequence [cudaFree] and [delete []] are
    each called exactly once. *)
Theorem free_and_destroy_releases_once (D : bool) (b : CudaGlobalPtr) (w : World) :
  D = false \/ d_ptr b = NULL \/ is_live (d_ptr b) (dev_blocks w) = true ->
  (D = false /\ h_ptr b = NULL)
  \/ (h_ptr b <> NULL /\ is_live (h_ptr b) (host_blocks w) = true) ->
  exists w',
    free D b w = Ok (mkCudaGlobalPtr (size b) NULL NULL false false) w' /\
    free_and_destroy D b w = Ok (mkCudaGlobalPtr (size b) NULL NULL false false) w' /\
    cuda_frees w' = d_ptr b :: cuda_frees w /\
    host_frees w' = h_ptr b :: host_frees w.
Proof.
  intros Hd Hh. destruct (free_effect D b w Hd Hh) as (w' & E & Hc & Hf).
  exists w'. split; [exact E|]. split; [|auto].
  unfold free_and_destroy. rewrite (bind_Ok _ _ _ _ _ E).
  apply CudaGlobalPtr_dtor_unowned; reflexivity.
Qed.

(** ** Allocating twice *)

Lemma CudaGlobalPtr_dtor_trace (D : bool) (b b' : CudaGlobalPtr) (w w' : World)
      (e : Event) :
  CudaGlobalPtr_dtor D b w = Ok b' w' -> In e (trace w) -> In e (trace w').
Proof.
  unfold_ops. cbn. intros H He.
  destruct (d_do_free b), (h_do_free b); cbn in H;
    case_ifs; try discriminate; inversion H; subst; cbn; auto 10.
Qed.

(** X9: a second [device_alloc] overwrites [d_ptr] with a new block and forgets
    the first: the destructor calls [cudaFree] once, on the second block,
    and the first block is still live after the buffer is gone.  With
    [DEBUG_CUDA] the second call prints the double-allocation warning and
    goes on all the same. *)
Theorem alloc_twice_leaks (D : bool) (sz : Z) (b : CudaGlobalPtr) (w : World) :
  h_do_free b = false ->
  0 <= size b * sz < 2 ^ 64 ->
  0 < dev_brk w ->
  dev_brk w + 2 * (size b * sz) + 1 <= dev_end w ->
  exists w',
    alloc_twice_and_destroy D sz b w
    = Ok (mkCudaGlobalPtr (size b) (h_ptr b) NULL false false) w' /\
    cuda_frees w' = (dev_brk w + Z.max (size b * sz) 1) :: cuda_frees w /\
    is_live (dev_brk w) (dev_blocks w') = true /\
    is_live (dev_brk w + Z.max (size b * sz) 1) (dev_blocks w') = false /\
    (D = true -> printed "DEBUG_WARNING: Device double allocation.\n" w').
Proof.
  intros Hh Hfit Hpos Hroom. unfold alloc_twice_and_destroy.
  destruct (device_alloc_run D sz b w)
    as (w1 & E1 & Hdb1 & _ & _ & Hcf1 & _ & _ & Hbrk1 & Hend1 & _);
    [rewrite wrap64_small by lia; lia|].
  rewrite (bind_Ok _ _ _ _ _ E1).
  rewrite wrap64_small in Hdb1, Hbrk1 by lia.
  destruct (device_alloc_run D sz
              (mkCudaGlobalPtr (size b) (h_ptr b) (dev_brk w) (h_do_free b) true) w1)
    as (w2 & E2 & Hdb2 & _ & _ & Hcf2 & _ & _ & _ & _ & _ & _ & Hpr);
    [cbn; rewrite wrap64_small by lia; lia|].
  rewrite (bind_Ok _ _ _ _ _ E2). cbn in Hdb2, Hpr.
  rewrite wrap64_small in Hdb2 by lia. rewrite Hh in *.
  set (b2 := mkCudaGlobalPtr (size b) (h_ptr b) (dev_brk w1) false true) in *.
  destruct (free_device_effect D b2 w2) as (w3 & E3 & Hcf3 & _ & Hdb3 & _).
  { right. right. cbn. rewrite Hdb2. apply is_live_head. }
  assert (Edtor : CudaGlobalPtr_dtor D b2 w2
                  = Ok (mkCudaGlobalPtr (size b) (h_ptr b) NULL false false) w3).
  { unfold CudaGlobalPtr_dtor. cbn [d_do_free b2].
    rewrite (bind_Ok _ _ _ _ _ E3). reflexivity. }
  exists w3. split; [exact Edtor|]. cbn in Hcf3, Hdb3.
  assert (Hne : dev_brk w1 <> NULL) by (unfold NULL; lia).
  rewrite Hcf3, Hcf2, Hcf1, (Hdb3 Hne), Hdb2, Hdb1, Hbrk1.
  split; [reflexivity|]. split; [|split].
  - rewrite is_live_drop_other by lia.
    unfold is_live. cbn. unfold is_base at 2. cbn. rewrite Z.eqb_refl.
    apply orb_true_r.
  - apply is_live_drop.
  - intros HD. apply (CudaGlobalPtr_dtor_trace _ _ _ _ _ _ Edtor).
    apply Hpr; auto.
Qed.

(** ** Allocation that fails *)

(** X10: [host_alloc] does not survive a failing [new]; [device_alloc] ends the
    process on a failing [cudaMalloc] only with [DEBUG_CUDA].  Without it
    the call returns with nothing allocated but [d_do_free] already set, so
    the destructor of that buffer calls [cudaFree] on a pointer the buffer
    never allocated. *)
Theorem allocation_failure (D : bool) (sz : Z) (b : CudaGlobalPtr) (w : World) :
  (2 ^ 64 <= size b * sz \/ host_end w < host_brk w + size b * sz ->
   host_alloc D sz b w = Crash BadAlloc) /\
  (dev_end w < dev_brk w + wrap64 (size b * sz) ->
   (D = true -> device_alloc D sz b w = Crash SigSegv) /\
   (D = false ->
    exists b',
      device_alloc D sz b w = Ok b' w /\
      d_do_free b' = true /\ h_do_free b' = h_do_free b /\
      (h_do_free b = false ->
       exists b2 w2,
         device_alloc_and_destroy D sz b w = Ok b2 w2 /\
         cuda_frees w2 = d_ptr b' :: cuda_frees w /\
         d_do_free b2 = false))).
Proof.
  split.
  - intros H. unfold_ops. cbn.
    assert (E : (size b * sz <? 2 ^ 64) && (host_brk w + size b * sz <=? host_end w)
                = false).
    { destruct (Z.ltb_spec (size b * sz) (2 ^ 64)); [|reflexivity].
      destruct (Z.leb_spec (host_brk w + size b * sz) (host_end w)); [lia|reflexivity]. }
    destruct D, (h_do_free b); cbn; rewrite E; reflexivity.
  - intros H.
    assert (E : (dev_brk w + wrap64 (size b * sz) <=? dev_end w) = false)
      by (apply Z.leb_gt; lia).
    split.
    + intros ->. unfold_ops. cbn. destruct (d_do_free b); cbn; rewrite E; reflexivity.
    + intros ->.
      assert (Ea : device_alloc false sz b w = Ok (set_d_do_free true b) w).
      { unfold_ops. cbn. rewrite E. reflexivity. }
      exists (set_d_do_free true b). split; [exact Ea|].
      split; [reflexivity|]. split; [reflexivity|].
      intros Hh.
      destruct (free_device_effect false (set_d_do_free true b) w (or_introl eq_refl))
        as (w2 & E2 & Hc2 & _).
      eexists. exists w2. split; [|split; [exact Hc2|]].
      * unfold device_alloc_and_destroy. rewrite (bind_Ok _ _ _ _ _ Ea).
        unfold CudaGlobalPtr_dtor. cbn [d_do_free set_d_do_free].
        rewrite (bind_Ok _ _ _ _ _ E2). cbn. rewrite Hh. reflexivity.
      * reflexivity.
Qed.

(** ** Staging a buffer on the device *)

Lemma put_on_device_run (D : bool) (sz : Z) (b : CudaGlobalPtr) (w : World) :
  0 <= size b * sz < 2 ^ 64 -> dev_brk w + size b * sz <= dev_end w ->
  exists w',
    put_on_device D sz b w
    = Ok (mkCudaGlobalPtr (size b) (h_ptr b) (dev_brk w) (h_do_free b) true) w' /\
    read_bytes (dev_mem w') (dev_brk w) (size b * sz)
    = read_bytes (host_mem w) (h_ptr b) (size b * sz) /\
    host_mem w' = host_mem w /\
    is_live (dev_brk w) (dev_blocks w') = true.
Proof.
  intros Hfit Hroom. unfold put_on_device.
  destruct (device_alloc_run D sz b w)
    as (w1 & E1 & Hdb1 & _ & _ & _ & Hhm1 & Hdm1 & _);
    [rewrite wrap64_small by lia; lia|].
  rewrite (bind_Ok _ _ _ _ _ E1).
  set (b1 := mkCudaGlobalPtr (size b) (h_ptr b) (dev_brk w) (h_do_free b) true) in *.
  assert (Hok : dev_range_ok w1 (d_ptr b1) (wrap64 (size b1 * sz)) = true).
  { unfold dev_range_ok. rewrite Hdb1. cbn. rewrite in_block_self. reflexivity. }
  destruct (cp_to_device_Ok D sz b1 w1 (or_intror Hok))
    as (w2 & E2 & _ & Hhm2 & _ & Hdb2 & Hdm2).
  exists w2. split; [exact E2|]. rewrite Hdm2, Hok, Hhm2, Hhm1, Hdb2, Hdb1. cbn.
  rewrite wrap64_small by lia.
  split; [apply read_bytes_copy|]. split; [reflexivity|apply is_live_head].
Qed.

(** X11: [put_on_device()] and [put_on_device(newSize)]: with room on the device
    the call returns with a new live device block owned by the buffer; the
    device data equals the host data ([size], respectively [newSize],
    elements from [h_ptr]), and the host memory is untouched;
    [put_on_device(newSize)] also leaves [newSize] in [size]. *)
Theorem put_on_device_stages (D : bool) (sz : Z) (b : CudaGlobalPtr) (w : World) :
  (0 <= size b * sz < 2 ^ 64 -> dev_brk w + size b * sz <= dev_end w ->
   exists b' w',
     put_on_device D sz b w = Ok b' w' /\
     size b' = size b /\ h_ptr b' = h_ptr b /\ d_do_free b' = true /\
     h_do_free b' = h_do_free b /\
     dev_data sz b' w' = host_data sz b w /\
     host_mem w' = host_mem w /\
     is_live (d_ptr b') (dev_blocks w') = true) /\
  (forall newSize,
      0 <= newSize * sz < 2 ^ 64 -> dev_brk w + newSize * sz <= dev_end w ->
      exists b' w',
        put_on_device_size D sz newSize b w = Ok b' w' /\
        size b' = newSize /\ h_ptr b' = h_ptr b /\ d_do_free b' = true /\
        h_do_free b' = h_do_free b /\
        dev_data sz b' w' = read_bytes (host_mem w) (h_ptr b) (newSize * sz) /\
        host_mem w' = host_mem w /\
        is_live (d_ptr b') (dev_blocks w') = true).
Proof.
  split.
  - intros Hfit Hroom.
    destruct (put_on_device_run D sz b w Hfit Hroom) as (w' & E & Hd & Hm & Hl).
    eexists. exists w'. split; [exact E|]. cbn. unfold dev_data, host_data. cbn.
    auto 10.
  - intros n Hfit Hroom.
    destruct (put_on_device_run D sz (set_size n b) w Hfit Hroom)
      as (w' & E & Hd & Hm & Hl).
    eexists. exists w'. split; [exact E|]. cbn. unfold dev_data. cbn.
    cbn in Hd. auto 10.
Qed.

(** ** [device_init] *)

Lemma read_bytes_fill (v : Byte.byte) (m : mem) (d n : Z) :
  read_bytes (fill_bytes v m d n) d n = replicate (Z.to_nat n) v.
Proof.
  symmetry. apply replicate_as_Forall. split.
  - apply read_bytes_length.
  - unfold read_bytes. apply List.Forall_forall. intros x Hx.
    apply in_map_iff in Hx. destruct Hx as (i & <- & Hi).
    apply list_elem_of_In, elem_of_seqZ in Hi. unfold fill_bytes.
    destruct (Z.leb_spec d (d + i)); [|lia].
    destruct (Z.ltb_spec (d + i) (d + n)); [|lia]. reflexivity.
Qed.

(** X12: [device_init(value)] on an allocated device array sets every byte of it
    to the low byte of [value] and changes no other byte; before the
    allocation it ends the process with [DEBUG_CUDA] and changes nothing
    without. *)
Theorem device_init_fills (D : bool) (sz value : Z) (b : CudaGlobalPtr) (w : World) :
  (dev_range_ok w (d_ptr b) (wrap64 (size b * sz)) = true ->
   exists w',
     device_init D sz value b w = Ok b w' /\
     read_bytes (dev_mem w') (d_ptr b) (wrap64 (size b * sz))
     = replicate (Z.to_nat (wrap64 (size b * sz))) (memset_byte value) /\
     (forall a, a < d_ptr b \/ d_ptr b + wrap64 (size b * sz) <= a ->
                dev_mem w' a = dev_mem w a) /\
     host_mem w' = host_mem w) /\
  (dev_range_ok w (d_ptr b) (wrap64 (size b * sz)) = false ->
   (D = true -> device_init D sz value b w = Crash SigSegv) /\
   (D = false ->
    exists w', device_init D sz value b w = Ok b w' /\
               dev_mem w' = dev_mem w /\ host_mem w' = host_mem w)).
Proof.
  split.
  - intros Hok. unfold_ops. unfold dev_range_ok in *. cbn.
    destruct D, (d_ptr b =? NULL); cbn; rewrite Hok; cbn;
      eexists; (split; [reflexivity|]); cbn;
      (split; [apply read_bytes_fill|]);
      (split; [|reflexivity]); intros a Ha; unfold fill_bytes;
      (destruct (Z.leb_spec (d_ptr b) a); [|reflexivity]);
      (destruct (Z.ltb_spec a (d_ptr b + wrap64 (size b * sz))); [lia|reflexivity]).
  - intros Hno. unfold_ops. unfold dev_range_ok in *. cbn. split.
    + intros ->. destruct (d_ptr b =? NULL); cbn; rewrite Hno; reflexivity.
    + intros ->. cbn. rewrite Hno. cbn. eexists. repeat split.
Qed.

(** ** Transfers: what they change and when they fail *)

(** X13: [cp_to_device] and [cp_to_host] on a buffer whose device range is not
    inside a live device block (no [device_alloc] yet, or already freed):
    with [DEBUG_CUDA] the failed copy ends the process; without it the call
    returns and neither memory has changed. *)
Theorem transfer_before_allocation (D : bool) (sz : Z) (b : CudaGlobalPtr) (w : World) :
  dev_range_ok w (d_ptr b) (wrap64 (size b * sz)) = false ->
  (D = true ->
   cp_to_device D sz b w = Crash SigSegv /\ cp_to_host D sz b w = Crash SigSegv) /\
  (D = false ->
   exists w1 w2,
     cp_to_device D sz b w = Ok b w1 /\
     dev_mem w1 = dev_mem w /\ host_mem w1 = host_mem w /\
     cp_to_host D sz b w = Ok b w2 /\
     dev_mem w2 = dev_mem w /\ host_mem w2 = host_mem w).
Proof.
  intros Hno. unfold dev_range_ok in Hno. split.
  - intros ->. unfold_ops. unfold dev_range_ok. cbn.
    destruct (d_ptr b =? NULL), (h_ptr b =? NULL); cbn; rewrite Hno; cbn; auto.
  - intros ->. unfold_ops. unfold dev_range_ok. cbn. rewrite Hno. cbn.
    eexists. eexists. repeat split.
Qed.

(** X14: [cp_to_host] on an allocated buffer returns; the host bytes at [h_ptr]
    are then the device bytes at [d_ptr], no other host byte has changed,
    and the device memory is as it was. *)
Theorem cp_to_host_effect (D : bool) (sz : Z) (b : CudaGlobalPtr) (w : World) :
  dev_range_ok w (d_ptr b) (wrap64 (size b * sz)) = true ->
  exists w',
    cp_to_host D sz b w = Ok b w' /\
    read_bytes (host_mem w') (h_ptr b) (wrap64 (size b * sz))
    = read_bytes (dev_mem w) (d_ptr b) (wrap64 (size b * sz)) /\
    (0 <= size b * sz < 2 ^ 64 -> host_data sz b w' = dev_data sz b w) /\
    (forall a, a < h_ptr b \/ h_ptr b + wrap64 (size b * sz) <= a ->
               host_mem w' a = host_mem w a) /\
    dev_mem w' = dev_mem w /\
    host_blocks w' = host_blocks w /\ dev_blocks w' = dev_blocks w.
Proof.
  intros Hok.
  destruct (cp_to_host_Ok D sz b w (or_intror Hok)) as (w' & E).
  exists w'. split; [exact E|].
  assert (Hb : host_blocks w' = host_blocks w).
  { clear -E. unfold_ops. cbn in E.
    case_ifs; try discriminate; inversion E; subst; reflexivity. }
  apply cp_to_host_inv in E. destruct E as (_ & Hd & Hdb & Hm).
  rewrite Hok in Hm. rewrite Hm.
  split; [apply read_bytes_copy|].
  split; [intros Hfit; unfold host_data, dev_data; rewrite Hm;
          rewrite wrap64_small by exact Hfit; apply read_bytes_copy|].
  split; [intros a Ha; apply copy_bytes_outside; exact Ha|]. auto.
Qed.

(** X15: device to host and back: [cp_to_host(); cp_to_device();] on an
    allocated buffer returns and leaves every byte of the device memory as
    it was. *)
Theorem round_trip_back_identity (D : bool) (sz : Z) (b : CudaGlobalPtr) (w : World) :
  dev_range_ok w (d_ptr b) (wrap64 (size b * sz)) = true ->
  exists w',
    round_trip_back D sz b w = Ok b w' /\
    (forall a, dev_mem w' a = dev_mem w a) /\
    read_bytes (host_mem w') (h_ptr b) (wrap64 (size b * sz))
    = read_bytes (dev_mem w) (d_ptr b) (wrap64 (size b * sz)).
Proof.
  intros Hok. unfold round_trip_back.
  destruct (cp_to_host_Ok D sz b w (or_intror Hok)) as (w1 & E1).
  rewrite (bind_Ok _ _ _ _ _ E1).
  apply cp_to_host_inv in E1. destruct E1 as (_ & Hd1 & Hb1 & Hm1).
  rewrite Hok in Hm1.
  assert (Hok1 : dev_range_ok w1 (d_ptr b) (wrap64 (size b * sz)) = true)
    by (rewrite (dev_range_ok_blocks w1 w) by exact Hb1; exact Hok).
  destruct (cp_to_device_Ok D sz b w1 (or_intror Hok1))
    as (w2 & E2 & _ & Hm2 & _ & _ & Hd2).
  exists w2. split; [exact E2|]. rewrite Hd2, Hok1, Hm2, Hm1, Hd1. split.
  - intros a. apply copy_bytes_back.
  - apply read_bytes_copy.
Qed.

(** X16: the device-side operations never touch the host side, and the host-side
    operations never touch the device side, whatever the build and whether
    or not the runtime call succeeded. *)
Theorem sides_are_independent (D : bool) (sz value : Z) (b b' : CudaGlobalPtr)
        (w w' : World) :
  (device_alloc D sz b w = Ok b' w' \/ device_init D sz value b w = Ok b' w'
   \/ cp_to_device D sz b w = Ok b' w' \/ free_device D b w = Ok b' w' ->
   host_mem w' = host_mem w /\ host_blocks w' = host_blocks w /\
   host_frees w' = host_frees w /\
   h_ptr b' = h_ptr b /\ h_do_free b' = h_do_free b /\ size b' = size b) /\
  (host_alloc D sz b w = Ok b' w' \/ free_host D b w = Ok b' w' ->
   dev_mem w' = dev_mem w /\ dev_blocks w' = dev_blocks w /\
   cuda_frees w' = cuda_frees w /\
   d_ptr b' = d_ptr b /\ d_do_free b' = d_do_free b /\ size b' = size b).
Proof.
  split.
  - intros [H | [H | [H | H]]]; unfold_ops; unfold host_frees; cbn in H;
      case_ifs; try discriminate; inversion H; subst; cbn; auto 10.
  - intros [H | H]; unfold_ops; unfold cuda_frees; cbn in H;
      case_ifs; try discriminate; inversion H; subst; cbn; auto 10.
Qed.

(** ** Releasing a null pointer *)

(** X17: the two release paths differ on a null pointer: [free_device] returns
    in every build (with [DEBUG_CUDA] after a warning) and releases nothing;
    [free_host] returns only without [DEBUG_CUDA], and with it ends the
    process; so does [free()] on a buffer that has no host array. *)
Theorem free_null (D : bool) (b : CudaGlobalPtr) (w : World) :
  (d_ptr b = NULL ->
   exists w',
     free_device D b w
     = Ok (mkCudaGlobalPtr (size b) (h_ptr b) NULL (h_do_free b) false) w' /\
     dev_blocks w' = dev_blocks w /\ host_blocks w' = host_blocks w /\
     (D = true ->
      printed "DEBUG_WARNING: Free device memory was called on NULL pointer in free_device().\n" w')) /\
  (h_ptr b = NULL ->
   (D = true -> free_host D b w = Crash ExitFailure) /\
   (D = true -> d_ptr b = NULL -> free D b w = Crash ExitFailure) /\
   (D = false ->
    exists w',
      free_host D b w
      = Ok (mkCudaGlobalPtr (size b) NULL (d_ptr b) false (d_do_free b)) w' /\
      host_blocks w' = host_blocks w /\ dev_blocks w' = dev_blocks w)).
Proof.
  split.
  - intros E. unfold_ops. unfold printed. cbn. rewrite E. cbn.
    destruct D; cbn; eexists; repeat split; intros; try discriminate; cbn; auto.
  - intros E. split; [|split].
    + intros ->. unfold_ops. cbn. rewrite E. reflexivity.
    + intros -> Ed. unfold_ops. cbn. rewrite Ed. cbn. rewrite E. reflexivity.
    + intros ->. unfold_ops. cbn. rewrite E. cbn. eexists. repeat split.
Qed.

(** ** Child views, further *)

(** X18: a child view aliases the parent: on the host, element [i] of each of
    the six buffers of the child is element [firstPos + i] of the parent's
    buffer, and the address of device element [i] of the child is the address
    of device element [firstPos + i] of the parent. *)
Theorem IndexedDataArray_child_aliases (DP : bool) (parent : IndexedDataArray)
        (mask : IndexedDataArrayMask) (i : Z) (w : World) :
  Forall2 (fun sz cp =>
             host_at sz (fst cp) i w = host_at sz (snd cp) (firstPos mask + i) w /\
             ptr_index sz (d_ptr (fst cp)) i
             = ptr_index sz (d_ptr (snd cp)) (firstPos mask + i))
          (buffer_sizeofs DP)
          (zip (buffers (IndexedDataArray_child DP parent mask)) (buffers parent)).
Proof.
  unfold buffer_sizeofs, buffers, IndexedDataArray_child. cbn.
  repeat constructor; cbn;
    first [apply child_buffer_host_at | apply ptr_index_index].
Qed.

(** X19: a view of a view is a view of the parent: the offsets add up and the
    inner mask gives the size. *)
Theorem IndexedDataArray_child_child (DP : bool) (parent : IndexedDataArray)
        (m1 m2 m12 : IndexedDataArrayMask) :
  firstPos m12 = firstPos m1 + firstPos m2 ->
  weightNum m12 = weightNum m2 ->
  IndexedDataArray_child DP (IndexedDataArray_child DP parent m1) m2
  = IndexedDataArray_child DP parent m12.
Proof.
  intros Hf Hw. unfold IndexedDataArray_child, child_buffer. cbn.
  rewrite !ptr_index_index, Hf, Hw. reflexivity.
Qed.

Lemma dev_range_ok_sub (w : World) (p n p' n' : Z) :
  dev_range_ok w p n = true -> p <= p' -> p' + n' <= p + n ->
  dev_range_ok w p' n' = true.
Proof.
  unfold dev_range_ok. intros H Hp Hn.
  apply existsb_exists in H. destruct H as (blk & Hin & Hblk).
  apply existsb_exists. exists blk. split; [exact Hin|].
  unfold in_block in *. apply andb_true_iff in Hblk. destruct Hblk as [H1 H2].
  apply Z.leb_le in H1, H2. apply andb_true_iff. split; apply Z.leb_le; lia.
Qed.

(** X20: [cp_to_device] on the view of a parent buffer copies exactly the
    selected elements: when the parent's device array is allocated and the
    mask lies inside the parent, the call returns, the bytes of the elements
    [firstPos], ..., [firstPos + weightNum - 1] of the parent's device array
    are those of the parent's host array, and every other byte of the
    parent's device array is as before. *)
Theorem child_cp_to_device (D : bool) (sz : Z) (pb : CudaGlobalPtr)
        (mask : IndexedDataArrayMask) (w : World) :
  0 < sz -> 0 <= firstPos mask -> 0 <= weightNum mask ->
  firstPos mask + weightNum mask <= size pb ->
  0 <= h_ptr pb -> h_ptr pb + size pb * sz < 2 ^ 64 ->
  0 <= d_ptr pb -> d_ptr pb + size pb * sz < 2 ^ 64 ->
  dev_range_ok w (d_ptr pb) (size pb * sz) = true ->
  exists w',
    cp_to_device D sz (child_buffer sz pb mask) w = Ok (child_buffer sz pb mask) w' /\
    (forall i, firstPos mask * sz <= i < (firstPos mask + weightNum mask) * sz ->
               dev_mem w' (d_ptr pb + i) = host_mem w (h_ptr pb + i)) /\
    (forall i, i < firstPos mask * sz \/ (firstPos mask + weightNum mask) * sz <= i ->
               dev_mem w' (d_ptr pb + i) = dev_mem w (d_ptr pb + i)) /\
    host_mem w' = host_mem w.
Proof.
  intros Hsz Hf Hwn Hin Hh Hhmax Hd Hdmax Hok.
  assert (Hfs : 0 <= firstPos mask * sz) by nia.
  assert (Hws : 0 <= weightNum mask * sz) by nia.
  assert (Hsum : firstPos mask * sz + weightNum mask * sz <= size pb * sz) by nia.
  assert (Eh : h_ptr (child_buffer sz pb mask) = h_ptr pb + firstPos mask * sz)
    by (cbn; apply ptr_index_small; lia).
  assert (Ed : d_ptr (child_buffer sz pb mask) = d_ptr pb + firstPos mask * sz)
    by (cbn; apply ptr_index_small; lia).
  assert (En : wrap64 (size (child_buffer sz pb mask) * sz) = weightNum mask * sz)
    by (cbn; apply wrap64_small; lia).
  assert (Hokc : dev_range_ok w (d_ptr (child_buffer sz pb mask))
                              (wrap64 (size (child_buffer sz pb mask) * sz)) = true).
  { rewrite Ed, En. apply (dev_range_ok_sub w (d_ptr pb) (size pb * sz)); [exact Hok|lia|lia]. }
  destruct (cp_to_device_Ok D sz (child_buffer sz pb mask) w (or_intror Hokc))
    as (w' & E & _ & Hm & _ & _ & Hdm).
  exists w'. split; [exact E|]. rewrite Hokc, Eh, Ed, En in Hdm. rewrite Hdm.
  split; [|split; [|exact Hm]].
  - intros i Hi.
    replace (d_ptr pb + i) with (d_ptr pb + firstPos mask * sz + (i - firstPos mask * sz)) by lia.
    rewrite copy_bytes_inside by lia. f_equal. lia.
  - intros i Hi. apply copy_bytes_outside. lia.
Qed.

(** ** The mask *)

(** X21: [setNumberOfWeights(n)] stores [n], converted to [unsigned long], in
    [weightNum] and nothing else: a negative [n] is stored as [2^64 + n].  A
    child view built with the mask takes that value as the size of its six
    buffers, and its pointers do not depend on it. *)
Theorem setNumberOfWeights_spec (n : Z) (m : IndexedDataArrayMask) :
  (0 <= n < 2 ^ 63 -> weightNum (setNumberOfWeights n m) = n) /\
  (- 2 ^ 63 <= n < 0 -> weightNum (setNumberOfWeights n m) = 2 ^ 64 + n) /\
  jobOrigin (setNumberOfWeights n m) = jobOrigin m /\
  jobExtent (setNumberOfWeights n m) = jobExtent m /\
  firstPos (setNumberOfWeights n m) = firstPos m /\
  lastPos (setNumberOfWeights n m) = lastPos m /\
  jobNum (setNumberOfWeights n m) = jobNum m /\
  (forall DP parent,
      uniform_size (IndexedDataArray_child DP parent (setNumberOfWeights n m))
                   (weightNum (setNumberOfWeights n m)) /\
      map h_ptr (buffers (IndexedDataArray_child DP parent (setNumberOfWeights n m)))
      = map h_ptr (buffers (IndexedDataArray_child DP parent m)) /\
      map d_ptr (buffers (IndexedDataArray_child DP parent (setNumberOfWeights n m)))
      = map d_ptr (buffers (IndexedDataArray_child DP parent m))).
Proof.
  split; [intros H; cbn; apply to_ulong_nonneg; exact H|].
  split.
  { intros H. cbn. unfold to_ulong, wrap64.
    rewrite <- (Z.mod_add n 1 (2 ^ 64)) by lia.
    replace (n + 1 * 2 ^ 64) with (2 ^ 64 + n) by lia.
    apply Z.mod_small. lia. }
  repeat split. apply child_uniform.
Qed.

Lemma CudaGlobalPtr_dtor_host_owned (D : bool) (b : CudaGlobalPtr) (w : World) :
  d_do_free b = false -> h_do_free b = true ->
  h_ptr b <> NULL -> is_live (h_ptr b) (host_blocks w) = true ->
  exists w',
    CudaGlobalPtr_dtor D b w = Ok (mkCudaGlobalPtr (size b) NULL (d_ptr b) false false) w' /\
    host_frees w' = h_ptr b :: host_frees w /\
    cuda_frees w' = cuda_frees w /\
    host_blocks w' = drop_block (h_ptr b) (host_blocks w) /\
    dev_blocks w' = dev_blocks w.
Proof.
  intros Hd Hh Hnn Hl.
  destruct (free_host_effect D b w) as (w' & E & Hf & Hc & Hb & _ & Hdb);
    [right; auto|].
  exists w'. unfold CudaGlobalPtr_dtor, mbind, M_bind, bind, ret.
  rewrite Hd, Hh, E, Hd. auto 10.
Qed.

(** X22: destroying a mask: when the job buffers were never allocated (as after
    the constructor, [setNumberOfJobs] and [setNumberOfWeights]) nothing is
    released; when both own a live host array, the member destructors delete
    [jobExtent]'s array and then [jobOrigin]'s, each once, although the body
    of the mask's destructor is empty. *)
Theorem IndexedDataArrayMask_dtor_releases (D : bool) (m : IndexedDataArrayMask)
        (w : World) :
  (forall n k,
      IndexedDataArrayMask_dtor D
        (setNumberOfWeights k (setNumberOfJobs n IndexedDataArrayMask_empty)) w
      = Ok tt w) /\
  (d_do_free (jobOrigin m) = false -> d_do_free (jobExtent m) = false ->
   h_do_free (jobOrigin m) = true -> h_do_free (jobExtent m) = true ->
   h_ptr (jobOrigin m) <> NULL -> h_ptr (jobExtent m) <> NULL ->
   h_ptr (jobOrigin m) <> h_ptr (jobExtent m) ->
   is_live (h_ptr (jobOrigin m)) (host_blocks w) = true ->
   is_live (h_ptr (jobExtent m)) (host_blocks w) = true ->
   exists w',
     IndexedDataArrayMask_dtor D m w = Ok tt w' /\
     host_frees w' = h_ptr (jobOrigin m) :: h_ptr (jobExtent m) :: host_frees w /\
     cuda_frees w' = cuda_frees w /\
     is_live (h_ptr (jobOrigin m)) (host_blocks w') = false /\
     is_live (h_ptr (jobExtent m)) (host_blocks w') = false).
Proof.
  split.
  - intros n k. unfold IndexedDataArrayMask_dtor.
    repeat (erewrite bind_Ok by (apply CudaGlobalPtr_dtor_unowned; reflexivity)).
    reflexivity.
  - intros Hd1 Hd2 Hh1 Hh2 Hn1 Hn2 Hne Hl1 Hl2. unfold IndexedDataArrayMask_dtor.
    destruct (CudaGlobalPtr_dtor_host_owned D (jobExtent m) w Hd2 Hh2 Hn2 Hl2)
      as (w1 & E1 & Hf1 & Hc1 & Hb1 & _).
    rewrite (bind_Ok _ _ _ _ _ E1).
    destruct (CudaGlobalPtr_dtor_host_owned D (jobOrigin m) w1 Hd1 Hh1 Hn1)
      as (w2 & E2 & Hf2 & Hc2 & Hb2 & _).
    { rewrite Hb1, is_live_drop_other by congruence. exact Hl1. }
    rewrite (bind_Ok _ _ _ _ _ E2).
    exists w2. split; [reflexivity|].
    rewrite Hf2, Hf1, Hc2, Hc1, Hb2, Hb1.
    split; [reflexivity|]. split; [reflexivity|]. split.
    + apply is_live_drop.
    + rewrite is_live_drop_other by congruence. apply is_live_drop.
Qed.

(** ** An array that owns its twelve blocks *)

Lemma IndexedDataArray_dtor_as_list (D : bool) (a : IndexedDataArray) :
  IndexedDataArray_dtor D a = destroy_all D (rev (buffers a)).
Proof. reflexivity. Qed.

Lemma is_live_drop_false (p q : Z) (l : list (Z * Z)) :
  is_live p l = false -> is_live p (drop_block q l) = false.
Proof.
  unfold is_live, drop_block. induction l as [|blk l IH]; cbn; [reflexivity|].
  intros H. apply orb_false_iff in H. destruct H as [H1 H2].
  destruct (is_base q blk); cbn; [auto|]. rewrite H1. auto.
Qed.

(** destroying a list of buffers that own distinct live blocks *)
Lemma destroy_all_owned (D : bool) (bs : list CudaGlobalPtr) :
  forall w : World,
    Forall (fun b => owns_both b w) bs ->
    NoDup (map h_ptr bs) -> NoDup (map d_ptr bs) ->
    exists w',
      destroy_all D bs w = Ok tt w' /\
      host_frees w' = rev (map h_ptr bs) ++ host_frees w /\
      cuda_frees w' = rev (map d_ptr bs) ++ cuda_frees w /\
      Forall (fun b => released b w') bs /\
      (forall p, is_live p (host_blocks w) = false ->
                 is_live p (host_blocks w') = false) /\
      (forall p, is_live p (dev_blocks w) = false ->
                 is_live p (dev_blocks w') = false).
Proof.
  induction bs as [|b rest IH]; intros w Hall Hnh Hnd.
  - exists w. cbn. repeat split; auto.
  - apply Forall_cons_1 in Hall. destruct Hall as [Hb Hrest].
    destruct Hb as (Hh & Hd & Hhn & Hdn & Hhl & Hdl).
    cbn in Hnh, Hnd. apply NoDup_cons in Hnh, Hnd.
    destruct Hnh as [Hhnotin Hnh]. destruct Hnd as [Hdnotin Hnd].
    destruct (CudaGlobalPtr_dtor_owned D b w Hd Hh Hdl Hhl Hhn)
      as (w1 & E1 & Hc1 & Hf1 & Hdb1 & _ & Hhb1).
    specialize (Hdb1 Hdn).
    destruct (IH w1) as (w' & E & Hf & Hc & Hrel & Hmh & Hmd); auto.
    { rewrite Forall_forall in Hrest. apply Forall_forall. intros x Hx.
      destruct (Hrest x Hx) as (Xh & Xd & Xhn & Xdn & Xhl & Xdl).
      repeat split; auto.
      - rewrite Hhb1, is_live_drop_other; [exact Xhl|].
        intros Heq. apply Hhnotin. rewrite Heq. apply list_elem_of_fmap_2. exact Hx.
      - rewrite Hdb1, is_live_drop_other; [exact Xdl|].
        intros Heq. apply Hdnotin. rewrite Heq. apply list_elem_of_fmap_2. exact Hx. }
    exists w'. cbn [destroy_all]. rewrite (bind_Ok _ _ _ _ _ E1).
    split; [exact E|]. rewrite Hf, Hc, Hf1, Hc1. cbn [map rev].
    rewrite <- !app_assoc. cbn.
    split; [reflexivity|]. split; [reflexivity|].
    split; [|split].
    + constructor; [|exact Hrel]. split.
      * apply Hmh. rewrite Hhb1. apply is_live_drop.
      * apply Hmd. rewrite Hdb1. apply is_live_drop.
    + intros p Hp. apply Hmh. rewrite Hhb1. apply is_live_drop_false. exact Hp.
    + intros p Hp. apply Hmd. rewrite Hdb1. apply is_live_drop_false. exact Hp.
Qed.

Ltac host_run D sz b w :=
  let w' := fresh "u" in let E := fresh "E" in
  let Hb := fresh "Hhb" in let Hd := fresh "Hdb" in
  let Hf := fresh "Hhf" in let Hc := fresh "Hcf" in
  let Hk := fresh "Hhk" in
  destruct (host_alloc_run D sz b w)
    as (w' & E & Hb & Hd & Hf & Hc & _ & _ & Hk & ? & ? & ?);
  [ nia | nia | rewrite (bind_Ok _ _ _ _ _ E); clear E ].

Ltac dev_run D sz b w :=
  let w' := fresh "u" in let E := fresh "E" in
  let Hb := fresh "Hhb" in let Hd := fresh "Hdb" in
  let Hf := fresh "Hhf" in let Hc := fresh "Hcf" in
  let Hk := fresh "Hdk" in
  destruct (device_alloc_run D sz b w)
    as (w' & E & Hd & Hb & Hf & Hc & _ & _ & Hk & ? & ? & ? & _);
  [ cbn; rewrite wrap64_small by nia; nia
  | cbn in *; rewrite wrap64_small in * by nia;
    rewrite (bind_Ok _ _ _ _ _ E); clear E ].

Ltac to_first_world :=
  repeat match goal with
         | H : host_blocks ?u = _ |- context [host_blocks ?u] => rewrite H
         | H : dev_blocks ?u = _ |- context [dev_blocks ?u] => rewrite H
         | H : host_frees ?u = _ |- context [host_frees ?u] => rewrite H
         | H : cuda_frees ?u = _ |- context [cuda_frees ?u] => rewrite H
         end.

Lemma is_live_In (p n : Z) (l : list (Z * Z)) : In (p, n) l -> is_live p l = true.
Proof.
  intros H. unfold is_live. apply existsb_exists. exists (p, n).
  split; [exact H|]. unfold is_base. cbn. apply Z.eqb_refl.
Qed.

(** what [dual_alloc_all] leaves behind when there is room *)
Lemma dual_alloc_all_owns (D DP : bool) (a : IndexedDataArray) (n : Z) (w : World) :
  uniform_size a n -> 0 <= n -> n * 8 < 2 ^ 64 ->
  host_brk w + 6 * (n * 8 + 1) <= host_end w ->
  dev_brk w + 6 * (n * 8 + 1) <= dev_end w ->
  0 < host_brk w -> 0 < dev_brk w ->
  exists a' w',
    dual_alloc_all D DP a w = Ok a' w' /\
    Forall (fun b => owns_both b w') (buffers a') /\
    NoDup (map h_ptr (buffers a')) /\ NoDup (map d_ptr (buffers a')) /\
    host_frees w' = host_frees w /\ cuda_frees w' = cuda_frees w.
Proof.
  intros Hu Hn Hmax Hh Hd Hhp Hdp.
  apply uniform_size_inv in Hu. destruct Hu as (S1 & S2 & S3 & S4 & S5 & S6).
  pose proof (sizeof_FLOAT_bounds DP) as HF.
  assert (Hul : sizeof_ulong = 8) by reflexivity.
  unfold dual_alloc_all.
  match goal with |- context [host_alloc ?d ?s ?b] => host_run d s b w end.
  repeat match goal with
         | |- context [(host_alloc ?d ?s ?b ≫= _) ?v] => host_run d s b v
         end.
  repeat match goal with
         | |- context [(device_alloc ?d ?s ?b ≫= _) ?v] => dev_run d s b v
         end.
  eexists. eexists. split; [reflexivity|].
  split; [|split; [|split; [|split]]].
  - unfold buffers, owns_both, NULL. cbn.
    repeat constructor; cbn; try lia; to_first_world;
      eapply is_live_In; cbn; eauto 10.
  - unfold buffers. cbn.
    repeat (apply NoDup_cons_2;
            [rewrite ?not_elem_of_cons; repeat split; try lia; apply not_elem_of_nil|]).
    apply NoDup_nil_2.
  - unfold buffers. cbn.
    repeat (apply NoDup_cons_2;
            [rewrite ?not_elem_of_cons; repeat split; try lia; apply not_elem_of_nil|]).
    apply NoDup_nil_2.
  - to_first_world. reflexivity.
  - to_first_world. reflexivity.
Qed.

(** X23: an array allocated by [dual_alloc_all] owns what it allocated, and
    gives all of it back: with room on both sides the call returns; each of
    the six buffers then owns a live host block and a live device block, the
    twelve blocks are distinct; and the destructor of the array calls
    [delete []] and [cudaFree] once on each, after which none is live. *)
Theorem dual_alloc_all_then_destroy (D DP : bool) (a : IndexedDataArray) (n : Z)
        (w : World) :
  uniform_size a n -> 0 <= n -> n * 8 < 2 ^ 64 ->
  host_brk w + 6 * (n * 8 + 1) <= host_end w ->
  dev_brk w + 6 * (n * 8 + 1) <= dev_end w ->
  0 < host_brk w -> 0 < dev_brk w ->
  exists a' w1 w2,
    dual_alloc_all D DP a w = Ok a' w1 /\
    Forall (fun b => owns_both b w1) (buffers a') /\
    NoDup (map h_ptr (buffers a')) /\ NoDup (map d_ptr (buffers a')) /\
    IndexedDataArray_dtor D a' w1 = Ok tt w2 /\
    host_frees w2 = map h_ptr (buffers a') ++ host_frees w /\
    cuda_frees w2 = map d_ptr (buffers a') ++ cuda_frees w /\
    Forall (fun b => released b w2) (buffers a').
Proof.
  intros Hu Hn Hmax Hh Hd Hhp Hdp.
  destruct (dual_alloc_all_owns D DP a n w Hu Hn Hmax Hh Hd Hhp Hdp)
    as (a' & w1 & E1 & Hown & Hnh & Hnd & Hf1 & Hc1).
  destruct (destroy_all_owned D (rev (buffers a')) w1)
    as (w2 & E2 & Hf2 & Hc2 & Hrel & _).
  - apply List.Forall_rev. exact Hown.
  - rewrite List.map_rev, <- Permutation_rev. exact Hnh.
  - rewrite List.map_rev, <- Permutation_rev. exact Hnd.
  - exists a', w1, w2. split; [exact E1|].
    split; [exact Hown|]. split; [exact Hnh|]. split; [exact Hnd|].
    rewrite IndexedDataArray_dtor_as_list. split; [exact E2|].
    rewrite Hf2, Hc2, !List.map_rev, !List.rev_involutive, Hf1, Hc1.
    split; [reflexivity|]. split; [reflexivity|].
    apply List.Forall_rev in Hrel. rewrite List.rev_involutive in Hrel. exact Hrel.
Qed.

(** ** Constructors and ownership *)

(** X24: the three constructors that allocate nothing build buffers whose
    destructor releases nothing; [CudaGlobalPtr<T>(size)] allocates the host
    array with [new] (it does not survive a failing [new]) and owns it: the
    destructor deletes that array once and never calls [cudaFree]. *)
Theorem constructors_and_ownership (D : bool) (sz : Z) (w : World) :
  CudaGlobalPtr_dtor D CudaGlobalPtr_empty w = Ok CudaGlobalPtr_empty w /\
  (forall h n,
      CudaGlobalPtr_dtor D (CudaGlobalPtr_host h n) w = Ok (CudaGlobalPtr_host h n) w) /\
  (forall h d n,
      CudaGlobalPtr_dtor D (CudaGlobalPtr_pair h d n) w
      = Ok (CudaGlobalPtr_pair h d n) w) /\
  (forall n,
      2 ^ 64 <= n * sz \/ host_end w < host_brk w + n * sz ->
      CudaGlobalPtr_sized sz n w = Crash BadAlloc) /\
  (forall n,
      n * sz < 2 ^ 64 -> host_brk w + n * sz <= host_end w -> host_brk w <> NULL ->
      exists w1 w2,
        CudaGlobalPtr_sized sz n w
        = Ok (mkCudaGlobalPtr n (host_brk w) NULL true false) w1 /\
        is_live (host_brk w) (host_blocks w1) = true /\
        CudaGlobalPtr_dtor D (mkCudaGlobalPtr n (host_brk w) NULL true false) w1
        = Ok (mkCudaGlobalPtr n NULL NULL false false) w2 /\
        host_frees w2 = host_brk w :: host_frees w /\
        cuda_frees w2 = cuda_frees w /\
        is_live (host_brk w) (host_blocks w2) = false).
Proof.
  split; [apply CudaGlobalPtr_dtor_unowned; reflexivity|].
  split; [intros; apply CudaGlobalPtr_dtor_unowned; reflexivity|].
  split; [intros; apply CudaGlobalPtr_dtor_unowned; reflexivity|].
  split.
  - intros n H. unfold CudaGlobalPtr_sized, new_array, mbind, M_bind, bind.
    destruct (Z.ltb_spec (n * sz) (2 ^ 64)); [|reflexivity].
    destruct (Z.leb_spec (host_brk w + n * sz) (host_end w)); [lia|reflexivity].
  - intros n Hfit Hroom Hnn.
    assert (E : (n * sz <? 2 ^ 64) && (host_brk w + n * sz <=? host_end w) = true).
    { apply andb_true_iff. split; [apply Z.ltb_lt|apply Z.leb_le]; lia. }
    eexists. 
    destruct (CudaGlobalPtr_dtor_host_owned D
                (mkCudaGlobalPtr n (host_brk w) NULL true false)
                (mkWorld (host_mem w) (dev_mem w) ((host_brk w, n * sz) :: host_blocks w)
                         (dev_blocks w) (host_brk w + Z.max (n * sz) 1) (host_end w)
                         (dev_brk w) (dev_end w) (EvNewArr (host_brk w) (n * sz) :: trace w)))
      as (w2 & E2 & Hf & Hc & Hb & _);
      [reflexivity | reflexivity | exact Hnn | apply is_live_head |].
    exists w2. split.
    { unfold CudaGlobalPtr_sized, new_array, mbind, M_bind, bind, mret, M_ret, ret.
      rewrite E. reflexivity. }
    split; [apply is_live_head|]. split; [exact E2|].
    rewrite Hf, Hc, Hb. split; [reflexivity|]. split; [reflexivity|].
    apply (is_live_drop (host_brk w)).
Qed.

(** * The further properties at sample inputs *)

Lemma ProjectionParams_classes_defined_witness :
  ProjectionParams_classes 0 = None /\
  exists t, ProjectionParams_classes 2 = Some t /\
            vec_get (class_entries t) 1 = Some 0.
Proof.
  destruct (ProjectionParams_classes_defined 0) as [H0 _].
  destruct (ProjectionParams_classes_defined 2) as [_ H2].
  split; [apply H0; lia|].
  destruct H2 as (t & E & _ & _ & _ & Hc & _); [lia|].
  exists t. split; [exact E|]. apply (Hc 1). lia.
Defined.

Lemma pushBackAll_defined_iff_witness :
  is_Some (pushBackAll sample_call sample_empty_table) /\
  pushBackAll sample_call ProjectionParams_empty = None.
Proof.
  destruct (pushBackAll_defined_iff sample_call sample_empty_table) as [Hiff Hnone].
  split; [apply Hiff; cbn; lia|exact Hnone].
Defined.

Lemma ProjectionParams_slice_defined_iff_witness :
  is_Some (ProjectionParams_slice sample_table 2 5).
Proof.
  apply (ProjectionParams_slice_defined_iff sample_table 2 5). cbn. lia.
Defined.

Lemma ProjectionParams_slice_slice_witness :
  ProjectionParams_slice sample_slice 1 2
  = ProjectionParams_slice sample_table (2 + 1) (2 + 2) /\
  is_Some (ProjectionParams_slice sample_slice 1 2).
Proof.
  apply (ProjectionParams_slice_slice sample_table sample_slice 2 5 1 2).
  - reflexivity.
  - lia.
  - lia.
Defined.

Lemma table_inv_kept_witness :
  table_inv sample_empty_table /\ table_inv sample_slice /\
  table_inv (mkProjectionParams [0; 0] (Some 0) [3.5%float] [4.5%float]
                                [5.5%float] [11] [21] [0; 1] [0; 0]).
Proof.
  destruct table_inv_kept as (_ & Hc & Hs & Hp).
  assert (H1 : table_inv sample_empty_table) by (apply (Hc 2); reflexivity).
  assert (H2 : table_inv sample_slice)
    by (apply (Hs sample_table 2 5); [reflexivity|lia]).
  split; [exact H1|]. split; [exact H2|].
  apply (Hp sample_call sample_empty_table); [exact H1 | cbn; lia | reflexivity].
Defined.

Lemma pushBackAll_seq_in_order_witness :
  exists t' s,
    pushBackAll_seq sample_calls sample_empty_table = Some t' /\
    ProjectionParams_slice t' 2 5 = Some s /\
    iorientclasses s = [12; 13; 14].
Proof.
  destruct (pushBackAll_seq_in_order sample_calls sample_empty_table)
    as (t' & E & _ & _ & _ & _ & _ & _ & _ & Hs).
  - unfold calls_in_range, sample_calls. repeat constructor; cbn; lia.
  - destruct (Hs ltac:(repeat split) 2 5) as (s & Es & _ & _ & _ & Hic & _);
      [lia | cbn; lia |].
    exists t', s. split; [exact E|]. split; [exact Es|]. exact Hic.
Defined.

Lemma alloc_and_destroy_releases_once_witness :
  exists w',
    alloc_and_destroy false 4 (CudaGlobalPtr_host 100 10) sample_world
    = Ok (mkCudaGlobalPtr 10 NULL NULL false false) w' /\
    host_frees w' = [4096] /\ cuda_frees w' = [8192].
Proof.
  destruct (alloc_and_destroy_releases_once false 4 (CudaGlobalPtr_host 100 10)
                                            sample_world)
    as (w' & E & Hf & Hc & _); [cbn; lia | cbn; lia | cbn; lia | discriminate |].
  exists w'. split; [exact E|]. split; [exact Hf|exact Hc].
Defined.

Lemma free_and_destroy_releases_once_witness :
  exists w',
    free_and_destroy false (CudaGlobalPtr_pair NULL 8192 4) sample_world_live
    = Ok (mkCudaGlobalPtr 4 NULL NULL false false) w' /\
    cuda_frees w' = [8192] /\ host_frees w' = [NULL].
Proof.
  destruct (free_and_destroy_releases_once false (CudaGlobalPtr_pair NULL 8192 4)
                                           sample_world_live)
    as (w' & _ & E & Hc & Hf); [left; reflexivity | left; split; reflexivity |].
  exists w'. split; [exact E|]. split; [exact Hc|exact Hf].
Defined.

Lemma alloc_twice_leaks_witness :
  exists w',
    alloc_twice_and_destroy true 1 sample_buffer sample_world
    = Ok (mkCudaGlobalPtr 4 100 NULL false false) w' /\
    cuda_frees w' = [8196] /\
    is_live 8192 (dev_blocks w') = true /\
    printed "DEBUG_WARNING: Device double allocation.\n" w'.
Proof.
  destruct (alloc_twice_leaks true 1 sample_buffer sample_world)
    as (w' & E & Hc & Hl & _ & Hp); [reflexivity | cbn; lia | cbn; lia | cbn; lia |].
  exists w'. split; [exact E|]. split; [exact Hc|]. split; [exact Hl|].
  apply Hp. reflexivity.
Defined.

Lemma allocation_failure_witness :
  host_alloc false 1 sample_buffer sample_world_full = Crash BadAlloc /\
  device_alloc true 1 sample_buffer sample_world_full = Crash SigSegv /\
  exists b2 w2,
    device_alloc_and_destroy false 1 sample_view sample_world_full = Ok b2 w2 /\
    cuda_frees w2 = [8192].
Proof.
  destruct (allocation_failure false 1 sample_buffer sample_world_full) as [Hh _].
  destruct (allocation_failure true 1 sample_buffer sample_world_full) as [_ Hd].
  destruct (allocation_failure false 1 sample_view sample_world_full) as [_ Hv].
  split; [apply Hh; right; cbn; lia|].
  split; [apply Hd; reflexivity|].
  destruct Hv as [_ Hv]; [reflexivity|].
  destruct (Hv eq_refl) as (b' & E & _ & _ & Hrun).
  destruct (Hrun eq_refl) as (b2 & w2 & E2 & Hc & _).
  exists b2, w2. split; [exact E2|].
  assert (Eb : b' = set_d_do_free true sample_view).
  { assert (E0 : device_alloc false 1 sample_view sample_world_full
                 = Ok (set_d_do_free true sample_view) sample_world_full)
      by reflexivity.
    rewrite E0 in E. injection E as <-. reflexivity. }
  rewrite Hc, Eb. reflexivity.
Defined.

Lemma put_on_device_stages_witness :
  exists b' w',
    put_on_device false 1 sample_buffer sample_world_data = Ok b' w' /\
    dev_data 1 b' w' = [Byte.x01; Byte.x02; Byte.x03; Byte.x04] /\
    exists b2 w2,
      put_on_device_size false 1 2 sample_buffer sample_world_data = Ok b2 w2 /\
      size b2 = 2 /\ dev_data 1 b2 w2 = [Byte.x01; Byte.x02].
Proof.
  destruct (put_on_device_stages false 1 sample_buffer sample_world_data) as [H1 H2].
  destruct H1 as (b' & w' & E & _ & _ & _ & _ & Hd & _); [cbn; lia | cbn; lia |].
  destruct (H2 2) as (b2 & w2 & E2 & Hs & _ & _ & _ & Hd2 & _); [lia | cbn; lia |].
  exists b', w'. split; [exact E|]. split; [rewrite Hd; reflexivity|].
  exists b2, w2. split; [exact E2|]. split; [exact Hs|]. rewrite Hd2. reflexivity.
Defined.

Lemma device_init_fills_witness :
  (exists w',
      device_init false 1 255 sample_view sample_world_live = Ok sample_view w' /\
      read_bytes (dev_mem w') 8192 4 = [Byte.xff; Byte.xff; Byte.xff; Byte.xff]) /\
  device_init true 1 255 sample_buffer sample_world = Crash SigSegv.
Proof.
  destruct (device_init_fills false 1 255 sample_view sample_world_live) as [H1 _].
  destruct (device_init_fills true 1 255 sample_buffer sample_world) as [_ H2].
  split.
  - destruct (H1 eq_refl) as (w' & E & Hr & _).
    exists w'. split; [exact E|]. exact Hr.
  - destruct (H2 eq_refl) as [Hc _]. apply Hc. reflexivity.
Defined.

Lemma transfer_before_allocation_witness :
  cp_to_device true 1 sample_buffer sample_world = Crash SigSegv /\
  exists w1, cp_to_device false 1 sample_buffer sample_world = Ok sample_buffer w1.
Proof.
  destruct (transfer_before_allocation true 1 sample_buffer sample_world eq_refl)
    as [Ht _].
  destruct (transfer_before_allocation false 1 sample_buffer sample_world eq_refl)
    as [_ Hf].
  split; [apply (Ht eq_refl)|].
  destruct (Hf eq_refl) as (w1 & w2 & E & _). exists w1. exact E.
Defined.

Lemma cp_to_host_effect_witness :
  exists w',
    cp_to_host false 1 sample_view sample_world_live = Ok sample_view w' /\
    host_data 1 sample_view w' = [Byte.x00; Byte.x00; Byte.x00; Byte.x00] /\
    host_mem w' 99 = host_mem sample_world_live 99.
Proof.
  destruct (cp_to_host_effect false 1 sample_view sample_world_live eq_refl)
    as (w' & E & _ & Hd & Hout & _).
  exists w'. split; [exact E|]. split.
  - rewrite Hd by (cbn; lia). reflexivity.
  - apply Hout. left. cbn. lia.
Defined.

Lemma round_trip_back_identity_witness :
  exists w',
    round_trip_back false 1 sample_view sample_world_live = Ok sample_view w' /\
    dev_mem w' 8192 = dev_mem sample_world_live 8192.
Proof.
  destruct (round_trip_back_identity false 1 sample_view sample_world_live eq_refl)
    as (w' & E & Hd & _).
  exists w'. split; [exact E|apply Hd].
Defined.

Lemma sides_are_independent_witness :
  match free_device false sample_view sample_world_live with
  | Ok b' w' => host_blocks w' = [] /\ h_ptr b' = 100
  | Crash _ => True
  end.
Proof.
  destruct (free_device false sample_view sample_world_live) as [b' w'|f] eqn:E;
    [|exact I].
  destruct (sides_are_independent false 1 0 sample_view b' sample_world_live w')
    as [Hdev _].
  destruct Hdev as (_ & Hb & _ & Hh & _); [right; right; right; exact E|].
  split; [exact Hb|exact Hh].
Defined.

Lemma free_null_witness :
  (exists w', free_device true CudaGlobalPtr_empty sample_world
              = Ok CudaGlobalPtr_empty w') /\
  free_host true CudaGlobalPtr_empty sample_world = Crash ExitFailure /\
  free true CudaGlobalPtr_empty sample_world = Crash ExitFailure.
Proof.
  destruct (free_null true CudaGlobalPtr_empty sample_world) as [Hd Hh].
  destruct (Hd eq_refl) as (w' & E & _).
  destruct (Hh eq_refl) as (H1 & H2 & _).
  split; [exists w'; exact E|]. split; [apply H1; reflexivity|].
  apply H2; reflexivity.
Defined.

Lemma IndexedDataArray_child_child_witness :
  IndexedDataArray_child false
    (IndexedDataArray_child false (setDataSize 10 IndexedDataArray_empty) sample_mask)
    sample_mask
  = IndexedDataArray_child false (setDataSize 10 IndexedDataArray_empty)
                           sample_mask_inner.
Proof.
  apply (IndexedDataArray_child_child false (setDataSize 10 IndexedDataArray_empty)
                                      sample_mask sample_mask sample_mask_inner);
    reflexivity.
Defined.

Lemma child_cp_to_device_witness :
  exists w',
    cp_to_device false 4 (child_buffer 4 sample_parent_buffer sample_mask)
                 sample_world_parent
    = Ok (child_buffer 4 sample_parent_buffer sample_mask) w' /\
    dev_mem w' (8192 + 12) = host_mem sample_world_parent (4096 + 12) /\
    dev_mem w' (8192 + 11) = dev_mem sample_world_parent (8192 + 11).
Proof.
  destruct (child_cp_to_device false 4 sample_parent_buffer sample_mask
                               sample_world_parent)
    as (w' & E & Hin & Hout & _);
    [lia | cbn; lia | cbn; lia | cbn; lia | cbn; lia | cbn; lia | cbn; lia
     | cbn; lia | reflexivity |].
  exists w'. split; [exact E|]. split.
  - apply (Hin 12). cbn. lia.
  - apply (Hout 11). cbn. lia.
Defined.

Lemma setNumberOfWeights_spec_witness :
  weightNum (setNumberOfWeights 4 sample_mask_all) = 4 /\
  weightNum (setNumberOfWeights (-1) sample_mask_all) = 2 ^ 64 + -1.
Proof.
  destruct (setNumberOfWeights_spec 4 sample_mask_all) as (H & _).
  destruct (setNumberOfWeights_spec (-1) sample_mask_all) as (_ & H' & _).
  split; [apply H; lia|apply H'; lia].
Defined.

Lemma IndexedDataArrayMask_dtor_releases_witness :
  IndexedDataArrayMask_dtor false
    (setNumberOfWeights 4 (setNumberOfJobs 3 IndexedDataArrayMask_empty)) sample_world
  = Ok tt sample_world /\
  exists w',
    IndexedDataArrayMask_dtor false sample_job_mask sample_world_jobs = Ok tt w' /\
    host_frees w' = [4096; 4120].
Proof.
  destruct (IndexedDataArrayMask_dtor_releases false sample_job_mask sample_world)
    as [H1 _].
  destruct (IndexedDataArrayMask_dtor_releases false sample_job_mask sample_world_jobs)
    as [_ H2].
  split; [apply H1|].
  destruct H2 as (w' & E & Hf & _);
    [reflexivity | reflexivity | reflexivity | reflexivity | discriminate
     | discriminate | discriminate | reflexivity | reflexivity |].
  exists w'. split; [exact E|exact Hf].
Defined.

Lemma dual_alloc_all_then_destroy_witness :
  exists a' w1 w2,
    dual_alloc_all false false (setDataSize 10 IndexedDataArray_empty) sample_world
    = Ok a' w1 /\
    IndexedDataArray_dtor false a' w1 = Ok tt w2 /\
    length (host_frees w2) = 6%nat /\ length (cuda_frees w2) = 6%nat.
Proof.
  destruct (dual_alloc_all_then_destroy false false
              (setDataSize 10 IndexedDataArray_empty) 10 sample_world)
    as (a' & w1 & w2 & E1 & _ & _ & _ & E2 & Hf & Hc & _).
  - unfold uniform_size, buffers. cbn. repeat constructor.
  - lia.
  - lia.
  - cbn. lia.
  - cbn. lia.
  - cbn. lia.
  - cbn. lia.
  - exists a', w1, w2. split; [exact E1|]. split; [exact E2|].
    rewrite Hf, Hc, !length_app, !length_map. split; reflexivity.
Defined.

Lemma constructors_and_ownership_witness :
  exists w1 w2,
    CudaGlobalPtr_sized 4 10 sample_world
    = Ok (mkCudaGlobalPtr 10 4096 NULL true false) w1 /\
    CudaGlobalPtr_dtor false (mkCudaGlobalPtr 10 4096 NULL true false) w1
    = Ok (mkCudaGlobalPtr 10 NULL NULL false false) w2 /\
    host_frees w2 = [4096] /\
    CudaGlobalPtr_sized 4 10 sample_world_full = Crash BadAlloc.
Proof.
  destruct (constructors_and_ownership false 4 sample_world) as (_ & _ & _ & _ & H).
  destruct (constructors_and_ownership false 4 sample_world_full)
    as (_ & _ & _ & Hfull & _).
  destruct (H 10) as (w1 & w2 & E1 & _ & E2 & Hf & _);
    [lia | cbn; lia | discriminate |].
  exists w1, w2. split; [exact E1|]. split; [exact E2|]. split; [exact Hf|].
  apply Hfull. right. cbn. lia.
Defined.
